(** * The ROMS native reader of OpenDrift: index resolution and extraction

    A shallow embedding of [readers/reader_ROMS_native.py]: the constructor
    [__init__] and the extraction call [get_variables], together with the
    parts of numpy, bisect and netCDF4 they rest on.

    Conventions of the embedding:
    - Python floats are idealised as rationals ([Q]); comparisons of floats
      are comparisons of rationals, and two floats are the same value when
      they are [Qeq]-equal.
    - Python ints are [Z]; lengths and positions are [nat].
    - A numpy array is its shape and its row-major contents ([ndarray]).
    - Exceptions are values of [exn]; a computation that can raise, log or
      update the reader runs in the monad [M]. *)

From Stdlib Require Import QArith Qround ZArith Lia Lqa.
From stdpp Require Import base gmap strings list.
From Equations Require Import Equations.

(* ===================================================================== *)
(** * Numbers *)
(* ===================================================================== *)

(** [a < b] on floats, as a boolean. *)
Definition Qltb (a b : Q) : bool := negb (Qle_bool b a).

(** The smaller and the larger of two floats. *)
Definition Qmin2 (a b : Q) : Q := if Qltb b a then b else a.
Definition Qmax2 (a b : Q) : Q := if Qltb a b then b else a.

(** [a.min()] and [a.max()] of a one-dimensional float array: numpy raises
    ValueError on an empty array, which is [None] here. *)
Definition np_min (a : list Q) : option Q :=
  match a with
  | [] => None
  | x :: t => Some (foldl Qmin2 x t)
  end.

Definition np_max (a : list Q) : option Q :=
  match a with
  | [] => None
  | x :: t => Some (foldl Qmax2 x t)
  end.

(** The same for integer arrays. *)
Definition np_imin (a : list Z) : option Z :=
  match a with
  | [] => None
  | x :: t => Some (foldl Z.min x t)
  end.

Definition np_imax (a : list Z) : option Z :=
  match a with
  | [] => None
  | x :: t => Some (foldl Z.max x t)
  end.

(** [np.arange(a, b)] on ints: [a, a+1, ..., b-1], empty when [b <= a]. *)
Definition arange (a b : Z) : list Z :=
  map (fun i : nat => (a + Z.of_nat i)%Z) (seq 0 (Z.to_nat (b - a))).

(** [np.min(z_profiles, axis=1)] and [np.max(z_profiles, axis=1)] of a
    two-dimensional array given by its rows: one value per row, ValueError
    when the rows are empty. *)
Definition np_min_axis1 (rows : list (list Q)) : option (list Q) := mapM np_min rows.
Definition np_max_axis1 (rows : list (list Q)) : option (list Q) := mapM np_max rows.

(* ===================================================================== *)
(** * bisect.bisect_left *)
(* ===================================================================== *)

(** The loop of [bisect_left(a, x, lo, hi)]:
<<
    while lo < hi:
        mid = (lo+hi)//2
        if a[mid] < x: lo = mid+1
        else: hi = mid
    return lo
>>
    [a[mid]] is read with a default, which is never used: [mid < hi <= len(a)]
    on every iteration started from [hi = len(a)]. *)
Equations? bisect_loop (a : list Q) (x : Q) (lo hi : nat) : nat by wf (hi - lo) lt :=
  bisect_loop a x lo hi with decide (lo < hi) => {
    | left _ :=
        if Qltb (nth ((lo + hi) / 2) a 0%Q) x
        then bisect_loop a x (S ((lo + hi) / 2)) hi
        else bisect_loop a x lo ((lo + hi) / 2);
    | right _ := lo }.
Proof.
  all: change (Nat.divmod (lo + hi) 1 0 1).1 with ((lo + hi) / 2).
  all: assert ((lo + hi) / 2 < hi) by (apply Nat.Div0.div_lt_upper_bound; lia).
  all: assert (lo <= (lo + hi) / 2) by (apply Nat.div_le_lower_bound; lia).
  all: lia.
Qed.

Definition bisect_left (a : list Q) (x : Q) : nat := bisect_loop a x 0 (length a).

(** Non-decreasing arrays, by position. *)
Definition nondecreasing (a : list Q) : Prop :=
  forall i j, i <= j -> j < length a -> (nth i a 0 <= nth j a 0)%Q.

(* ===================================================================== *)
(** * Exceptions, the log, and the monad of the reader's methods *)
(* ===================================================================== *)

Inductive exn :=
| ValueError (msg : string)
| IndexError (msg : string)
| KeyError (key : string)
| AttributeError (attr : string)
| TypeError (msg : string)
| Exception (msg : string).

(** A computation that returns a value or raises, and touches no state. *)
Definition result (A : Type) : Type := exn + A.

#[export] Instance result_ret : MRet result := fun A x => inr x.
#[export] Instance result_bind : MBind result := fun A B f m =>
  match m with
  | inr x => f x
  | inl e => inl e
  end.

(** A lookup or an indexing that fails raises [e]. *)
Definition orfail {A} (e : exn) (o : option A) : result A :=
  match o with
  | Some x => inr x
  | None => inl e
  end.

Inductive level := DEBUG | INFO | WARNING.

(** A record of the [logging] module: its level and its format string (the
    arguments of the format are not recorded). *)
Definition logrec : Type := level * string.

(** A method runs on a state [S] (the log, and for [get_variables] the
    reader as well); it returns a value or raises, and what it did to the
    state before raising stays done. *)
Record M (S A : Type) : Type := mkM { run : S -> (exn + A) * S }.
Arguments mkM {S A} _.
Arguments run {S A} _ _.

#[export] Instance M_ret {S} : MRet (M S) := fun A x => mkM (fun s => (inr x, s)).
#[export] Instance M_bind {S} : MBind (M S) := fun A B f m =>
  mkM (fun s => match run m s with
                | (inr x, s') => run (f x) s'
                | (inl e, s') => (inl e, s')
                end).

Definition raise {S A} (e : exn) : M S A := mkM (fun s => (inl e, s)).

(** [try: body / except: handler]. *)
Definition try_except {S A} (body : M S A) (handler : exn -> M S A) : M S A :=
  mkM (fun s => match run body s with
                | (inl e, s') => run (handler e) s'
                | r => r
                end).

(** A pure computation inside a method. *)
Definition liftE {S A} (r : result A) : M S A := mkM (fun s => (r, s)).

Definition orraise {S A} (e : exn) (o : option A) : M S A := liftE (orfail e o).

(** Where the log lives in a state. *)
Class HasLog (S : Type) := add_log : logrec -> S -> S.

Definition logging {S} `{HasLog S} (l : level) (msg : string) : M S unit :=
  mkM (fun s => (inr tt, add_log (l, msg) s)).

#[export] Instance log_HasLog : HasLog (list logrec) := fun r s => s ++ [r].

(* ===================================================================== *)
(** * numpy arrays *)
(* ===================================================================== *)

Record ndarray (A : Type) : Type := mk_ndarray { shape : list nat; flat : list A }.
Arguments mk_ndarray {A} _ _.
Arguments shape {A} _.
Arguments flat {A} _.

Definition ndim {A} (a : ndarray A) : nat := length (shape a).

(** A one-dimensional array. *)
Definition vec {A} (l : list A) : ndarray A := mk_ndarray [length l] l.

(** A two-dimensional array from its rows, [ncols] wide. *)
Definition of_rows {A} (ncols : nat) (rows : list (list A)) : ndarray A :=
  mk_ndarray [length rows; ncols] (concat rows).

Definition product (dims : list nat) : nat := foldr Nat.mul 1 dims.

(** An index into an axis of length [dim]: numpy counts a negative index
    from the end and raises IndexError outside [-dim, dim). *)
Definition norm_index (dim : nat) (i : Z) : option nat :=
  if decide (0 <= i < Z.of_nat dim)%Z then Some (Z.to_nat i)
  else if decide (- Z.of_nat dim <= i < 0)%Z then Some (Z.to_nat (i + Z.of_nat dim))
  else None.

(** What stands at one axis of an indexing expression: an int (the axis is
    dropped from the result) or an int array (the axis stays, as long as the
    array). *)
Inductive selector := At (i : Z) | Take (l : list Z).

(** Orthogonal indexing, as netCDF4 variables do it: the selectors of the
    axes are applied independently, so two index arrays give the outer
    product of their positions. [base] is the row-major offset of the axes
    already walked. *)
Fixpoint outer_fetch {A} (data : list A) (dims : list nat) (sels : list selector)
    (base : nat) : option (list A) :=
  match dims, sels with
  | [], [] => x ← data !! base; Some [x]
  | d :: ds, At i :: ss =>
      k ← norm_index d i; outer_fetch data ds ss (base * d + k)
  | d :: ds, Take l :: ss =>
      parts ← mapM (fun i => k ← norm_index d i;
                             outer_fetch data ds ss (base * d + k)) l;
      Some (concat parts)
  | _, _ => None
  end.

Definition selected_shape (sels : list selector) : list nat :=
  omap (fun s => match s with At _ => None | Take l => Some (length l) end) sels.

(** Pointwise ("fancy") indexing of a two-dimensional numpy array by two
    index arrays of one length: [a[iy, ix][k] = a[iy[k], ix[k]]]. Index
    arrays of different lengths are refused (numpy would first try to
    broadcast them). *)
Definition np_getitem2 {A} (a : ndarray A) (iy ix : list Z) : option (list A) :=
  match shape a with
  | [r; c] =>
      if decide (length iy = length ix)
      then mapM (fun p : Z * Z => i ← norm_index r p.1; j ← norm_index c p.2;
                                  flat a !! (i * c + j)) (zip iy ix)
      else None
  | _ => None
  end.

(** [a[np.meshgrid(iy, ix)]]: meshgrid gives the two index grids of shape
    [(len(ix), len(iy))], and indexing by them is pointwise, so the result
    holds [a[iy[j], ix[i]]] at [(i, j)]. *)
Definition np_getitem_meshgrid {A} (a : ndarray A) (iy ix : list Z) : option (ndarray A) :=
  match shape a with
  | [r; c] =>
      data ← mapM (fun p : Z * Z => i ← norm_index r p.1; j ← norm_index c p.2;
                                    flat a !! (i * c + j))
                  (flat_map (fun i => map (fun j => (j, i)) iy) ix);
      Some (mk_ndarray [length ix; length iy] data)
  | _ => None
  end.

(** [a.diagonal()]: the diagonal of the first two axes; these two axes are
    removed and the diagonal becomes the last axis. *)
Definition diagonal {A} (a : ndarray A) : option (ndarray A) :=
  match shape a with
  | d0 :: d1 :: rest =>
      let m := Nat.min d0 d1 in
      let r := product rest in
      data ← mapM (fun p => flat a !! p)
                  (flat_map (fun q => map (fun i => (i * d1 + i) * r + q) (seq 0 m)) (seq 0 r));
      Some (mk_ndarray (rest ++ [m]) data)
  | _ => None
  end.

(** A masked array: the values and, position by position, the mask. *)
Record MaskedArray : Type := mk_masked { ma_shape : list nat; ma_data : list Q; ma_mask : list bool }.

(** [ndmin=2]: axes of length 1 are put in front until there are two. *)
Definition ndmin2 (sh : list nat) : list nat := replicate (2 - length sh) 1 ++ sh.

(** [np.ma.array(a, ndmin=2, mask=False)] of a plain array. *)
Definition np_ma_array (a : ndarray Q) : MaskedArray :=
  mk_masked (ndmin2 (shape a)) (flat a) (replicate (length (flat a)) false).

(** [m.mask[idx] = True] for an array [idx] of positions: the assignment
    indexes the FIRST axis of the mask, so each position names a whole
    sub-array of it, and raises IndexError when a position is not below the
    length of that axis. *)
Definition mask_setitem_true (m : MaskedArray) (idx : list nat) : option MaskedArray :=
  match ma_shape m with
  | d0 :: rest =>
      if forallb (fun i => i <? d0) idx
      then Some (mk_masked (ma_shape m) (ma_data m)
                   (imap (fun p b => if decide (p / product rest ∈ idx) then true else b)
                         (ma_mask m)))
      else None
  | [] => None
  end.

(** [1 - m]: the values are replaced, the mask is kept. *)
Definition ma_rsub1 (m : MaskedArray) : MaskedArray :=
  mk_masked (ma_shape m) (map (fun v => 1 - v)%Q (ma_data m)) (ma_mask m).

(** [a[idx] = 0] on a one-dimensional int array, for an array of positions. *)
Definition setitem_zero (a : list Z) (idx : list nat) : option (list Z) :=
  if forallb (fun i => i <? length a) idx
  then Some (foldl (fun acc i => <[i := 0%Z]> acc) a idx)
  else None.

(* ===================================================================== *)
(** * The netCDF4 data source *)
(* ===================================================================== *)

(** A variable of the file: its shape, its values in row-major order (no
    missing values), and its [units] attribute when it has one. *)
Record ncvar : Type := mk_ncvar { nc_shape : list nat; nc_data : list Q; nc_units : option string }.

(** An open file: its variables and its dimensions, by name, in the order of
    the file. *)
Record netCDF4_Dataset : Type := mk_dataset {
  ds_variables : list (string * ncvar);
  ds_dimensions : list (string * nat) }.

(** [d[key]] of an ordered dictionary. *)
Fixpoint assoc {A} (key : string) (d : list (string * A)) : option A :=
  match d with
  | [] => None
  | (k, v) :: rest => if String.eqb k key then Some v else assoc key rest
  end.

(** [var[:]]. *)
Definition nc_all (v : ncvar) : ndarray Q := mk_ndarray (nc_shape v) (nc_data v).

(** [var[:][0]] as a number: the first value of a one-dimensional variable.
    It raises IndexError on an empty variable and on a scalar one; a variable
    of two or more dimensions would give an array and not a number, and is
    taken as unreadable too. *)
Definition nc_first (v : ncvar) : option Q :=
  match nc_shape v with
  | [_] => head (nc_data v)
  | _ => None
  end.

(** [var[s1, ..., sk]]: orthogonal indexing. *)
Definition nc_getitem (v : ncvar) (sels : list selector) : option (ndarray Q) :=
  data ← outer_fetch (nc_data v) (nc_shape v) sels 0;
  Some (mk_ndarray (selected_shape sels) data).

(** The sigma-to-depth transforms of the [vgrid] module, by name. *)
Module vgrid.
Inductive family := s_coordinate | s_coordinate_2 | s_coordinate_4.
End vgrid.

(** A point in time (a [datetime]), as a count of seconds. *)
Definition datetime : Type := Z.

(* ===================================================================== *)
(** * The reader *)
(* ===================================================================== *)

(** Map ROMS variable names to CF standard_name. *)
Definition ROMS_variable_mapping : list (string * string) :=
  [ ("mask_psi", "land_binary_mask");
    ("h", "sea_floor_depth");
    ("zeta", "sea_surface_height");
    ("u", "x_sea_water_velocity");
    ("v", "y_sea_water_velocity");
    ("temp", "sea_water_temperature");
    ("salt", "sea_water_salinity");
    ("uice", "sea_ice_x_velocity");
    ("vice", "sea_ice_y_velocity");
    ("aice", "sea_ice_area_fraction");
    ("hice", "sea_ice_thickness") ].

(** Vertical buffer of block around elements. *)
Definition zbuffer : Z := 1.

(** The attributes of a reader. [Vtransform] and [Vstretching] are set only
    when they could be read; [buffer] is set by the caller before a block is
    asked for; [sea_floor_depth] is set by the first depth search. *)
Record Reader : Type := mk_Reader {
  name : string;
  Dataset : netCDF4_Dataset;
  sigma : list Q;
  Vtransform : option Q;
  Vstretching : option Q;
  s_coordinate : vgrid.family;
  theta_s : Q;
  theta_b : Q;
  Tcline : Q;
  num_layers : nat;
  lat : ndarray Q;
  lon : ndarray Q;
  angle_between_x_and_east : ndarray Q;
  times : list datetime;
  start_time : datetime;
  end_time : datetime;
  time_step : option Z;
  xmin : Q;
  xmax : Q;
  delta_x : Q;
  ymin : Q;
  ymax : Q;
  delta_y : Q;
  variables : list string;
  buffer : option Z;
  sea_floor_depth : option (ndarray Q) }.

(** [self.sea_floor_depth = h]. *)
Definition set_sea_floor_depth (h : ndarray Q) (r : Reader) : Reader :=
  mk_Reader (name r) (Dataset r) (sigma r) (Vtransform r) (Vstretching r) (s_coordinate r)
    (theta_s r) (theta_b r) (Tcline r) (num_layers r) (lat r) (lon r)
    (angle_between_x_and_east r) (times r) (start_time r) (end_time r) (time_step r)
    (xmin r) (xmax r) (delta_x r) (ymin r) (ymax r) (delta_y r) (variables r)
    (buffer r) (Some h).

(** [self.buffer = b]. *)
Definition set_buffer (b : Z) (r : Reader) : Reader :=
  mk_Reader (name r) (Dataset r) (sigma r) (Vtransform r) (Vstretching r) (s_coordinate r)
    (theta_s r) (theta_b r) (Tcline r) (num_layers r) (lat r) (lon r)
    (angle_between_x_and_east r) (times r) (start_time r) (end_time r) (time_step r)
    (xmin r) (xmax r) (delta_x r) (ymin r) (ymax r) (delta_y r) (variables r)
    (Some b) (sea_floor_depth r).

(* --------------------------------------------------------------------- *)
(** ** [__init__] *)
(* --------------------------------------------------------------------- *)

(** [(np.arange(num_sigma)+.5-num_sigma)/num_sigma]. *)
Definition synthesize_sigma (num_sigma : nat) : list Q :=
  map (fun i : nat => ((inject_Z (Z.of_nat i) + (1 # 2) - inject_Z (Z.of_nat num_sigma))
                       / inject_Z (Z.of_nat num_sigma))%Q)
      (seq 0 num_sigma).

(** [self.Dataset.variables[key][:][0]]. *)
Definition read_first {S} (ds : netCDF4_Dataset) (key : string) : M S Q :=
  v ← orraise (KeyError key) (assoc key (ds_variables ds));
  orraise (IndexError "index out of bounds") (nc_first v).

(** Read sigma-coordinate values. *)
Definition read_sigma (ds : netCDF4_Dataset) : M (list logrec) (list Q) :=
  try_except
    (v ← orraise (KeyError "s_rho") (assoc "s_rho" (ds_variables ds));
     mret (nc_data v))
    (fun _ =>
       num_sigma ← orraise (KeyError "s_rho") (assoc "s_rho" (ds_dimensions ds));
       logging WARNING
         "s_rho not available in dataset, constructing from number of layers (%s).";;
       mret (synthesize_sigma num_sigma)).

(** The two warnings of the transform step. *)
Definition sigma_unknown_warning : logrec :=
  (WARNING, "Sigma-coordinate transformation unknown for Vtransform = %s and Vstretching = %s; Defaulting to Vtransform = 1, Vstretching = 1").

Definition sigma_missing_warning : logrec :=
  (WARNING, "Sigma-information not available, defaulting to Vtransform = 1, Vstretching = 1").

(** Read sigma-coordinate transform parameters: the attributes [Vtransform]
    and [Vstretching] as far as they were set, and the transform chosen. *)
Definition read_transform (ds : netCDF4_Dataset)
    : M (list logrec) (option Q * option Q * vgrid.family) :=
  try_except
    (vt ← read_first ds "Vtransform";
     vs ← read_first ds "Vstretching";
     if Qeq_bool vt 1 && Qeq_bool vs 1 then
       mret (Some vt, Some vs, vgrid.s_coordinate)
     else if Qeq_bool vt 2 && Qeq_bool vs 2 then
       mret (Some vt, Some vs, vgrid.s_coordinate_2)
     else if Qeq_bool vt 2 && Qeq_bool vs 4 then
       mret (Some vt, Some vs, vgrid.s_coordinate_4)
     else
       logging sigma_unknown_warning.1 sigma_unknown_warning.2;;
       mret (Some vt, Some vs, vgrid.s_coordinate))
    (fun _ =>
       logging sigma_missing_warning.1 sigma_missing_warning.2;;
       mret (assoc "Vtransform" (ds_variables ds) ≫= nc_first, None, vgrid.s_coordinate)).

(** The stretching parameters [(theta_s, theta_b, Tcline)]. *)
Definition read_stretching (ds : netCDF4_Dataset) : M (list logrec) (Q * Q * Q) :=
  try_except
    (ths ← read_first ds "theta_s";
     thb ← read_first ds "theta_b";
     tcl ← read_first ds "Tcline";
     mret (ths, thb, tcl))
    (fun _ =>
       logging WARNING "Missing sigma stretching parameters - using default values";;
       mret (3%Q, (4 # 10)%Q, 10%Q)).

(** Find all variables having standard_name. *)
Definition known_variables (ds : netCDF4_Dataset) : list string :=
  omap (fun p : string * ncvar => assoc p.1 ROMS_variable_mapping) (ds_variables ds).

Section Construction.

(** [Dataset(filename, 'r')] of netCDF4: the file system, [None] where
    opening raises. *)
Variable Dataset_open : string -> option netCDF4_Dataset.
(** [num2date] of netCDF4, [None] where it raises. *)
Variable num2date : list Q -> string -> option (list datetime).
(** The constructor of the parent [Reader] class. *)
Variable super_init : Reader -> M (list logrec) Reader.

Definition __init__ (filename name : option string) : M (list logrec) Reader :=
  filename ← orraise (ValueError "Need filename as argument to constructor") filename;
  let self_name := match name with None => filename | Some n => n end in
  ds ← try_except
         (logging INFO ("Opening dataset: " +:+ filename);;
          orraise (Exception "open") (Dataset_open filename))
         (fun _ => raise (ValueError ("Could not open " +:+ filename +:+
                                      " with netCDF4 library")));
  sigma ← read_sigma ds;
  '(Vt, Vs, s_coord) ← read_transform ds;
  '(ths, thb, tcl) ← read_stretching ds;
  let num_layers := length sigma in
  (* Horizontal coordinates and directions *)
  lat_rho ← orraise (KeyError "lat_rho") (assoc "lat_rho" (ds_variables ds));
  lon_rho ← orraise (KeyError "lon_rho") (assoc "lon_rho" (ds_variables ds));
  angle ← orraise (KeyError "angle") (assoc "angle" (ds_variables ds));
  (* Get time coverage *)
  ocean_time ← orraise (KeyError "ocean_time") (assoc "ocean_time" (ds_variables ds));
  time_units ← orraise (AttributeError "units") (nc_units ocean_time);
  times ← orraise (ValueError "num2date") (num2date (nc_data ocean_time) time_units);
  start_time ← orraise (IndexError "index out of bounds") (head times);
  end_time ← orraise (IndexError "index out of bounds") (last times);
  let time_step :=
    match times with
    | t0 :: t1 :: _ => Some (t1 - t0)%Z
    | _ => None
    end in
  (* x and y are rows and columns for unprojected datasets *)
  xi_rho ← orraise (KeyError "xi_rho") (assoc "xi_rho" (ds_dimensions ds));
  eta_rho ← orraise (KeyError "eta_rho") (assoc "eta_rho" (ds_dimensions ds));
  let xmax := (inject_Z (Z.of_nat xi_rho) - 1)%Q in
  let ymax := (inject_Z (Z.of_nat eta_rho) - 1)%Q in
  let self_name := "roms native" in
  super_init
    (mk_Reader self_name ds sigma Vt Vs s_coord ths thb tcl num_layers
       (nc_all lat_rho) (nc_all lon_rho) (nc_all angle)
       times start_time end_time time_step 0%Q xmax 1%Q 0%Q ymax 1%Q
       (known_variables ds) None None).

End Construction.

(* --------------------------------------------------------------------- *)
(** ** [get_variables] *)
(* --------------------------------------------------------------------- *)

(** A value of the result dictionary: a float array, an int array, a masked
    array, or a time. *)
Inductive value :=
| VFloats (a : ndarray Q)
| VInts (a : list Z)
| VMasked (m : MaskedArray)
| VTime (t : datetime).

(** The state of a call: the reader ([self]) and the log. *)
Definition world : Type := Reader * list logrec.

#[export] Instance world_HasLog : HasLog world := fun r w => (w.1, w.2 ++ [r]).

Definition get_self : M world Reader := mkM (fun w => (inr w.1, w)).
Definition update_self (f : Reader -> Reader) : M world unit :=
  mkM (fun w => (inr tt, (f w.1, w.2))).

(** [np.floor((coord - min)/delta).astype(int)] at one coordinate. *)
Definition floor_index (min delta coord : Q) : Z := Qfloor ((coord - min) / delta).

(** The two ends of the layer range of the depth search, for a vertical
    buffer [zb] and [nsigma] sigma values:
<<
    indz_min = np.max((0, bisect_left(zmaxs, z.min())-self.zbuffer-1))
    indz_max = np.min((len(self.sigma)-1, bisect_left(zmins, z.max())+self.zbuffer+1))
>> *)
Definition indz_bounds (zb : Z) (nsigma : nat) (zmins zmaxs : list Q) (zmin zmax : Q) : Z * Z :=
  (Z.max 0 (Z.of_nat (bisect_left zmaxs zmin) - zb - 1),
   Z.min (Z.of_nat nsigma - 1) (Z.of_nat (bisect_left zmins zmax) + zb + 1)).

(** [z_profiles[indz, :]]: the rows at the positions [indz]. *)
Definition take_rows (z_profiles : list (list Q)) (indz : list Z) : option (list (list Q)) :=
  mapM (fun i => k ← norm_index (length z_profiles) i; z_profiles !! k) indz.

(** The layers that cover the requested depths [z], whose minimum is
    [zmin], given the depth profiles of the points ([z_profiles], one row per
    layer): the vertical index and the [z] of the result. *)
Definition covering_layers (nsigma npoints : nat) (z_profiles : list (list Q))
    (z : list Q) (zmin : Q) : result (selector * value) :=
  zmins ← orfail (ValueError "zero-size array") (np_min_axis1 z_profiles);
  zmaxs ← orfail (ValueError "zero-size array") (np_max_axis1 z_profiles);
  (* Remember that sigma increases from -1 bottom to 0 surface *)
  zmax ← orfail (ValueError "zero-size array") (np_max z);
  let '(indz_min, indz_max) := indz_bounds zbuffer nsigma zmins zmaxs zmin zmax in
  let indz := arange indz_min (indz_max + 1) in
  rows ← orfail (IndexError "index out of bounds") (take_rows z_profiles indz);
  mret (Take indz, VFloats (of_rows npoints rows)).

(** The contract of the sigma transform on its profiles: down every column,
    the depth does not decrease from one layer to the next. *)
Fixpoint layers_nondecreasing (rows : list (list Q)) : Prop :=
  match rows with
  | r1 :: rest =>
      match rest with
      | r2 :: _ => Forall2 Qle r1 r2 /\ layers_nondecreasing rest
      | [] => True
      end
  | [] => True
  end.

(** [1 - v] for a value of the result. *)
Definition rsub1 (v : value) : result value :=
  match v with
  | VFloats a => inr (VFloats (mk_ndarray (shape a) (map (fun q => 1 - q)%Q (flat a))))
  | VInts a => inr (VInts (map (fun i => 1 - i)%Z a))
  | VMasked m => inr (VMasked (ma_rsub1 m))
  | VTime _ => inl (TypeError "unsupported operand type(s) for -")
  end.

(** The block or the points to fetch (the branch on [block]): in block mode
    each index array becomes a range, in point mode the positions [outside[0]]
    are set to 0. *)
Definition horizontal_selection (self : Reader) (block : bool) (indx indy : list Z)
    (outside : list (list nat)) : result (list Z * list Z) :=
  if block then
    (* Adding buffer, to cover also future positions of elements *)
    buffer ← orfail (AttributeError "buffer") (buffer self);
    xlo ← orfail (ValueError "zero-size array") (np_imin indx);
    xhi ← orfail (ValueError "zero-size array") (np_imax indx);
    nx ← orfail (IndexError "tuple index out of range") (shape (lon self) !! 1);
    ylo ← orfail (ValueError "zero-size array") (np_imin indy);
    yhi ← orfail (ValueError "zero-size array") (np_imax indy);
    ny ← orfail (IndexError "tuple index out of range") (shape (lon self) !! 0);
    mret (arange (Z.max 0 (xlo - buffer)) (Z.min (xhi + buffer) (Z.of_nat nx)),
          arange (Z.max 0 (ylo - buffer)) (Z.min (yhi + buffer) (Z.of_nat ny)))
  else
    out0 ← orfail (IndexError "tuple index out of range") (outside !! 0);
    indx' ← orfail (IndexError "index out of bounds") (setitem_zero indx out0);
    indy' ← orfail (IndexError "index out of bounds") (setitem_zero indy out0);
    mret (indx', indy').

(** The variable of the file behind a standard name:
<<
    varname = [name for name, cf in self.ROMS_variable_mapping.items() if cf == par]
    var = self.Dataset.variables[varname[0]]
>> *)
Definition source_variable (self : Reader) (par : string) : result ncvar :=
  let varname := (filter (fun p : string * string => p.2 = par) ROMS_variable_mapping).*1 in
  varname0 ← orfail (IndexError "list index out of range") (head varname);
  orfail (KeyError varname0) (assoc varname0 (ds_variables (Dataset self))).

(** The body of the loop over the requested variables, for one of them. *)
Definition extract (self : Reader) (block : bool) (indxTime : Z) (indz : selector)
    (indy indx : list Z) (outside : list (list nat)) (par : string) : result MaskedArray :=
  var ← source_variable self par;
  fetched ←
    match length (nc_shape var) with
    | 2 => orfail (IndexError "index out of bounds")
             (nc_getitem var [Take indy; Take indx])
    | 3 => orfail (IndexError "index out of bounds")
             (nc_getitem var [At indxTime; Take indy; Take indx])
    | 4 => orfail (IndexError "index out of bounds")
             (nc_getitem var [At indxTime; indz; Take indy; Take indx])
    | _ => inl (Exception "Wrong dimension of variable: ")
      (* whatever building the message of this raise does, it raises *)
    end;
  (* If 2D array is returned due to the fancy slicing methods of
     netcdf-python, we need to take the diagonal *)
  picked ← (if (1 <? ndim fetched) && negb block
            then orfail (ValueError "diagonal") (diagonal fetched)
            else mret fetched);
  (* Mask values outside domain *)
  let masked := np_ma_array picked in
  if block then mret masked
  else
    out0 ← orfail (IndexError "tuple index out of range") (outside !! 0);
    orfail (IndexError "index out of bounds") (mask_setitem_true masked out0).

(** The loop [for par in requested_variables], on the dictionary built so
    far. *)
Fixpoint extract_all (self : Reader) (block : bool) (indxTime : Z) (indz : selector)
    (indy indx : list Z) (outside : list (list nat)) (pars : list string)
    (variables : gmap string value) : result (gmap string value) :=
  match pars with
  | [] => mret variables
  | par :: rest =>
      m ← extract self block indxTime indz indy indx outside par;
      extract_all self block indxTime indz indy indx outside rest
        (<[par := VMasked m]> variables)
  end.

(** The inversion of the land mask, when the result holds one. *)
Definition invert_land_mask (variables : gmap string value) : result (gmap string value) :=
  match variables !! "land_binary_mask" with
  | Some v => v' ← rsub1 v; mret (<["land_binary_mask" := v']> variables)
  | None => mret variables
  end.

(** Store coordinates of returned points. *)
Definition store_coordinates (self : Reader) (block : bool) (indx indy : list Z)
    (variables : gmap string value) : gmap string value :=
  if block then
    <["y" := VInts indy]> (<["x" := VInts indx]> variables)
  else
    <["y" := VFloats (vec (map (fun i => ymin self + (inject_Z i - 1) * delta_y self)%Q indy))]>
      (<["x" := VFloats (vec (map (fun i => xmin self + (inject_Z i - 1) * delta_x self)%Q indx))]>
         variables).

Section Extraction.

(** The query normalizer of the parent class: the validated arguments and
    [outside], the tuple of index arrays that [np.where] gives for the
    points outside the domain. *)
Variable check_arguments :
  Reader -> list string -> option datetime -> list Q -> list Q -> list Q ->
  result (list string * datetime * list Q * list Q * list Q * list (list nat)).
(** The nearest-time resolver of the parent class: of its six results, the
    nearest time and its index. *)
Variable nearest_time : Reader -> datetime -> result (datetime * Z).
(** [self.s_coordinate(h, theta_b, theta_s, Tcline, N).z_r[:]] of the
    [vgrid] module: one row of depths per layer, one column per point. *)
Variable z_r : vgrid.family -> list Q -> Q -> Q -> Q -> nat -> list (list Q).
(** [np.degrees] at one angle. *)
Variable degrees : Q -> Q.

(** Find the range of sigma0-values covering given z-values. *)
Definition general_depth_search (indy indx : list Z) (z : list Q) (zmin : Q)
    : M world (selector * value) :=
  self ← get_self;
  h ← match sea_floor_depth self with
      | Some h => mret h
      | None =>
          logging DEBUG "Reading sea floor depth...";;
          var ← orraise (KeyError "h") (assoc "h" (ds_variables (Dataset self)));
          update_self (set_sea_floor_depth (nc_all var));;
          mret (nc_all var)
      end;
  depth_at_elements ← orraise (IndexError "index out of bounds") (np_getitem2 h indy indx);
  let z_profiles :=
    z_r (s_coordinate self) depth_at_elements (theta_b self) (theta_s self) (Tcline self)
        (length (sigma self)) in
  liftE (covering_layers (length (sigma self)) (length depth_at_elements) z_profiles z zmin).

(** Find depth levels covering all elements. *)
Definition depth_levels (indy indx : list Z) (z : list Q) : M world (selector * value) :=
  zmin ← orraise (ValueError "zero-size array") (np_min z);
  if Qeq_bool zmin 0 then
    self ← get_self;
    mret (At (Z.of_nat (num_layers self) - 1)%Z, VFloats (vec z))  (* surface layer *)
  else
    general_depth_search indy indx z zmin.

Definition get_variables (requested_variables : list string) (time : option datetime)
    (x y z : list Q) (block : bool) : M world (gmap string value) :=
  self ← get_self;
  '(requested_variables, time, x, y, z, outside) ←
    liftE (check_arguments self requested_variables time x y z);
  '(nearestTime, indxTime) ← liftE (nearest_time self time);
  (* Find horizontal indices corresponding to requested x and y *)
  let indx := map (floor_index (xmin self) (delta_x self)) x in
  let indy := map (floor_index (ymin self) (delta_y self)) y in
  '(indz, zs) ← depth_levels indy indx z;
  let variables : gmap string value := <["z" := zs]> ∅ in
  '(indx, indy) ← liftE (horizontal_selection self block indx indy outside);
  variables ← liftE (extract_all self block indxTime indz indy indx outside
                       requested_variables variables);
  (* Return coordinate system orientation, for vector rotation *)
  angle ← orraise (IndexError "index out of bounds")
            (np_getitem_meshgrid (angle_between_x_and_east self) indy indx);
  let variables :=
    <["angle_between_x_and_east" :=
        VFloats (mk_ndarray (shape angle) (map degrees (flat angle)))]> variables in
  variables ← liftE (invert_land_mask variables);
  let variables := store_coordinates self block indx indy variables in
  mret (<["time" := VTime nearestTime]> variables).

End Extraction.

(* ===================================================================== *)
(** * What the layer range is checked against *)
(* ===================================================================== *)

(** [b] is the leftmost insertion point of [x] in [a]: exactly the positions
    before [b] hold values below [x]. *)
Definition leftmost_insertion_point (a : list Q) (x : Q) (b : nat) : Prop :=
  b <= length a /\ forall i, i < length a -> (i < b <-> (nth i a 0 < x)%Q).

(** Every requested depth lies within [[zmins[lower], zmaxs[upper]]]. *)
Definition covers_depths (zmins zmaxs z : list Q) (lower upper : Z) : Prop :=
  forall d, d ∈ z ->
    (nth (Z.to_nat lower) zmins 0 <= d)%Q /\ (d <= nth (Z.to_nat upper) zmaxs 0)%Q.

(** Two masked arrays hold the same: one shape, one mask, and equal values
    wherever the mask is off. *)
Definition ma_same (m1 m2 : MaskedArray) : Prop :=
  ma_shape m1 = ma_shape m2 /\ ma_mask m1 = ma_mask m2 /\
  length (ma_data m1) = length (ma_data m2) /\
  forall k v1 v2, ma_mask m1 !! k = Some false ->
    ma_data m1 !! k = Some v1 -> ma_data m2 !! k = Some v2 -> (v1 == v2)%Q.

(* ===================================================================== *)
(** * A small ocean *)
(* ===================================================================== *)

(** A file with 10 x 10 columns, 5 sigma layers and one time, 100 deep
    everywhere, and no [s_rho], [Vtransform] or stretching parameters. The
    temperature of a layer is its index; the southern row is land. *)
Definition field10 (v : Q) : ncvar := mk_ncvar [10; 10] (replicate 100 v) None.

Definition ocean_Dataset : netCDF4_Dataset :=
  mk_dataset
    [ ("lat_rho", field10 60%Q);
      ("lon_rho", field10 5%Q);
      ("angle", field10 0%Q);
      ("h", field10 100%Q);
      ("mask_psi", mk_ncvar [10; 10] (replicate 10 0%Q ++ replicate 90 1%Q) None);
      ("zeta", mk_ncvar [1; 10; 10] (replicate 100 (1 # 2)%Q) None);
      ("temp", mk_ncvar [1; 5; 10; 10]
                 (flat_map (fun k : nat => replicate 100 (inject_Z (Z.of_nat k))) (seq 0 5)) None);
      ("ocean_time", mk_ncvar [1] [0%Q] (Some "seconds since 1970-01-01 00:00:00")) ]
    [ ("ocean_time", 1); ("s_rho", 5); ("eta_rho", 10); ("xi_rho", 10) ].

Definition ocean_open (filename : string) : option netCDF4_Dataset :=
  if String.eqb filename "ocean.nc" then Some ocean_Dataset else None.

Definition ocean_num2date (values : list Q) (units : string) : option (list datetime) :=
  Some (map Qfloor values).

Definition ocean_super_init (r : Reader) : M (list logrec) Reader := mret r.

(** The reader that [__init__] builds on this file. *)
Definition ocean_Reader : Reader :=
  mk_Reader "roms native" ocean_Dataset
    [(-9 # 10)%Q; (-7 # 10)%Q; (-5 # 10)%Q; (-3 # 10)%Q; (-1 # 10)%Q]
    None None vgrid.s_coordinate 3%Q (4 # 10)%Q 10%Q 5
    (nc_all (field10 60%Q)) (nc_all (field10 5%Q)) (nc_all (field10 0%Q))
    [0%Z] 0%Z 0%Z None 0%Q 9%Q 1%Q 0%Q 9%Q 1%Q
    ["sea_floor_depth"; "land_binary_mask"; "sea_surface_height"; "sea_water_temperature"]
    None None.

(** A normalizer: the arguments as they are, and the positions of the points
    outside [[xmin, xmax] x [ymin, ymax]]. *)
Definition ocean_check_arguments (self : Reader) (requested_variables : list string)
    (time : option datetime) (x y z : list Q)
    : result (list string * datetime * list Q * list Q * list Q * list (list nat)) :=
  let is_outside (p : Q * Q) : bool :=
    Qltb p.1 (xmin self) || Qltb (xmax self) p.1 ||
    Qltb p.2 (ymin self) || Qltb (ymax self) p.2 in
  let outside :=
    omap (fun kp : nat * (Q * Q) => if is_outside kp.2 then Some kp.1 else None)
         (zip (seq 0 (length x)) (zip x y)) in
  inr (requested_variables, default (start_time self) time, x, y, z, [outside]).

Definition ocean_nearest_time (self : Reader) (time : datetime) : result (datetime * Z) :=
  inr (start_time self, 0%Z).

(** A transform with evenly spaced layers: the depth of layer [k] of [N] in
    a column [h] deep is [h * (k + 1/2 - N) / N]. *)
Definition ocean_z_r (f : vgrid.family) (h : list Q) (theta_b theta_s Tcline : Q) (N : nat)
    : list (list Q) :=
  map (fun sig => map (fun d => Qred (d * sig)) h) (synthesize_sigma N).

Definition ocean_degrees (a : Q) : Q := (a * 180 / (355 # 113))%Q.

(** A call starts on the reader as built, with a buffer of two cells set by
    the caller, and an empty log. *)
Definition ocean_world : world := (set_buffer 2 ocean_Reader, []).

(** [get_variables] of this ocean's reader. *)
Definition ocean_get_variables :=
  get_variables ocean_check_arguments ocean_nearest_time ocean_z_r ocean_degrees.

(** A point query at the surface, for two points inside the domain. *)
Definition surface_names : list string := ["sea_surface_height"; "land_binary_mask"].
Definition surface_x : list Q := [(7 # 2)%Q; (3 # 2)%Q].
Definition surface_y : list Q := [(1 # 2)%Q; (5 # 2)%Q].
Definition surface_z : list Q := [0%Q; 0%Q].

(** What a point query at the surface returns: sea surface height and land
    mask at the cells (3, 0) and (1, 2), the first of them on land. *)
Definition surface_query_result : gmap string value :=
  <["time" := VTime 0%Z]>
  (<["y" := VFloats (vec [(-1)%Q; 1%Q])]>
  (<["x" := VFloats (vec [2%Q; 0%Q])]>
  (<["land_binary_mask" := VMasked (mk_masked [1; 2] [1%Q; 0%Q] [false; false])]>
  (<["angle_between_x_and_east" :=
       VFloats (mk_ndarray [2; 2] (replicate 4 (ocean_degrees 0)))]>
  (<["sea_surface_height" := VMasked (mk_masked [1; 2] [(1 # 2)%Q; (1 # 2)%Q] [false; false])]>
  (<["z" := VFloats (vec [0%Q; 0%Q])]> ∅)))))).

(** The profiles of two columns, 100 and 50 deep, under this transform:
    layer by layer the depths of the first and of the second column. *)
Definition shelf_profile : list (list Q) :=
  [[(-90)%Q; (-45)%Q]; [(-70)%Q; (-35)%Q]; [(-50)%Q; (-25)%Q];
   [(-30)%Q; (-15)%Q]; [(-10)%Q; (-5)%Q]].

(** Their per-layer minima and maxima. *)
Definition shelf_zmins : list Q := [(-90)%Q; (-70)%Q; (-50)%Q; (-30)%Q; (-10)%Q].
Definition shelf_zmaxs : list Q := [(-45)%Q; (-35)%Q; (-25)%Q; (-15)%Q; (-5)%Q].

(** Closed comparisons of floats. *)
Ltac Qcompare_closed := unfold Qle, Qlt; simpl; lia.

(* ===================================================================== *)
(** * What the extracted values are checked against *)
(* ===================================================================== *)

(** The row-major offset that the axes in front of the two horizontal ones
    contribute to a cell: nothing for a variable of two dimensions, the time
    index for one of three, and for one of four, read at a single layer, the
    time index and the layer. *)
Definition leading_offset (lead : list nat) (indxTime : Z) (indz : selector) : option nat :=
  match lead, indz with
  | [], _ => Some 0
  | [T], _ => norm_index T indxTime
  | [T; L], At iz => t ← norm_index T indxTime; l ← norm_index L iz; Some (t * L + l)
  | _, _ => None
  end.

(* ===================================================================== *)
(** * What the constructor is checked against *)
(* ===================================================================== *)

(** What a file must hold for a reader to be built on it: the layers (as a
    variable, or at least as a dimension), the horizontal coordinates and
    the angle, a time axis whose units [num2date] converts to at least one
    time, and the two horizontal dimensions. *)
Definition constructible (num2date : list Q -> string -> option (list datetime))
    (ds : netCDF4_Dataset) : Prop :=
  (is_Some (assoc "s_rho" (ds_variables ds)) \/ is_Some (assoc "s_rho" (ds_dimensions ds))) /\
  is_Some (assoc "lat_rho" (ds_variables ds)) /\
  is_Some (assoc "lon_rho" (ds_variables ds)) /\
  is_Some (assoc "angle" (ds_variables ds)) /\
  (exists ocean_time units times,
     assoc "ocean_time" (ds_variables ds) = Some ocean_time /\
     nc_units ocean_time = Some units /\
     num2date (nc_data ocean_time) units = Some times /\ times <> []) /\
  is_Some (assoc "xi_rho" (ds_dimensions ds)) /\
  is_Some (assoc "eta_rho" (ds_dimensions ds)).

(** The small ocean with more variables in its file, in front of the others. *)
Definition ocean_with (more : list (string * ncvar)) : netCDF4_Dataset :=
  mk_dataset (more ++ ds_variables ocean_Dataset) (ds_dimensions ocean_Dataset).

(* ===================================================================== *)
(** * What the depth search reads *)
(* ===================================================================== *)

(** The bottom depth that a depth search works on: the cached array, or the
    whole variable [h] of the file when nothing is cached yet. *)
Definition bathymetry (self : Reader) : option (ndarray Q) :=
  match sea_floor_depth self with
  | Some h => Some h
  | None => nc_all <$> assoc "h" (ds_variables (Dataset self))
  end.

(* ===================================================================== *)
(** * Properties *)
(* ===================================================================== *)

(** ** Floats *)

Lemma Qltb_lt (a b : Q) : Qltb a b = true <-> (a < b)%Q.
Proof.
  unfold Qltb. rewrite negb_true_iff. split.
  - intros H. apply Qnot_le_lt. intros Hle. apply Qle_bool_iff in Hle. congruence.
  - intros H. destruct (Qle_bool b a) eqn:E; [|reflexivity].
    apply Qle_bool_iff in E. exfalso. apply (Qlt_not_le _ _ H E).
Qed.

Lemma Qltb_ge (a b : Q) : Qltb a b = false <-> (b <= a)%Q.
Proof.
  unfold Qltb. rewrite negb_false_iff. apply Qle_bool_iff.
Qed.

Lemma Qmin2_le_l (a b : Q) : (Qmin2 a b <= a)%Q.
Proof.
  unfold Qmin2. destruct (Qltb b a) eqn:E.
  - apply Qltb_lt in E. apply Qlt_le_weak, E.
  - apply Qle_refl.
Qed.

Lemma Qmin2_le_r (a b : Q) : (Qmin2 a b <= b)%Q.
Proof.
  unfold Qmin2. destruct (Qltb b a) eqn:E.
  - apply Qle_refl.
  - apply Qltb_ge in E. exact E.
Qed.

Lemma Qmin2_cases (a b : Q) : Qmin2 a b = a \/ Qmin2 a b = b.
Proof. unfold Qmin2. destruct (Qltb b a); auto. Qed.

Lemma Qmax2_ge_l (a b : Q) : (a <= Qmax2 a b)%Q.
Proof.
  unfold Qmax2. destruct (Qltb a b) eqn:E.
  - apply Qltb_lt in E. apply Qlt_le_weak, E.
  - apply Qle_refl.
Qed.

Lemma Qmax2_ge_r (a b : Q) : (b <= Qmax2 a b)%Q.
Proof.
  unfold Qmax2. destruct (Qltb a b) eqn:E.
  - apply Qle_refl.
  - apply Qltb_ge in E. exact E.
Qed.

Lemma Qmax2_cases (a b : Q) : Qmax2 a b = a \/ Qmax2 a b = b.
Proof. unfold Qmax2. destruct (Qltb a b); auto. Qed.

(** ** Minimum and maximum of an array *)

Lemma foldl_Qmin2_le (t : list Q) (x : Q) :
  (foldl Qmin2 x t <= x)%Q /\ (forall d, d ∈ t -> (foldl Qmin2 x t <= d)%Q).
Proof.
  revert x. induction t as [|y t IH]; intros x; simpl.
  - split; [apply Qle_refl|]. intros d Hd. inversion Hd.
  - destruct (IH (Qmin2 x y)) as [H1 H2]. split.
    + eapply Qle_trans; [exact H1|apply Qmin2_le_l].
    + intros d Hd. apply elem_of_cons in Hd as [->|Hd].
      * eapply Qle_trans; [exact H1|apply Qmin2_le_r].
      * apply H2, Hd.
Qed.

Lemma foldl_Qmin2_elem (t : list Q) (x : Q) : foldl Qmin2 x t ∈ x :: t.
Proof.
  revert x. induction t as [|y t IH]; intros x; simpl.
  - apply list_elem_of_here.
  - specialize (IH (Qmin2 x y)). apply elem_of_cons in IH as [E|IH].
    + rewrite E. destruct (Qmin2_cases x y) as [-> | ->].
      * apply list_elem_of_here.
      * apply list_elem_of_further, list_elem_of_here.
    + apply list_elem_of_further, list_elem_of_further, IH.
Qed.

Lemma foldl_Qmax2_ge (t : list Q) (x : Q) :
  (x <= foldl Qmax2 x t)%Q /\ (forall d, d ∈ t -> (d <= foldl Qmax2 x t)%Q).
Proof.
  revert x. induction t as [|y t IH]; intros x; simpl.
  - split; [apply Qle_refl|]. intros d Hd. inversion Hd.
  - destruct (IH (Qmax2 x y)) as [H1 H2]. split.
    + eapply Qle_trans; [apply Qmax2_ge_l|exact H1].
    + intros d Hd. apply elem_of_cons in Hd as [->|Hd].
      * eapply Qle_trans; [apply Qmax2_ge_r|exact H1].
      * apply H2, Hd.
Qed.

Lemma foldl_Qmax2_elem (t : list Q) (x : Q) : foldl Qmax2 x t ∈ x :: t.
Proof.
  revert x. induction t as [|y t IH]; intros x; simpl.
  - apply list_elem_of_here.
  - specialize (IH (Qmax2 x y)). apply elem_of_cons in IH as [E|IH].
    + rewrite E. destruct (Qmax2_cases x y) as [-> | ->].
      * apply list_elem_of_here.
      * apply list_elem_of_further, list_elem_of_here.
    + apply list_elem_of_further, list_elem_of_further, IH.
Qed.

Lemma np_min_le (a : list Q) (m d : Q) : np_min a = Some m -> d ∈ a -> (m <= d)%Q.
Proof.
  destruct a as [|x t]; [discriminate|]. simpl. intros [= <-] Hd.
  destruct (foldl_Qmin2_le t x) as [H1 H2].
  apply elem_of_cons in Hd as [->|Hd]; auto.
Qed.

Lemma np_min_elem (a : list Q) (m : Q) : np_min a = Some m -> m ∈ a.
Proof.
  destruct a as [|x t]; [discriminate|]. simpl. intros [= <-]. apply foldl_Qmin2_elem.
Qed.

Lemma np_max_ge (a : list Q) (m d : Q) : np_max a = Some m -> d ∈ a -> (d <= m)%Q.
Proof.
  destruct a as [|x t]; [discriminate|]. simpl. intros [= <-] Hd.
  destruct (foldl_Qmax2_ge t x) as [H1 H2].
  apply elem_of_cons in Hd as [->|Hd]; auto.
Qed.

Lemma np_max_elem (a : list Q) (m : Q) : np_max a = Some m -> m ∈ a.
Proof.
  destruct a as [|x t]; [discriminate|]. simpl. intros [= <-]. apply foldl_Qmax2_elem.
Qed.

Lemma np_min_le_max (a : list Q) (lo hi : Q) :
  np_min a = Some lo -> np_max a = Some hi -> (lo <= hi)%Q.
Proof.
  intros Hlo Hhi. eapply np_min_le; [exact Hlo|]. apply np_max_elem, Hhi.
Qed.

(** ** [bisect_left] *)

Lemma midpoint_bounds (lo hi : nat) : lo < hi -> lo <= (lo + hi) / 2 < hi.
Proof.
  intros H. split.
  - apply Nat.div_le_lower_bound; lia.
  - apply Nat.Div0.div_lt_upper_bound; lia.
Qed.

Lemma bisect_loop_range (a : list Q) (x : Q) (lo hi : nat) :
  lo <= hi -> lo <= bisect_loop a x lo hi <= hi.
Proof.
  funelim (bisect_loop a x lo hi); intros Hle.
  - pose proof (midpoint_bounds lo hi l) as Hmid.
    destruct (Qltb _ x).
    + match goal with IH : S _ <= hi -> _ |- _ => specialize (IH ltac:(lia)) end. lia.
    + match goal with IH : lo <= _ -> lo <= _ <= _ |- _ => specialize (IH ltac:(lia)) end. lia.
  - lia.
Qed.

Lemma bisect_loop_spec (a : list Q) (x : Q) (lo hi : nat) :
  nondecreasing a -> lo <= hi -> hi <= length a ->
  (forall i, i < lo -> (nth i a 0 < x)%Q) ->
  (forall i, hi <= i -> i < length a -> (x <= nth i a 0)%Q) ->
  (forall i, i < bisect_loop a x lo hi -> (nth i a 0 < x)%Q) /\
  (forall i, bisect_loop a x lo hi <= i -> i < length a -> (x <= nth i a 0)%Q).
Proof.
  funelim (bisect_loop a x lo hi); intros Hsorted Hle Hhi Hbelow Habove.
  - pose proof (midpoint_bounds lo hi l) as Hmid.
    destruct (Qltb (nth ((lo + hi) / 2) a 0%Q) x) eqn:E.
    + apply Qltb_lt in E.
      match goal with IH : nondecreasing a -> S _ <= hi -> _ |- _ =>
        apply IH; try assumption; try lia end.
      intros i Hi. eapply Qle_lt_trans; [|exact E].
      apply Hsorted; lia.
    + apply Qltb_ge in E.
      match goal with IH : nondecreasing a -> lo <= _ -> _ |- _ =>
        apply IH; try assumption; try lia end.
      intros i Hi Hlen. eapply Qle_trans; [exact E|].
      apply Hsorted; lia.
  - split; [exact Hbelow|]. intros i Hi Hlen. apply Habove; lia.
Qed.

Lemma bisect_left_le_length (a : list Q) (x : Q) : bisect_left a x <= length a.
Proof. unfold bisect_left. pose proof (bisect_loop_range a x 0 (length a)). lia. Qed.

(** On a non-decreasing array [bisect_left] is the leftmost insertion point:
    exactly the positions before it hold values below [x]. *)
Lemma bisect_left_leftmost (a : list Q) (x : Q) :
  nondecreasing a ->
  forall i, i < length a -> (i < bisect_left a x <-> (nth i a 0 < x)%Q).
Proof.
  intros Hsorted i Hi. unfold bisect_left.
  destruct (bisect_loop_spec a x 0 (length a) Hsorted) as [Hlt Hge]; try lia.
  split.
  - apply Hlt.
  - intros Hx. destruct (decide (i < bisect_loop a x 0 (length a))) as [|Hn]; [assumption|].
    exfalso. apply (Qlt_not_le _ _ Hx). apply Hge; lia.
Qed.

(** ** Per-layer minima and maxima of monotone profiles *)

Lemma consecutive_nondecreasing (a : list Q) :
  (forall i, S i < length a -> (nth i a 0 <= nth (S i) a 0)%Q) -> nondecreasing a.
Proof.
  intros Hstep i j Hij Hj.
  induction Hij as [|j Hij IH].
  - apply Qle_refl.
  - eapply Qle_trans; [apply IH; lia|]. apply Hstep. lia.
Qed.

Lemma np_min_mono (r1 r2 : list Q) (m1 m2 : Q) :
  Forall2 Qle r1 r2 -> np_min r1 = Some m1 -> np_min r2 = Some m2 -> (m1 <= m2)%Q.
Proof.
  intros HF H1 H2.
  apply np_min_elem, list_elem_of_lookup_1 in H2 as [k Hk].
  destruct (Forall2_lookup_r _ _ _ _ _ HF Hk) as (x & Hx & Hle).
  eapply Qle_trans; [|exact Hle].
  eapply np_min_le; [exact H1|]. eapply list_elem_of_lookup_2, Hx.
Qed.

Lemma np_max_mono (r1 r2 : list Q) (m1 m2 : Q) :
  Forall2 Qle r1 r2 -> np_max r1 = Some m1 -> np_max r2 = Some m2 -> (m1 <= m2)%Q.
Proof.
  intros HF H1 H2.
  apply np_max_elem, list_elem_of_lookup_1 in H1 as [k Hk].
  destruct (Forall2_lookup_l _ _ _ _ _ HF Hk) as (y & Hy & Hle).
  eapply Qle_trans; [exact Hle|].
  eapply np_max_ge; [exact H2|]. eapply list_elem_of_lookup_2, Hy.
Qed.

Lemma reduced_rows_nondecreasing (f : list Q -> option Q) (rows : list (list Q)) (ms : list Q) :
  (forall r1 r2 m1 m2, Forall2 Qle r1 r2 -> f r1 = Some m1 -> f r2 = Some m2 -> (m1 <= m2)%Q) ->
  mapM f rows = Some ms -> layers_nondecreasing rows -> nondecreasing ms.
Proof.
  intros Hf HM Hrows. apply consecutive_nondecreasing.
  apply mapM_Some in HM. induction HM as [|r m rows ms Hm HM IH]; intros i Hi.
  - simpl in Hi. lia.
  - destruct HM as [|r2 m2 rows' ms' Hm2 HM'].
    + simpl in Hi. lia.
    + destruct Hrows as [HF Hrest]. destruct i as [|i].
      * simpl. eapply Hf; eauto.
      * apply (IH Hrest i). simpl in *. lia.
Qed.

Lemma np_min_axis1_nondecreasing (rows : list (list Q)) (zmins : list Q) :
  np_min_axis1 rows = Some zmins -> layers_nondecreasing rows -> nondecreasing zmins.
Proof. apply reduced_rows_nondecreasing, np_min_mono. Qed.

Lemma np_max_axis1_nondecreasing (rows : list (list Q)) (zmaxs : list Q) :
  np_max_axis1 rows = Some zmaxs -> layers_nondecreasing rows -> nondecreasing zmaxs.
Proof. apply reduced_rows_nondecreasing, np_max_mono. Qed.

Lemma np_min_axis1_length (rows : list (list Q)) (zmins : list Q) :
  np_min_axis1 rows = Some zmins -> length zmins = length rows.
Proof. intros H. apply mapM_Some, Forall2_length in H. congruence. Qed.

Lemma np_max_axis1_length (rows : list (list Q)) (zmaxs : list Q) :
  np_max_axis1 rows = Some zmaxs -> length zmaxs = length rows.
Proof. intros H. apply mapM_Some, Forall2_length in H. congruence. Qed.

Lemma np_axis1_min_le_max (rows : list (list Q)) (zmins zmaxs : list Q) :
  np_min_axis1 rows = Some zmins -> np_max_axis1 rows = Some zmaxs ->
  forall i, i < length rows -> (nth i zmins 0 <= nth i zmaxs 0)%Q.
Proof.
  intros H1 H2. apply mapM_Some in H1. apply mapM_Some in H2.
  revert zmaxs H2. induction H1 as [|r m rows ms Hm HM IH]; intros zmaxs H2 i Hi.
  - simpl in Hi. lia.
  - inversion H2 as [|r' m' rows' ms' Hm' HM']; subst.
    destruct i as [|i]; simpl.
    + eapply np_min_le_max; eauto.
    + apply IH; [assumption|]. simpl in Hi. lia.
Qed.

(** ** The layer range of the depth search *)

Section LayerRange.

Variables (zmins zmaxs : list Q) (n : nat) (zmin zmax : Q).
Hypothesis zmins_length : length zmins = n.
Hypothesis zmaxs_length : length zmaxs = n.
Hypothesis zmins_sorted : nondecreasing zmins.
Hypothesis zmaxs_sorted : nondecreasing zmaxs.
Hypothesis min_le_max : forall i, i < n -> (nth i zmins 0 <= nth i zmaxs 0)%Q.
Hypothesis zmin_le_zmax : (zmin <= zmax)%Q.

(** The insertion point of the smallest depth among the maxima is not above
    that of the largest depth among the minima. *)
Lemma insertion_points_ordered : bisect_left zmaxs zmin <= bisect_left zmins zmax.
Proof using All.
  destruct (decide (bisect_left zmaxs zmin <= bisect_left zmins zmax)) as [|Hn]; [assumption|].
  exfalso.
  pose proof (bisect_left_le_length zmaxs zmin) as Hb1.
  set (b2 := bisect_left zmins zmax) in *.
  assert (Hb2 : b2 < n) by lia.
  assert (H1 : (nth b2 zmaxs 0 < zmin)%Q).
  { apply bisect_left_leftmost; [assumption|lia|lia]. }
  assert (H2 : (zmax <= nth b2 zmins 0)%Q).
  { apply Qnot_lt_le. intros Hlt.
    apply (bisect_left_leftmost zmins zmax zmins_sorted b2) in Hlt; [|lia].
    unfold b2 in Hlt. lia. }
  pose proof (min_le_max b2 Hb2) as H3.
  apply (Qlt_irrefl zmin).
  eapply Qle_lt_trans; [|exact H1].
  eapply Qle_trans; [exact zmin_le_zmax|].
  eapply Qle_trans; [exact H2|exact H3].
Qed.

Lemma indz_bounds_clamped (zb : Z) :
  (0 <= zb)%Z -> 1 <= n ->
  let '(lower, upper) := indz_bounds zb n zmins zmaxs zmin zmax in
  (0 <= lower <= Z.of_nat n - 1)%Z /\ (0 <= upper <= Z.of_nat n - 1)%Z.
Proof using All.
  intros Hzb Hn. unfold indz_bounds.
  pose proof (bisect_left_le_length zmaxs zmin). lia.
Qed.

Lemma indz_min_covers (zb : Z) :
  (0 <= zb)%Z -> 1 <= n -> (nth 0 zmins 0 <= zmin)%Q ->
  (nth (Z.to_nat (indz_bounds zb n zmins zmaxs zmin zmax).1) zmins 0 <= zmin)%Q.
Proof using All.
  intros Hzb Hn H0. unfold indz_bounds. simpl.
  pose proof (bisect_left_le_length zmaxs zmin) as Hb1.
  set (b1 := bisect_left zmaxs zmin) in *.
  destruct (decide (b1 = 0)) as [E|E].
  - replace (Z.to_nat (Z.max 0 (Z.of_nat b1 - zb - 1))) with 0 by lia. exact H0.
  - set (k := Z.to_nat (Z.max 0 (Z.of_nat b1 - zb - 1))).
    assert (Hk : k < b1) by lia.
    eapply Qle_trans; [apply min_le_max; lia|].
    apply Qlt_le_weak.
    apply bisect_left_leftmost; [assumption|lia|exact Hk].
Qed.

Lemma indz_max_covers (zb : Z) :
  (0 <= zb)%Z -> 1 <= n -> (zmax <= nth (n - 1) zmaxs 0)%Q ->
  (zmax <= nth (Z.to_nat (indz_bounds zb n zmins zmaxs zmin zmax).2) zmaxs 0)%Q.
Proof using All.
  intros Hzb Hn Hlast. unfold indz_bounds. simpl.
  set (b2 := bisect_left zmins zmax) in *.
  set (k := Z.to_nat (Z.min (Z.of_nat n - 1) (Z.of_nat b2 + zb + 1))).
  destruct (decide (k = n - 1)) as [E|E].
  - rewrite E. exact Hlast.
  - assert (Hk : b2 <= k /\ k < n) by lia.
    eapply Qle_trans; [|apply min_le_max; lia].
    apply Qnot_lt_le. intros Hlt.
    apply (bisect_left_leftmost zmins zmax zmins_sorted k) in Hlt; [|lia].
    fold b2 in Hlt. lia.
Qed.

Lemma indz_bounds_two_layers (zb : Z) :
  (1 <= zb)%Z -> 2 <= n ->
  let '(lower, upper) := indz_bounds zb n zmins zmaxs zmin zmax in
  (1 <= upper - lower)%Z.
Proof using All.
  intros Hzb Hn. unfold indz_bounds.
  pose proof (bisect_left_le_length zmaxs zmin).
  pose proof insertion_points_ordered. lia.
Qed.

End LayerRange.

(** ** [np.arange] and the rows it selects *)

Lemma arange_elem (a b i : Z) : i ∈ arange a b <-> (a <= i < b)%Z.
Proof.
  unfold arange. rewrite list_elem_of_fmap. split.
  - intros (k & -> & Hk). apply elem_of_seq in Hk. lia.
  - intros Hi. exists (Z.to_nat (i - a)). split; [lia|]. apply elem_of_seq. lia.
Qed.

Lemma norm_index_in_range (dim : nat) (i : Z) :
  (0 <= i < Z.of_nat dim)%Z -> norm_index dim i = Some (Z.to_nat i).
Proof. intros H. unfold norm_index. rewrite decide_True by exact H. reflexivity. Qed.

Lemma take_rows_is_Some (z_profiles : list (list Q)) (indz : list Z) :
  (forall i, i ∈ indz -> (0 <= i < Z.of_nat (length z_profiles))%Z) ->
  is_Some (take_rows z_profiles indz).
Proof.
  intros H. unfold take_rows. apply mapM_is_Some, Forall_forall.
  intros i Hi. specialize (H i Hi). simpl.
  rewrite norm_index_in_range by exact H. simpl.
  apply lookup_lt_is_Some. lia.
Qed.

Example ocean_construction :
  run (__init__ ocean_open ocean_num2date ocean_super_init (Some "ocean.nc") None) [] =
  (inr ocean_Reader,
   [(INFO, "Opening dataset: ocean.nc");
    (WARNING, "s_rho not available in dataset, constructing from number of layers (%s).");
    (WARNING, "Sigma-information not available, defaulting to Vtransform = 1, Vstretching = 1");
    (WARNING, "Missing sigma stretching parameters - using default values")]).
Proof. vm_compute. reflexivity. Qed.

Example shelf_profile_from_transform :
  ocean_z_r vgrid.s_coordinate [100%Q; 50%Q] (4 # 10)%Q 3%Q 10%Q 5 = shelf_profile.
Proof. vm_compute. reflexivity. Qed.

Lemma np_min_nonempty (a : list Q) (m : Q) : np_min a = Some m -> is_Some (np_max a).
Proof. destruct a; [discriminate|]. simpl. eauto. Qed.

Lemma reduced_rows_is_Some (f : list Q -> option Q) (rows : list (list Q)) :
  (forall r, r <> [] -> is_Some (f r)) ->
  Forall (fun row => row <> []) rows -> is_Some (mapM f rows).
Proof.
  intros Hf Hrows. apply mapM_is_Some. eapply Forall_impl; [exact Hrows|].
  intros r Hr. apply Hf, Hr.
Qed.

(** C1 (as amended). In the depth search the lower end of the layer range is
    the leftmost insertion point of the smallest requested depth among the
    per-layer maxima, moved down by [zbuffer + 1 = 2] and cut at 0; the upper
    end is the leftmost insertion point of the largest requested depth among
    the per-layer minima, moved up by 2 and cut at [nsigma - 1]. The search
    returns exactly the layers from the one to the other. With a layer at all,
    both ends are layers; when the requested depths lie within the depths of
    the layers, every one of them lies within [[zmins[lower], zmaxs[upper]]],
    and still does when the vertical buffer is taken out (ends moved by 1);
    with two layers or more the range spans at least two. *)
Theorem depth_search_layer_range (nsigma npoints : nat) (z_profiles : list (list Q))
    (z : list Q) (zmin : Q) :
  layers_nondecreasing z_profiles ->
  Forall (fun row => row <> []) z_profiles ->
  length z_profiles = nsigma ->
  np_min z = Some zmin ->
  exists zmins zmaxs zmax rows,
    np_min_axis1 z_profiles = Some zmins /\
    np_max_axis1 z_profiles = Some zmaxs /\
    np_max z = Some zmax /\
    let lower := Z.max 0 (Z.of_nat (bisect_left zmaxs zmin) - 2) in
    let upper := Z.min (Z.of_nat nsigma - 1) (Z.of_nat (bisect_left zmins zmax) + 2) in
    covering_layers nsigma npoints z_profiles z zmin =
      inr (Take (arange lower (upper + 1)), VFloats (of_rows npoints rows)) /\
    take_rows z_profiles (arange lower (upper + 1)) = Some rows /\
    leftmost_insertion_point zmaxs zmin (bisect_left zmaxs zmin) /\
    leftmost_insertion_point zmins zmax (bisect_left zmins zmax) /\
    (1 <= nsigma ->
       (0 <= lower <= Z.of_nat nsigma - 1)%Z /\ (0 <= upper <= Z.of_nat nsigma - 1)%Z) /\
    (1 <= nsigma -> (nth 0 zmins 0 <= zmin)%Q -> (zmax <= nth (nsigma - 1) zmaxs 0)%Q ->
       covers_depths zmins zmaxs z lower upper /\
       covers_depths zmins zmaxs z
         (Z.max 0 (Z.of_nat (bisect_left zmaxs zmin) - 1))
         (Z.min (Z.of_nat nsigma - 1) (Z.of_nat (bisect_left zmins zmax) + 1))) /\
    (2 <= nsigma -> (1 <= upper - lower)%Z).
Proof.
  intros Hmono Hrows Hlen Hzmin.
  destruct (reduced_rows_is_Some np_min z_profiles) as [zmins Hzmins]; [|exact Hrows|].
  { intros [|? ?] ?; [congruence|simpl; eauto]. }
  destruct (reduced_rows_is_Some np_max z_profiles) as [zmaxs Hzmaxs]; [|exact Hrows|].
  { intros [|? ?] ?; [congruence|simpl; eauto]. }
  change (np_min_axis1 z_profiles = Some zmins) in Hzmins.
  change (np_max_axis1 z_profiles = Some zmaxs) in Hzmaxs.
  destruct (np_min_nonempty z zmin Hzmin) as [zmax Hzmax].
  pose proof (np_min_axis1_length _ _ Hzmins) as Hl1.
  pose proof (np_max_axis1_length _ _ Hzmaxs) as Hl2.
  rewrite Hlen in Hl1, Hl2.
  pose proof (np_min_axis1_nondecreasing _ _ Hzmins Hmono) as Hs1.
  pose proof (np_max_axis1_nondecreasing _ _ Hzmaxs Hmono) as Hs2.
  pose proof (np_axis1_min_le_max _ _ _ Hzmins Hzmaxs) as Hmm. rewrite Hlen in Hmm.
  pose proof (np_min_le_max _ _ _ Hzmin Hzmax) as Hz.
  pose proof (bisect_left_le_length zmaxs zmin) as Hb1.
  pose proof (bisect_left_le_length zmins zmax) as Hb2.
  set (lower := Z.max 0 (Z.of_nat (bisect_left zmaxs zmin) - 2)).
  set (upper := Z.min (Z.of_nat nsigma - 1) (Z.of_nat (bisect_left zmins zmax) + 2)).
  assert (Hb : indz_bounds zbuffer nsigma zmins zmaxs zmin zmax = (lower, upper)).
  { unfold indz_bounds, zbuffer, lower, upper. f_equal; f_equal; lia. }
  destruct (take_rows_is_Some z_profiles (arange lower (upper + 1))) as [rows Hr].
  { intros i Hi. apply arange_elem in Hi. rewrite Hlen. unfold lower, upper in *. lia. }
  exists zmins, zmaxs, zmax, rows.
  split; [exact Hzmins|]. split; [exact Hzmaxs|]. split; [exact Hzmax|].
  cbv zeta. fold lower upper.
  split.
  { unfold covering_layers. rewrite Hzmins, Hzmaxs, Hzmax.
    cbn [orfail mbind result_bind]. rewrite Hb.
    cbn [orfail mbind result_bind]. rewrite Hr. reflexivity. }
  split; [exact Hr|].
  split.
  { split; [exact Hb1|]. intros i Hi. apply bisect_left_leftmost; assumption. }
  split.
  { split; [exact Hb2|]. intros i Hi. apply bisect_left_leftmost; assumption. }
  split.
  { intros Hn.
    pose proof (indz_bounds_clamped zmins zmaxs nsigma zmin zmax Hl1 Hl2 Hs1 Hs2 Hmm Hz
                  zbuffer) as Hc.
    rewrite Hb in Hc. apply Hc; [unfold zbuffer; lia|exact Hn]. }
  split.
  { intros Hn H0 Hlast.
    assert (Hcov : forall zb lo up, (0 <= zb)%Z ->
              indz_bounds zb nsigma zmins zmaxs zmin zmax = (lo, up) ->
              covers_depths zmins zmaxs z lo up).
    { intros zb lo up Hzb Hlu d Hd.
      pose proof (indz_min_covers zmins zmaxs nsigma zmin zmax Hl1 Hl2 Hs1 Hs2 Hmm Hz
                    zb Hzb Hn H0) as Hlo.
      pose proof (indz_max_covers zmins zmaxs nsigma zmin zmax Hl1 Hl2 Hs1 Hs2 Hmm Hz
                    zb Hzb Hn Hlast) as Hup.
      rewrite Hlu in Hlo, Hup. simpl in Hlo, Hup. split.
      - eapply Qle_trans; [exact Hlo|]. eapply np_min_le; eauto.
      - eapply Qle_trans; [|exact Hup]. eapply np_max_ge; eauto. }
    split.
    - apply (Hcov zbuffer); [unfold zbuffer; lia|exact Hb].
    - apply (Hcov 0%Z); [lia|]. unfold indz_bounds. f_equal; f_equal; lia. }
  intros Hn.
  pose proof (indz_bounds_two_layers zmins zmaxs nsigma zmin zmax Hl1 Hl2 Hs1 Hs2 Hmm Hz
                zbuffer) as Ht.
  rewrite Hb in Ht. apply Ht; [unfold zbuffer; lia|exact Hn].
Qed.

Lemma shelf_profile_nondecreasing : layers_nondecreasing shelf_profile.
Proof. simpl. repeat split; repeat constructor; Qcompare_closed. Qed.

(** The depths -50 and -20 over the two columns of the shelf. *)
Lemma depth_search_layer_range_witness :
  layers_nondecreasing shelf_profile /\
  Forall (fun row => row <> []) shelf_profile /\
  length shelf_profile = 5 /\
  np_min [(-50)%Q; (-20)%Q] = Some (-50)%Q /\
  exists zmins zmaxs zmax rows,
    np_min_axis1 shelf_profile = Some zmins /\
    np_max_axis1 shelf_profile = Some zmaxs /\
    np_max [(-50)%Q; (-20)%Q] = Some zmax /\
    let lower := Z.max 0 (Z.of_nat (bisect_left zmaxs (-50)%Q) - 2) in
    let upper := Z.min (Z.of_nat 5 - 1) (Z.of_nat (bisect_left zmins zmax) + 2) in
    covering_layers 5 2 shelf_profile [(-50)%Q; (-20)%Q] (-50)%Q =
      inr (Take (arange lower (upper + 1)), VFloats (of_rows 2 rows)) /\
    take_rows shelf_profile (arange lower (upper + 1)) = Some rows /\
    leftmost_insertion_point zmaxs (-50)%Q (bisect_left zmaxs (-50)%Q) /\
    leftmost_insertion_point zmins zmax (bisect_left zmins zmax) /\
    (1 <= 5 ->
       (0 <= lower <= Z.of_nat 5 - 1)%Z /\ (0 <= upper <= Z.of_nat 5 - 1)%Z) /\
    (1 <= 5 -> (nth 0 zmins 0 <= (-50))%Q -> (zmax <= nth (5 - 1) zmaxs 0)%Q ->
       covers_depths zmins zmaxs [(-50)%Q; (-20)%Q] lower upper /\
       covers_depths zmins zmaxs [(-50)%Q; (-20)%Q]
         (Z.max 0 (Z.of_nat (bisect_left zmaxs (-50)%Q) - 1))
         (Z.min (Z.of_nat 5 - 1) (Z.of_nat (bisect_left zmins zmax) + 1))) /\
    (2 <= 5 -> (1 <= upper - lower)%Z).
Proof.
  split; [exact shelf_profile_nondecreasing|].
  split; [repeat constructor; discriminate|].
  split; [reflexivity|].
  split; [reflexivity|].
  apply (depth_search_layer_range 5 2 shelf_profile [(-50)%Q; (-20)%Q] (-50)%Q).
  - exact shelf_profile_nondecreasing.
  - repeat constructor; discriminate.
  - reflexivity.
  - reflexivity.
Defined.

(** C1 as stated fails twice on the two columns of the shelf. For the depth
    -20 the insertion point among the maxima is 3 and the search returns
    the layers 1 to 4: the lower end is moved by 2, where an end moved by
    exactly one layer would be 2. For the depth -95, below the deepest layer,
    the search returns the layers 0 to 2, and -95 is not within
    [[zmins[0], zmaxs[2]]], nor within the range without the buffer,
    [[zmins[0], zmaxs[1]]]. *)
Lemma depth_search_layer_range_counterexample :
  np_min_axis1 shelf_profile = Some shelf_zmins /\
  np_max_axis1 shelf_profile = Some shelf_zmaxs /\
  bisect_left shelf_zmaxs (-20)%Q = 3 /\
  bisect_left shelf_zmins (-20)%Q = 4 /\
  covering_layers 5 2 shelf_profile [(-20)%Q; (-20)%Q] (-20)%Q =
    inr (Take [1; 2; 3; 4]%Z,
         VFloats (mk_ndarray [4; 2]
           [(-70)%Q; (-35)%Q; (-50)%Q; (-25)%Q; (-30)%Q; (-15)%Q; (-10)%Q; (-5)%Q])) /\
  Z.max 0 (Z.of_nat (bisect_left shelf_zmaxs (-20)%Q) - 1) = 2%Z /\
  bisect_left shelf_zmaxs (-95)%Q = 0 /\
  bisect_left shelf_zmins (-95)%Q = 0 /\
  covering_layers 5 2 shelf_profile [(-95)%Q; (-95)%Q] (-95)%Q =
    inr (Take [0; 1; 2]%Z,
         VFloats (mk_ndarray [3; 2]
           [(-90)%Q; (-45)%Q; (-70)%Q; (-35)%Q; (-50)%Q; (-25)%Q])) /\
  ~ covers_depths shelf_zmins shelf_zmaxs [(-95)%Q; (-95)%Q] 0 2 /\
  ~ covers_depths shelf_zmins shelf_zmaxs [(-95)%Q; (-95)%Q] 0 1.
Proof.
  repeat split; try (vm_compute; reflexivity).
  - intros H. destruct (H (-95)%Q) as [Hlo _]; [apply list_elem_of_here|].
    revert Hlo. Qcompare_closed.
  - intros H. destruct (H (-95)%Q) as [Hlo _]; [apply list_elem_of_here|].
    revert Hlo. Qcompare_closed.
Qed.

(** ** Running a method *)

Lemma run_bind_inr {S A B} (m : M S A) (f : A -> M S B) (s s' : S) (b : B) :
  run (m ≫= f) s = (inr b, s') ->
  exists a s1, run m s = (inr a, s1) /\ run (f a) s1 = (inr b, s').
Proof.
  unfold mbind, M_bind. simpl. destruct (run m s) as [[e|a] s1]; intros H.
  - discriminate.
  - exists a, s1. split; [reflexivity|exact H].
Qed.

Lemma run_liftE_inr {S A} (r : result A) (s s' : S) (a : A) :
  run (liftE r) s = (inr a, s') -> r = inr a /\ s' = s.
Proof. simpl. intros [= -> ->]. split; reflexivity. Qed.

Lemma run_orraise_inr {S A} (e : exn) (o : option A) (s s' : S) (a : A) :
  run (orraise e o) s = (inr a, s') -> o = Some a /\ s' = s.
Proof. destruct o; simpl; intros [= -> ->]; split; reflexivity. Qed.

Lemma run_mret_inr {S A} (x a : A) (s s' : S) :
  run (mret x) s = (inr a, s') -> a = x /\ s' = s.
Proof. simpl. intros [= -> ->]. split; reflexivity. Qed.

Lemma result_bind_inr {A B} (m : result A) (f : A -> result B) (b : B) :
  m ≫= f = inr b -> exists a, m = inr a /\ f a = inr b.
Proof. destruct m as [e|a]; simpl; intros H; [discriminate|]. exists a. split; [reflexivity|exact H]. Qed.

Lemma orfail_inr {A} (e : exn) (o : option A) (a : A) : orfail e o = inr a -> o = Some a.
Proof. destruct o; simpl; intros [= ->]; reflexivity. Qed.

(** ** The loop over the requested variables *)

(** The standard names the reader knows. *)
Lemma extract_known_name (self : Reader) (block : bool) (indxTime : Z) (indz : selector)
    (indy indx : list Z) (outside : list (list nat)) (par : string) (m : MaskedArray) :
  extract self block indxTime indz indy indx outside par = inr m ->
  par ∈ ROMS_variable_mapping.*2.
Proof.
  unfold extract. intros H.
  apply result_bind_inr in H as (var & Hvar & _).
  unfold source_variable in Hvar.
  apply result_bind_inr in Hvar as (vn & Hvn & _).
  apply orfail_inr in Hvn.
  destruct (filter (fun p : string * string => p.2 = par) ROMS_variable_mapping)
    as [|p rest] eqn:E; [discriminate|].
  assert (Hp : p ∈ filter (fun p : string * string => p.2 = par) ROMS_variable_mapping).
  { rewrite E. apply list_elem_of_here. }
  apply list_elem_of_filter in Hp as [Hpar Hp]. rewrite <- Hpar.
  apply list_elem_of_fmap_2, Hp.
Qed.

Lemma extract_all_lookup_other (self : Reader) (block : bool) (indxTime : Z) (indz : selector)
    (indy indx : list Z) (outside : list (list nat)) (pars : list string)
    (variables variables' : gmap string value) (k : string) :
  extract_all self block indxTime indz indy indx outside pars variables = inr variables' ->
  k ∉ pars -> variables' !! k = variables !! k.
Proof.
  revert variables. induction pars as [|p rest IH]; intros variables H Hk; simpl in H.
  - injection H as <-. reflexivity.
  - apply result_bind_inr in H as (m & Hm & H).
    apply not_elem_of_cons in Hk as [Hne Hk].
    rewrite (IH _ H Hk). apply lookup_insert_ne. congruence.
Qed.

Lemma extract_all_lookup_in (self : Reader) (block : bool) (indxTime : Z) (indz : selector)
    (indy indx : list Z) (outside : list (list nat)) (pars : list string)
    (variables variables' : gmap string value) (par : string) :
  extract_all self block indxTime indz indy indx outside pars variables = inr variables' ->
  par ∈ pars ->
  exists m, extract self block indxTime indz indy indx outside par = inr m /\
            variables' !! par = Some (VMasked m).
Proof.
  revert variables. induction pars as [|p rest IH]; intros variables H Hpar; simpl in H.
  - inversion Hpar.
  - apply result_bind_inr in H as (m & Hm & H).
    destruct (decide (par ∈ rest)) as [Hin|Hnotin].
    + apply (IH _ H Hin).
    + apply elem_of_cons in Hpar as [->|Hin]; [|contradiction].
      exists m. split; [exact Hm|].
      rewrite (extract_all_lookup_other _ _ _ _ _ _ _ _ _ _ _ H Hnotin).
      apply lookup_insert_eq.
Qed.

Lemma extract_all_known_names (self : Reader) (block : bool) (indxTime : Z) (indz : selector)
    (indy indx : list Z) (outside : list (list nat)) (pars : list string)
    (variables variables' : gmap string value) :
  extract_all self block indxTime indz indy indx outside pars variables = inr variables' ->
  forall par, par ∈ pars -> par ∈ ROMS_variable_mapping.*2.
Proof.
  intros H par Hpar.
  destruct (extract_all_lookup_in _ _ _ _ _ _ _ _ _ _ _ H Hpar) as (m & Hm & _).
  eapply extract_known_name, Hm.
Qed.

(** A key that is no standard name is not touched by the loop. *)
Lemma extract_all_lookup_foreign (self : Reader) (block : bool) (indxTime : Z) (indz : selector)
    (indy indx : list Z) (outside : list (list nat)) (pars : list string)
    (variables variables' : gmap string value) (k : string) :
  extract_all self block indxTime indz indy indx outside pars variables = inr variables' ->
  k ∉ ROMS_variable_mapping.*2 -> variables' !! k = variables !! k.
Proof.
  intros H Hk. eapply extract_all_lookup_other; [exact H|].
  intros Hin. apply Hk. eapply extract_all_known_names; eauto.
Qed.

(** ** The inversion of the land mask *)

Lemma invert_land_mask_lookup_other (variables variables' : gmap string value) (k : string) :
  invert_land_mask variables = inr variables' ->
  k <> "land_binary_mask" -> variables' !! k = variables !! k.
Proof.
  unfold invert_land_mask. intros H Hk.
  destruct (variables !! "land_binary_mask") as [v|].
  - apply result_bind_inr in H as (v' & _ & H). injection H as <-.
    apply lookup_insert_ne. congruence.
  - injection H as <-. reflexivity.
Qed.

Lemma invert_land_mask_lookup (variables variables' : gmap string value) :
  invert_land_mask variables = inr variables' ->
  match variables !! "land_binary_mask" with
  | Some v => exists v', rsub1 v = inr v' /\ variables' !! "land_binary_mask" = Some v'
  | None => variables' = variables
  end.
Proof.
  unfold invert_land_mask. intros H.
  destruct (variables !! "land_binary_mask") as [v|].
  - apply result_bind_inr in H as (v' & Hv & H). injection H as <-.
    exists v'. split; [exact Hv|]. apply lookup_insert_eq.
  - injection H as <-. reflexivity.
Qed.

Lemma store_coordinates_lookup_other (self : Reader) (block : bool) (indx indy : list Z)
    (variables : gmap string value) (k : string) :
  k <> "x" -> k <> "y" ->
  store_coordinates self block indx indy variables !! k = variables !! k.
Proof.
  intros Hx Hy. unfold store_coordinates.
  destruct block; rewrite !lookup_insert_ne by congruence; reflexivity.
Qed.

(** ** Index arrays and shapes *)

Lemma foldl_insert_zero_length (idx : list nat) (a : list Z) :
  length (foldl (fun acc i => <[i := 0%Z]> acc) a idx) = length a.
Proof.
  revert a. induction idx as [|i idx IH]; intros a; simpl; [reflexivity|].
  rewrite IH. apply length_insert.
Qed.

Lemma foldl_insert_zero_lookup (idx : list nat) (a : list Z) (k : nat) :
  foldl (fun acc i => <[i := 0%Z]> acc) a idx !! k =
  (fun v => if decide (k ∈ idx) then 0%Z else v) <$> a !! k.
Proof.
  revert a. induction idx as [|i idx IH]; intros a.
  - simpl foldl. destruct (a !! k) as [v|]; [|reflexivity].
    cbn [fmap option_fmap option_map].
    destruct (decide (k ∈ [])) as [H|_]; [inversion H|reflexivity].
  - simpl foldl. rewrite IH. destruct (decide (k = i)) as [->|Hne].
    + destruct (decide (i < length a)) as [Hlt|Hge].
      * rewrite list_lookup_insert_eq by exact Hlt.
        destruct (lookup_lt_is_Some_2 a i Hlt) as [v ->].
        cbn [fmap option_fmap option_map].
        destruct (decide (i ∈ i :: idx)) as [_|Hn];
          [|exfalso; apply Hn, list_elem_of_here].
        destruct (decide (i ∈ idx)); reflexivity.
      * rewrite list_insert_ge by lia.
        rewrite (lookup_ge_None_2 a i) by lia. reflexivity.
    + rewrite list_lookup_insert_ne by congruence.
      destruct (a !! k) as [v|]; [|reflexivity].
      cbn [fmap option_fmap option_map].
      destruct (decide (k ∈ idx)) as [Hin|Hnin];
        destruct (decide (k ∈ i :: idx)) as [Hin'|Hnin']; try reflexivity.
      * exfalso. apply Hnin', list_elem_of_further, Hin.
      * exfalso. apply elem_of_cons in Hin' as [?|?]; [congruence|contradiction].
Qed.

(** In point mode the positions of [outside[0]] hold index 0 and all other
    positions keep theirs. *)
Lemma setitem_zero_lookup (a a' : list Z) (idx : list nat) :
  setitem_zero a idx = Some a' ->
  length a' = length a /\
  forall k, a' !! k = (fun v => if decide (k ∈ idx) then 0%Z else v) <$> a !! k.
Proof.
  unfold setitem_zero. destruct (forallb _ idx); [|discriminate].
  intros [= <-]. split.
  - apply foldl_insert_zero_length.
  - apply foldl_insert_zero_lookup.
Qed.

Lemma ndmin2_length (sh : list nat) : 2 <= length (ndmin2 sh).
Proof. unfold ndmin2. rewrite length_app, length_replicate. lia. Qed.

Lemma mask_setitem_true_shape (m m' : MaskedArray) (idx : list nat) :
  mask_setitem_true m idx = Some m' -> ma_shape m' = ma_shape m /\ ma_data m' = ma_data m.
Proof.
  unfold mask_setitem_true. destruct (ma_shape m) as [|d0 rest] eqn:E; [discriminate|].
  destruct (forallb _ idx); [|discriminate]. intros [= <-]. simpl. split; reflexivity.
Qed.

Lemma nc_getitem_shape (var : ncvar) (sels : list selector) (a : ndarray Q) :
  nc_getitem var sels = Some a -> shape a = selected_shape sels.
Proof.
  unfold nc_getitem. destruct (outer_fetch _ _ _ _); simpl; [|discriminate].
  intros [= <-]. reflexivity.
Qed.

Lemma diagonal_shape {A} (a b : ndarray A) (d0 d1 : nat) (rest : list nat) :
  shape a = d0 :: d1 :: rest -> diagonal a = Some b -> shape b = rest ++ [Nat.min d0 d1].
Proof.
  unfold diagonal. intros ->. destruct (mapM _ _); simpl; [|discriminate].
  intros [= <-]. reflexivity.
Qed.

(** Every value the loop stores has two dimensions or more. *)
Lemma extract_two_dimensional (self : Reader) (block : bool) (indxTime : Z) (indz : selector)
    (indy indx : list Z) (outside : list (list nat)) (par : string) (m : MaskedArray) :
  extract self block indxTime indz indy indx outside par = inr m ->
  2 <= length (ma_shape m).
Proof.
  unfold extract. intros H.
  apply result_bind_inr in H as (var & _ & H).
  apply result_bind_inr in H as (fetched & _ & H).
  apply result_bind_inr in H as (picked & _ & H).
  destruct block.
  - injection H as <-. apply ndmin2_length.
  - apply result_bind_inr in H as (out0 & _ & H). apply orfail_inr in H.
    apply mask_setitem_true_shape in H as [-> _]. apply ndmin2_length.
Qed.

(** In point mode, a fetch by two index arrays alone (a variable of two or
    three dimensions, or one of four with a single layer) ends as one row
    with one value per pair of indices. *)
Lemma extract_point_shape (self : Reader) (indxTime : Z) (indz : selector)
    (indy indx : list Z) (outside : list (list nat)) (par : string) (m : MaskedArray)
    (var : ncvar) :
  extract self false indxTime indz indy indx outside par = inr m ->
  source_variable self par = inr var ->
  length (nc_shape var) = 2 \/ length (nc_shape var) = 3 \/
    (length (nc_shape var) = 4 /\ exists k, indz = At k) ->
  ma_shape m = [1; Nat.min (length indy) (length indx)].
Proof.
  unfold extract. intros H Hvar Hrank. rewrite Hvar in H. simpl in H.
  apply result_bind_inr in H as (fetched & Hf & H).
  assert (Hshape : shape fetched = [length indy; length indx]).
  { destruct Hrank as [E|[E|[E [k ->]]]]; rewrite E in Hf;
      apply orfail_inr, nc_getitem_shape in Hf; exact Hf. }
  apply result_bind_inr in H as (picked & Hp & H).
  unfold ndim in Hp. rewrite Hshape in Hp. simpl in Hp.
  apply orfail_inr in Hp. apply (diagonal_shape _ _ _ _ _ Hshape) in Hp. simpl in Hp.
  apply result_bind_inr in H as (out0 & _ & H). apply orfail_inr in H.
  apply mask_setitem_true_shape in H as [-> _]. simpl. rewrite Hp. reflexivity.
Qed.

(** ** The cell of a coordinate *)

(** [floor_index] names the cell the coordinate falls in: the nearest grid
    line at or below it. *)
Lemma floor_index_cell (min delta coord : Q) :
  (0 < delta)%Q ->
  (min + inject_Z (floor_index min delta coord) * delta <= coord)%Q /\
  (coord < min + (inject_Z (floor_index min delta coord) + 1) * delta)%Q.
Proof.
  intros Hd. unfold floor_index.
  set (q := ((coord - min) / delta)%Q).
  assert (Hq : (q * delta == coord - min)%Q).
  { unfold q. field. intros E. rewrite E in Hd. apply (Qlt_irrefl 0), Hd. }
  pose proof (Qfloor_le q) as Hlo.
  pose proof (Qlt_floor q) as Hhi.
  rewrite inject_Z_plus in Hhi.
  apply (Qmult_le_compat_r _ _ delta) in Hlo; [|apply Qlt_le_weak, Hd].
  apply (Qmult_lt_compat_r _ _ delta) in Hhi; [|exact Hd].
  rewrite Hq in Hlo, Hhi. change (inject_Z 1) with 1%Q in Hhi.
  assert (E : ((inject_Z (Qfloor q) + 1) * delta == inject_Z (Qfloor q) * delta + delta)%Q)
    by ring.
  rewrite E in *. clear E Hq.
  generalize dependent (inject_Z (Qfloor q) * delta)%Q. intros a Hlo Hhi.
  split; lra.
Qed.

(** ** Inverting twice *)

Lemma ma_rsub1_involutive (m : MaskedArray) : ma_same (ma_rsub1 (ma_rsub1 m)) m.
Proof.
  unfold ma_same, ma_rsub1. simpl.
  split; [reflexivity|]. split; [reflexivity|].
  split; [rewrite !length_map; reflexivity|].
  intros k v1 v2 _ H1 H2.
  rewrite !list_lookup_fmap, H2 in H1. simpl in H1. injection H1 as <-. ring.
Qed.

Lemma horizontal_selection_point_lengths (self : Reader) (indx0 indy0 indx indy : list Z)
    (outside : list (list nat)) :
  horizontal_selection self false indx0 indy0 outside = inr (indx, indy) ->
  length indx = length indx0 /\ length indy = length indy0.
Proof.
  unfold horizontal_selection. intros H.
  apply result_bind_inr in H as (out0 & _ & H).
  apply result_bind_inr in H as (indx' & Hx & H). apply orfail_inr in Hx.
  apply result_bind_inr in H as (indy' & Hy & H). apply orfail_inr in Hy.
  injection H as <- <-.
  split; [apply (setitem_zero_lookup _ _ _ Hx)|apply (setitem_zero_lookup _ _ _ Hy)].
Qed.

(** ** [get_variables], step by step *)

Section ExtractionProperties.

Variable check_arguments :
  Reader -> list string -> option datetime -> list Q -> list Q -> list Q ->
  result (list string * datetime * list Q * list Q * list Q * list (list nat)).
Variable nearest_time : Reader -> datetime -> result (datetime * Z).
Variable z_r : vgrid.family -> list Q -> Q -> Q -> Q -> nat -> list (list Q).
Variable degrees : Q -> Q.

(** A call that returns went through every step; these are the values the
    steps passed on. *)
Lemma get_variables_inv (rv : list string) (time : option datetime) (x y z : list Q)
    (block : bool) (w w' : world) (res : gmap string value) :
  run (get_variables check_arguments nearest_time z_r degrees rv time x y z block) w
    = (inr res, w') ->
  exists rv' t' x' y' z' outside nearestTime indxTime indz zs indx indy vars1 angle vars2,
    check_arguments w.1 rv time x y z = inr (rv', t', x', y', z', outside) /\
    nearest_time w.1 t' = inr (nearestTime, indxTime) /\
    run (depth_levels z_r (map (floor_index (ymin w.1) (delta_y w.1)) y')
           (map (floor_index (xmin w.1) (delta_x w.1)) x') z') w = (inr (indz, zs), w') /\
    horizontal_selection w.1 block (map (floor_index (xmin w.1) (delta_x w.1)) x')
      (map (floor_index (ymin w.1) (delta_y w.1)) y') outside = inr (indx, indy) /\
    extract_all w.1 block indxTime indz indy indx outside rv' (<["z" := zs]> ∅) = inr vars1 /\
    np_getitem_meshgrid (angle_between_x_and_east w.1) indy indx = Some angle /\
    invert_land_mask
      (<["angle_between_x_and_east" :=
           VFloats (mk_ndarray (shape angle) (map degrees (flat angle)))]> vars1) = inr vars2 /\
    res = <["time" := VTime nearestTime]> (store_coordinates w.1 block indx indy vars2).
Proof.
  unfold get_variables. intros H.
  apply run_bind_inr in H as (self & s1 & Hself & H).
  simpl in Hself. injection Hself as <- <-.
  apply run_bind_inr in H as (args & s1 & Hargs & H).
  apply run_liftE_inr in Hargs as [Hargs ->].
  destruct args as [[[[[rv' t'] x'] y'] z'] outside].
  apply run_bind_inr in H as (nt & s1 & Hnt & H).
  apply run_liftE_inr in Hnt as [Hnt ->].
  destruct nt as [nearestTime indxTime].
  apply run_bind_inr in H as (dl & s1 & Hdl & H).
  destruct dl as [indz zs].
  apply run_bind_inr in H as (hs & s2 & Hhs & H).
  apply run_liftE_inr in Hhs as [Hhs ->].
  destruct hs as [indx indy].
  apply run_bind_inr in H as (vars1 & s2 & Hvars1 & H).
  apply run_liftE_inr in Hvars1 as [Hvars1 ->].
  apply run_bind_inr in H as (angle & s2 & Hangle & H).
  apply run_orraise_inr in Hangle as [Hangle ->].
  apply run_bind_inr in H as (vars2 & s2 & Hvars2 & H).
  apply run_liftE_inr in Hvars2 as [Hvars2 ->].
  apply run_mret_inr in H as [-> ->].
  exists rv', t', x', y', z', outside, nearestTime, indxTime, indz, zs, indx, indy,
    vars1, angle, vars2.
  repeat split; assumption.
Qed.

Lemma result_keys_foreign :
  ("z" ∉ ROMS_variable_mapping.*2) /\ ("x" ∉ ROMS_variable_mapping.*2) /\
  ("y" ∉ ROMS_variable_mapping.*2) /\ ("time" ∉ ROMS_variable_mapping.*2) /\
  ("angle_between_x_and_east" ∉ ROMS_variable_mapping.*2).
Proof.
  repeat split; intros H; apply (bool_decide_pack _) in H; vm_compute in H; exact H.
Qed.

(** The [z] of the result is what the depth step stored. *)
Lemma get_variables_z (rv' : list string) (self : Reader) (block : bool) (indxTime : Z)
    (indz : selector) (indy indx : list Z) (outside : list (list nat)) (zs : value)
    (vars1 vars2 : gmap string value) (angle : value) (nearestTime : datetime) :
  extract_all self block indxTime indz indy indx outside rv' (<["z" := zs]> ∅) = inr vars1 ->
  invert_land_mask (<["angle_between_x_and_east" := angle]> vars1) = inr vars2 ->
  (<["time" := VTime nearestTime]> (store_coordinates self block indx indy vars2)) !! "z"
    = Some zs.
Proof.
  intros H1 H2.
  rewrite lookup_insert_ne by discriminate.
  rewrite store_coordinates_lookup_other by discriminate.
  rewrite (invert_land_mask_lookup_other _ _ "z" H2) by discriminate.
  rewrite lookup_insert_ne by discriminate.
  rewrite (extract_all_lookup_foreign _ _ _ _ _ _ _ _ _ _ "z" H1)
    by apply result_keys_foreign.
  apply lookup_insert_eq.
Qed.

(** C2 (as amended). [get_variables] takes the surface path exactly when
    the SMALLEST requested depth equals 0 (for depths that are all at or
    below 0, that is when every one of them equals 0). On that path the
    vertical index is the single topmost layer [num_layers - 1], the
    requested [z] is echoed into the result unchanged, and neither the
    transform nor the bottom depth is consulted: the reader and the log are
    left as they were. When the smallest depth is not 0 the general depth
    search runs instead. *)
Theorem surface_fast_path (rv : list string) (time : option datetime) (x y z : list Q)
    (block : bool) (w : world) (rv' : list string) (t' : datetime) (x' y' z' : list Q)
    (outside : list (list nat)) (zmin : Q) :
  check_arguments w.1 rv time x y z = inr (rv', t', x', y', z', outside) ->
  np_min z' = Some zmin ->
  let indx := map (floor_index (xmin w.1) (delta_x w.1)) x' in
  let indy := map (floor_index (ymin w.1) (delta_y w.1)) y' in
  ((zmin == 0)%Q ->
     run (depth_levels z_r indy indx z') w =
       (inr (At (Z.of_nat (num_layers w.1) - 1), VFloats (vec z')), w) /\
     forall res w',
       run (get_variables check_arguments nearest_time z_r degrees rv time x y z block) w
         = (inr res, w') ->
       res !! "z" = Some (VFloats (vec z')) /\ w' = w) /\
  (~ (zmin == 0)%Q ->
     run (depth_levels z_r indy indx z') w =
       run (general_depth_search z_r indy indx z' zmin) w) /\
  ((forall d, d ∈ z' -> (d <= 0)%Q) ->
     ((zmin == 0)%Q <-> forall d, d ∈ z' -> (d == 0)%Q)).
Proof.
  intros Hargs Hzmin indx indy.
  assert (Hfast : (zmin == 0)%Q ->
            run (depth_levels z_r indy indx z') w =
              (inr (At (Z.of_nat (num_layers w.1) - 1), VFloats (vec z')), w)).
  { intros Hz. apply Qeq_bool_iff in Hz.
    unfold depth_levels, mbind, M_bind. simpl. rewrite Hzmin. simpl. rewrite Hz.
    reflexivity. }
  split; [|split].
  - intros Hz. split; [exact (Hfast Hz)|].
    intros res w' Hrun.
    apply get_variables_inv in Hrun
      as (rv2 & t2 & x2 & y2 & z2 & outside2 & nearestTime & indxTime & indz & zs & indx2
          & indy2 & vars1 & angle & vars2 & Hargs2 & _ & Hdl & _ & Hloop & _ & Hinv & ->).
    rewrite Hargs in Hargs2. injection Hargs2 as <- <- <- <- <- <-.
    fold indx indy in Hdl. rewrite (Hfast Hz) in Hdl. injection Hdl as <- <- <-.
    split; [|reflexivity].
    eapply get_variables_z; eassumption.
  - intros Hz.
    unfold depth_levels, mbind, M_bind. simpl. rewrite Hzmin. simpl.
    destruct (Qeq_bool zmin 0) eqn:E; [|reflexivity].
    apply Qeq_bool_iff in E. contradiction.
  - intros Hneg. split.
    + intros Hz d Hd. apply Qle_antisym; [apply Hneg, Hd|].
      rewrite <- Hz. eapply np_min_le; eauto.
    + intros Hall. apply Hall. apply np_min_elem, Hzmin.
Qed.

(** What the result holds under a requested name: the array the loop
    extracted for it, inverted when the name is the land mask. *)
Lemma get_variables_requested (self : Reader) (block : bool) (indxTime : Z)
    (indz : selector) (indy indx : list Z) (outside : list (list nat)) (rv' : list string)
    (zs angle : value) (vars1 vars2 : gmap string value) (nearestTime : datetime)
    (par : string) :
  extract_all self block indxTime indz indy indx outside rv' (<["z" := zs]> ∅) = inr vars1 ->
  invert_land_mask (<["angle_between_x_and_east" := angle]> vars1) = inr vars2 ->
  par ∈ rv' ->
  exists m, extract self block indxTime indz indy indx outside par = inr m /\
    (<["time" := VTime nearestTime]> (store_coordinates self block indx indy vars2)) !! par =
      Some (VMasked (if decide (par = "land_binary_mask") then ma_rsub1 m else m)).
Proof.
  intros Hloop Hinv Hpar.
  destruct (extract_all_lookup_in _ _ _ _ _ _ _ _ _ _ _ Hloop Hpar) as (m & Hm & Hlook).
  pose proof (extract_known_name _ _ _ _ _ _ _ _ _ Hm) as Hname.
  destruct result_keys_foreign as (_ & Hx & Hy & Ht & Ha).
  assert (par <> "time") by (intros ->; contradiction).
  assert (par <> "x") by (intros ->; contradiction).
  assert (par <> "y") by (intros ->; contradiction).
  assert (par <> "angle_between_x_and_east") by (intros ->; contradiction).
  exists m. split; [exact Hm|].
  rewrite lookup_insert_ne by congruence.
  rewrite store_coordinates_lookup_other by assumption.
  destruct (decide (par = "land_binary_mask")) as [->|Hne].
  - apply invert_land_mask_lookup in Hinv.
    rewrite lookup_insert_ne in Hinv by discriminate. rewrite Hlook in Hinv.
    destruct Hinv as (v' & Hv' & ->). simpl in Hv'. congruence.
  - rewrite (invert_land_mask_lookup_other _ _ par Hinv) by exact Hne.
    rewrite lookup_insert_ne by congruence. exact Hlook.
Qed.

(** C5. The integer indices are [floor((coord - min) / delta)], the cell at
    or below the coordinate, with no interpolation. In point mode (after
    the positions of [outside[0]] were set to 0) the [x] and [y] of the
    result are [min + (index - 1) * delta], one cell below the index that
    was fetched; in block mode they are the index ranges themselves. *)
Theorem horizontal_indices_and_coordinates (rv : list string) (time : option datetime)
    (x y z : list Q) (block : bool) (w w' : world) (res : gmap string value) :
  run (get_variables check_arguments nearest_time z_r degrees rv time x y z block) w
    = (inr res, w') ->
  exists rv' t' x' y' z' outside indx indy,
    check_arguments w.1 rv time x y z = inr (rv', t', x', y', z', outside) /\
    let indx0 := map (fun c => Qfloor ((c - xmin w.1) / delta_x w.1)) x' in
    let indy0 := map (fun c => Qfloor ((c - ymin w.1) / delta_y w.1)) y' in
    horizontal_selection w.1 block indx0 indy0 outside = inr (indx, indy) /\
    ((0 < delta_x w.1)%Q ->
       Forall2 (fun c i => (xmin w.1 + inject_Z i * delta_x w.1 <= c)%Q /\
                           (c < xmin w.1 + (inject_Z i + 1) * delta_x w.1)%Q) x' indx0) /\
    ((0 < delta_y w.1)%Q ->
       Forall2 (fun c i => (ymin w.1 + inject_Z i * delta_y w.1 <= c)%Q /\
                           (c < ymin w.1 + (inject_Z i + 1) * delta_y w.1)%Q) y' indy0) /\
    (block = false ->
       (exists out0, outside !! 0 = Some out0 /\
          (forall k, indx !! k = (fun i => if decide (k ∈ out0) then 0%Z else i) <$> indx0 !! k) /\
          (forall k, indy !! k = (fun i => if decide (k ∈ out0) then 0%Z else i) <$> indy0 !! k)) /\
       res !! "x" = Some (VFloats (vec
         (map (fun i => xmin w.1 + (inject_Z i - 1) * delta_x w.1)%Q indx))) /\
       res !! "y" = Some (VFloats (vec
         (map (fun i => ymin w.1 + (inject_Z i - 1) * delta_y w.1)%Q indy)))) /\
    (block = true ->
       res !! "x" = Some (VInts indx) /\ res !! "y" = Some (VInts indy)).
Proof.
  intros Hrun.
  apply get_variables_inv in Hrun
    as (rv' & t' & x' & y' & z' & outside & nearestTime & indxTime & indz & zs & indx
        & indy & vars1 & angle & vars2 & Hargs & _ & _ & Hsel & _ & _ & _ & ->).
  exists rv', t', x', y', z', outside, indx, indy.
  split; [exact Hargs|]. cbv zeta.
  split; [exact Hsel|].
  split.
  { intros Hd. apply Forall2_fmap_r, Forall_Forall2_diag, Forall_forall.
    intros c _. apply (floor_index_cell (xmin w.1) (delta_x w.1) c Hd). }
  split.
  { intros Hd. apply Forall2_fmap_r, Forall_Forall2_diag, Forall_forall.
    intros c _. apply (floor_index_cell (ymin w.1) (delta_y w.1) c Hd). }
  split.
  - intros ->. unfold horizontal_selection in Hsel.
    apply result_bind_inr in Hsel as (out0 & Hout & Hsel). apply orfail_inr in Hout.
    apply result_bind_inr in Hsel as (indx' & Hx & Hsel). apply orfail_inr in Hx.
    apply result_bind_inr in Hsel as (indy' & Hy & Hsel). apply orfail_inr in Hy.
    injection Hsel as <- <-.
    split.
    + exists out0. split; [exact Hout|].
      split; [apply (setitem_zero_lookup _ _ _ Hx)|apply (setitem_zero_lookup _ _ _ Hy)].
    + unfold store_coordinates. split.
      * rewrite !lookup_insert_ne by discriminate. apply lookup_insert_eq.
      * rewrite lookup_insert_ne by discriminate. apply lookup_insert_eq.
  - intros ->. unfold store_coordinates. split.
    + rewrite !lookup_insert_ne by discriminate. apply lookup_insert_eq.
    + rewrite lookup_insert_ne by discriminate. apply lookup_insert_eq.
Qed.

(** On the surface path the vertical index is one layer, the topmost. *)
Lemma depth_levels_surface (indy indx : list Z) (z : list Q) (zmin : Q) (w : world) :
  np_min z = Some zmin -> (zmin == 0)%Q ->
  run (depth_levels z_r indy indx z) w =
    (inr (At (Z.of_nat (num_layers w.1) - 1), VFloats (vec z)), w).
Proof.
  intros Hzmin Hz. apply Qeq_bool_iff in Hz.
  unfold depth_levels, mbind, M_bind. simpl. rewrite Hzmin. simpl. rewrite Hz.
  reflexivity.
Qed.

(** C8. When the land mask is among the requested variables, the result
    holds under its name the extracted array with every value [v] replaced
    by [1 - v] (shape and mask as extracted), and no other requested
    variable is changed; when it is not requested the result has no such
    entry. Inverting twice gives the extracted values back. *)
Theorem land_mask_is_inverted (rv : list string) (time : option datetime)
    (x y z : list Q) (block : bool) (w w' : world) (res : gmap string value) :
  run (get_variables check_arguments nearest_time z_r degrees rv time x y z block) w
    = (inr res, w') ->
  exists rv' t' x' y' z' outside indxTime indz indy indx,
    check_arguments w.1 rv time x y z = inr (rv', t', x', y', z', outside) /\
    horizontal_selection w.1 block (map (floor_index (xmin w.1) (delta_x w.1)) x')
      (map (floor_index (ymin w.1) (delta_y w.1)) y') outside = inr (indx, indy) /\
    ("land_binary_mask" ∈ rv' ->
       exists m,
         extract w.1 block indxTime indz indy indx outside "land_binary_mask" = inr m /\
         res !! "land_binary_mask" = Some (VMasked (ma_rsub1 m)) /\
         ma_shape (ma_rsub1 m) = ma_shape m /\
         ma_mask (ma_rsub1 m) = ma_mask m /\
         ma_data (ma_rsub1 m) = map (fun v => 1 - v)%Q (ma_data m) /\
         ma_same (ma_rsub1 (ma_rsub1 m)) m) /\
    ("land_binary_mask" ∉ rv' -> res !! "land_binary_mask" = None) /\
    (forall par, par ∈ rv' -> par <> "land_binary_mask" ->
       exists m, extract w.1 block indxTime indz indy indx outside par = inr m /\
                 res !! par = Some (VMasked m)).
Proof.
  intros Hrun.
  apply get_variables_inv in Hrun
    as (rv' & t' & x' & y' & z' & outside & nearestTime & indxTime & indz & zs & indx
        & indy & vars1 & angle & vars2 & Hargs & _ & _ & Hsel & Hloop & _ & Hinv & ->).
  exists rv', t', x', y', z', outside, indxTime, indz, indy, indx.
  split; [exact Hargs|]. split; [exact Hsel|]. split; [|split].
  - intros Hreq.
    destruct (get_variables_requested _ _ _ _ _ _ _ _ _ _ _ _ nearestTime _ Hloop Hinv Hreq)
      as (m & Hm & Hres).
    rewrite decide_True in Hres by reflexivity.
    exists m. split; [exact Hm|]. split; [exact Hres|].
    split; [reflexivity|]. split; [reflexivity|]. split; [reflexivity|].
    apply ma_rsub1_involutive.
  - intros Hnot.
    rewrite lookup_insert_ne by discriminate.
    rewrite store_coordinates_lookup_other by discriminate.
    pose proof (extract_all_lookup_other _ _ _ _ _ _ _ _ _ _ _ Hloop Hnot) as Hnone.
    rewrite lookup_insert_ne, lookup_empty in Hnone by discriminate.
    apply invert_land_mask_lookup in Hinv.
    rewrite lookup_insert_ne, Hnone in Hinv by discriminate. subst vars2.
    rewrite lookup_insert_ne by discriminate. exact Hnone.
  - intros par Hreq Hne.
    destruct (get_variables_requested _ _ _ _ _ _ _ _ _ _ _ _ nearestTime _ Hloop Hinv Hreq)
      as (m & Hm & Hres).
    rewrite decide_False in Hres by exact Hne.
    exists m. split; [exact Hm|exact Hres].
Qed.

(** C10 (as amended). Every requested variable is in the result as a
    masked array of two dimensions or more. In point mode its shape is
    [(1, n)], for [n] pairs of indices, when its variable has two or three
    dimensions, or has four and the query is on the surface path. *)
Theorem result_arrays_two_dimensional (rv : list string) (time : option datetime)
    (x y z : list Q) (block : bool) (w w' : world) (res : gmap string value) :
  run (get_variables check_arguments nearest_time z_r degrees rv time x y z block) w
    = (inr res, w') ->
  exists rv' t' x' y' z' outside,
    check_arguments w.1 rv time x y z = inr (rv', t', x', y', z', outside) /\
    forall par, par ∈ rv' ->
      exists m var,
        source_variable w.1 par = inr var /\
        res !! par = Some (VMasked m) /\
        2 <= length (ma_shape m) /\
        (block = false ->
         length (nc_shape var) = 2 \/ length (nc_shape var) = 3 \/
           (length (nc_shape var) = 4 /\
            exists zmin, np_min z' = Some zmin /\ (zmin == 0)%Q) ->
         ma_shape m = [1; Nat.min (length y') (length x')]).
Proof.
  intros Hrun.
  apply get_variables_inv in Hrun
    as (rv' & t' & x' & y' & z' & outside & nearestTime & indxTime & indz & zs & indx
        & indy & vars1 & angle & vars2 & Hargs & _ & Hdl & Hsel & Hloop & _ & Hinv & ->).
  exists rv', t', x', y', z', outside. split; [exact Hargs|].
  intros par Hreq.
  destruct (get_variables_requested _ _ _ _ _ _ _ _ _ _ _ _ nearestTime _ Hloop Hinv Hreq)
    as (m & Hm & Hres).
  assert (Hvar : exists var, source_variable w.1 par = inr var).
  { unfold extract in Hm. apply result_bind_inr in Hm as (var & Hvar & _). eauto. }
  destruct Hvar as [var Hvar].
  exists (if decide (par = "land_binary_mask") then ma_rsub1 m else m), var.
  split; [exact Hvar|]. split; [exact Hres|].
  assert (Hsh : ma_shape (if decide (par = "land_binary_mask") then ma_rsub1 m else m)
                = ma_shape m) by (destruct (decide _); reflexivity).
  rewrite Hsh. split; [eapply extract_two_dimensional, Hm|].
  intros -> Hrank.
  destruct (horizontal_selection_point_lengths _ _ _ _ _ _ Hsel) as [Hlx Hly].
  rewrite length_map in Hlx, Hly. rewrite <- Hlx, <- Hly.
  eapply extract_point_shape; [exact Hm|exact Hvar|].
  destruct Hrank as [E|[E|[E (zmin & Hzmin & Hz)]]]; [auto|auto|].
  right. right. split; [exact E|].
  rewrite (depth_levels_surface _ _ _ _ _ Hzmin Hz) in Hdl.
  injection Hdl as <- _ _. eauto.
Qed.

End ExtractionProperties.

(** ** [__init__] *)

(** The step that reads the transform parameters, as one case analysis. *)
Lemma run_read_transform (ds : netCDF4_Dataset) (log : list logrec) :
  run (read_transform ds) log =
  match assoc "Vtransform" (ds_variables ds) ≫= nc_first,
        assoc "Vstretching" (ds_variables ds) ≫= nc_first with
  | Some t, Some s =>
      if Qeq_bool t 1 && Qeq_bool s 1 then (inr (Some t, Some s, vgrid.s_coordinate), log)
      else if Qeq_bool t 2 && Qeq_bool s 2 then (inr (Some t, Some s, vgrid.s_coordinate_2), log)
      else if Qeq_bool t 2 && Qeq_bool s 4 then (inr (Some t, Some s, vgrid.s_coordinate_4), log)
      else (inr (Some t, Some s, vgrid.s_coordinate), log ++ [sigma_unknown_warning])
  | vt, _ => (inr (vt, None, vgrid.s_coordinate), log ++ [sigma_missing_warning])
  end.
Proof.
  unfold read_transform, try_except, read_first, orraise, liftE, orfail, logging.
  unfold mbind at 1 2 3 4 5 6 7, M_bind, mret, M_ret. simpl run.
  destruct (assoc "Vtransform" (ds_variables ds)) as [v1|]; simpl; [|reflexivity].
  destruct (nc_first v1) as [t|]; simpl; [|reflexivity].
  destruct (assoc "Vstretching" (ds_variables ds)) as [v2|]; simpl; [|reflexivity].
  destruct (nc_first v2) as [s|]; simpl; [|reflexivity].
  destruct (Qeq_bool t 1 && Qeq_bool s 1); [reflexivity|].
  destruct (Qeq_bool t 2 && Qeq_bool s 2); [reflexivity|].
  destruct (Qeq_bool t 2 && Qeq_bool s 4); reflexivity.
Qed.

(** C7. The transform is chosen by the pair (Vtransform, Vstretching): (1,1)
    gives [s_coordinate], (2,2) gives [s_coordinate_2], (2,4) gives
    [s_coordinate_4], each without a warning. For every other pair, and when
    one of the two cannot be read, the step still returns, with
    [s_coordinate] and exactly one warning in the log: it never raises. *)
Theorem transform_family_selection (ds : netCDF4_Dataset) (log : list logrec) :
  exists Vt Vs family warnings,
    run (read_transform ds) log = (inr (Vt, Vs, family), log ++ warnings) /\
    let vt := assoc "Vtransform" (ds_variables ds) ≫= nc_first in
    let vs := assoc "Vstretching" (ds_variables ds) ≫= nc_first in
    let pair_is (a b : Q) := exists t s, vt = Some t /\ vs = Some s /\ (t == a)%Q /\ (s == b)%Q in
    (pair_is 1%Q 1%Q -> family = vgrid.s_coordinate /\ warnings = []) /\
    (pair_is 2%Q 2%Q -> family = vgrid.s_coordinate_2 /\ warnings = []) /\
    (pair_is 2%Q 4%Q -> family = vgrid.s_coordinate_4 /\ warnings = []) /\
    (~ (pair_is 1%Q 1%Q \/ pair_is 2%Q 2%Q \/ pair_is 2%Q 4%Q) ->
       family = vgrid.s_coordinate /\ exists msg, warnings = [(WARNING, msg)]).
Proof.
  rewrite run_read_transform. cbv zeta.
  assert (Hne12 : ~ (1 == 2)%Q) by (intros E; discriminate E).
  assert (Hne24 : ~ (2 == 4)%Q) by (intros E; discriminate E).
  destruct (assoc "Vtransform" (ds_variables ds) ≫= nc_first) as [t|].
  2:{ eexists _, _, _, [_]. split; [reflexivity|].
      split; [intros (? & ? & ? & _); discriminate|].
      split; [intros (? & ? & ? & _); discriminate|].
      split; [intros (? & ? & ? & _); discriminate|].
      intros _. split; [reflexivity|]. unfold sigma_missing_warning. eauto. }
  destruct (assoc "Vstretching" (ds_variables ds) ≫= nc_first) as [s|].
  2:{ eexists _, _, _, [_]. split; [reflexivity|].
      split; [intros (? & ? & _ & ? & _); discriminate|].
      split; [intros (? & ? & _ & ? & _); discriminate|].
      split; [intros (? & ? & _ & ? & _); discriminate|].
      intros _. split; [reflexivity|]. unfold sigma_missing_warning. eauto. }
  assert (Hpair : forall a b, (exists t0 s0 : Q, Some t = Some t0 /\ Some s = Some s0 /\
                                (t0 == a)%Q /\ (s0 == b)%Q) <->
                              Qeq_bool t a && Qeq_bool s b = true).
  { intros a b. rewrite andb_true_iff, !Qeq_bool_iff. split.
    - intros (t0 & s0 & [= <-] & [= <-] & E1 & E2). auto.
    - intros [E1 E2]. eauto 6. }
  assert (Hexcl : forall a b c d, Qeq_bool t a && Qeq_bool s b = true ->
                    Qeq_bool t c && Qeq_bool s d = true -> (a == c)%Q /\ (b == d)%Q).
  { intros a b c d. rewrite !andb_true_iff, !Qeq_bool_iff.
    intros [E1 E2] [E3 E4]. split.
    - rewrite <- E1, <- E3. reflexivity.
    - rewrite <- E2, <- E4. reflexivity. }
  repeat setoid_rewrite Hpair.
  destruct (Qeq_bool t 1 && Qeq_bool s 1) eqn:E11.
  { eexists _, _, _, []. rewrite app_nil_r. split; [reflexivity|].
    split; [auto|]. split; [|split].
    - intros E22. destruct (Hexcl _ _ _ _ E11 E22). contradiction.
    - intros E24. destruct (Hexcl _ _ _ _ E11 E24). contradiction.
    - intros Hn. exfalso. apply Hn. auto. }
  destruct (Qeq_bool t 2 && Qeq_bool s 2) eqn:E22.
  { eexists _, _, _, []. rewrite app_nil_r. split; [reflexivity|].
    split; [discriminate|]. split; [auto|]. split.
    - intros E24. destruct (Hexcl _ _ _ _ E22 E24). contradiction.
    - intros Hn. exfalso. apply Hn. auto. }
  destruct (Qeq_bool t 2 && Qeq_bool s 4) eqn:E24.
  { eexists _, _, _, []. rewrite app_nil_r. split; [reflexivity|].
    split; [discriminate|]. split; [discriminate|]. split; [auto|].
    intros Hn. exfalso. apply Hn. auto. }
  eexists _, _, _, [_]. split; [reflexivity|].
  split; [discriminate|]. split; [discriminate|]. split; [discriminate|].
  intros _. split; [reflexivity|]. unfold sigma_unknown_warning. eauto.
Qed.

Lemma synthesize_sigma_length (n : nat) : length (synthesize_sigma n) = n.
Proof. unfold synthesize_sigma. rewrite length_map, length_seq. reflexivity. Qed.

Lemma synthesize_sigma_nth (n i : nat) :
  i < n ->
  nth i (synthesize_sigma n) 0%Q =
  ((inject_Z (Z.of_nat i) + (1 # 2) - inject_Z (Z.of_nat n)) / inject_Z (Z.of_nat n))%Q.
Proof.
  intros Hi. unfold synthesize_sigma.
  rewrite nth_lookup, list_lookup_fmap, lookup_seq_lt by exact Hi. reflexivity.
Qed.

Lemma inject_nat_pos (n : nat) : 1 <= n -> (0 < inject_Z (Z.of_nat n))%Q.
Proof. intros Hn. change 0%Q with (inject_Z 0). rewrite <- Zlt_Qlt. lia. Qed.

(** C6. When the file has no [s_rho] variable, the constructor's sigma step
    synthesizes, from the length [n >= 1] of the [s_rho] dimension, the [n]
    values [(i + 0.5 - n) / n] for [i] in [[0, n)] (and logs a warning).
    They are strictly increasing, the first is above -1, the last is below
    0, and the mean of the first and the last is -0.5. *)
Theorem synthesized_sigma (ds : netCDF4_Dataset) (log : list logrec) (n : nat) :
  assoc "s_rho" (ds_variables ds) = None ->
  assoc "s_rho" (ds_dimensions ds) = Some n ->
  1 <= n ->
  run (read_sigma ds) log =
    (inr (synthesize_sigma n),
     log ++ [(WARNING,
              "s_rho not available in dataset, constructing from number of layers (%s).")]) /\
  length (synthesize_sigma n) = n /\
  (forall i, i < n ->
     nth i (synthesize_sigma n) 0%Q =
     ((inject_Z (Z.of_nat i) + (1 # 2) - inject_Z (Z.of_nat n)) / inject_Z (Z.of_nat n))%Q) /\
  (forall i j, i < j -> j < n ->
     (nth i (synthesize_sigma n) 0 < nth j (synthesize_sigma n) 0)%Q) /\
  (-1 < nth 0 (synthesize_sigma n) 0)%Q /\
  (nth (n - 1) (synthesize_sigma n) 0 < 0)%Q /\
  ((nth 0 (synthesize_sigma n) 0 + nth (n - 1) (synthesize_sigma n) 0) / 2 == -(1 # 2))%Q.
Proof.
  intros Hvar Hdim Hn.
  pose proof (inject_nat_pos n Hn) as Hpos.
  assert (Hnz : ~ (inject_Z (Z.of_nat n) == 0)%Q).
  { intros E. rewrite E in Hpos. apply (Qlt_irrefl 0), Hpos. }
  assert (Hlast : (inject_Z (Z.of_nat (n - 1)) == inject_Z (Z.of_nat n) - 1)%Q).
  { rewrite Nat2Z.inj_sub by exact Hn. unfold Z.sub. rewrite inject_Z_plus. reflexivity. }
  split.
  { unfold read_sigma, try_except, orraise, liftE, orfail, logging.
    unfold mbind, M_bind, mret, M_ret. simpl run. rewrite Hvar, Hdim. reflexivity. }
  split; [apply synthesize_sigma_length|].
  split; [intros i Hi; apply synthesize_sigma_nth, Hi|].
  split.
  { intros i j Hij Hj. rewrite !synthesize_sigma_nth by lia.
    unfold Qdiv. apply Qmult_lt_compat_r; [apply Qinv_lt_0_compat, Hpos|].
    assert (inject_Z (Z.of_nat i) < inject_Z (Z.of_nat j))%Q by (rewrite <- Zlt_Qlt; lia).
    lra. }
  rewrite !synthesize_sigma_nth by lia. rewrite Hlast.
  change (inject_Z (Z.of_nat 0)) with 0%Q.
  split; [|split].
  - apply Qlt_shift_div_l; [exact Hpos|]. lra.
  - apply Qlt_shift_div_r; [exact Hpos|]. lra.
  - field. exact Hnz.
Qed.

(** The five layers of the small ocean, whose file has no [s_rho] variable. *)
Lemma synthesized_sigma_witness :
  assoc "s_rho" (ds_variables ocean_Dataset) = None /\
  assoc "s_rho" (ds_dimensions ocean_Dataset) = Some 5 /\
  1 <= 5 /\
  run (read_sigma ocean_Dataset) [] =
    (inr (synthesize_sigma 5),
     [] ++ [(WARNING,
             "s_rho not available in dataset, constructing from number of layers (%s).")]) /\
  length (synthesize_sigma 5) = 5 /\
  (forall i, i < 5 ->
     nth i (synthesize_sigma 5) 0%Q =
     ((inject_Z (Z.of_nat i) + (1 # 2) - inject_Z (Z.of_nat 5)) / inject_Z (Z.of_nat 5))%Q) /\
  (forall i j, i < j -> j < 5 ->
     (nth i (synthesize_sigma 5) 0 < nth j (synthesize_sigma 5) 0)%Q) /\
  (-1 < nth 0 (synthesize_sigma 5) 0)%Q /\
  (nth (5 - 1) (synthesize_sigma 5) 0 < 0)%Q /\
  ((nth 0 (synthesize_sigma 5) 0 + nth (5 - 1) (synthesize_sigma 5) 0) / 2 == -(1 # 2))%Q.
Proof.
  split; [reflexivity|]. split; [reflexivity|]. split; [lia|].
  apply (synthesized_sigma ocean_Dataset [] 5); [reflexivity|reflexivity|lia].
Defined.

Example synthesized_sigma_five :
  synthesize_sigma 5 = [(-9 # 10)%Q; (-7 # 10)%Q; (-5 # 10)%Q; (-3 # 10)%Q; (-1 # 10)%Q].
Proof. reflexivity. Qed.

Section ConstructionProperties.

Variable Dataset_open : string -> option netCDF4_Dataset.
Variable num2date : list Q -> string -> option (list datetime).
Variable super_init : Reader -> M (list logrec) Reader.

(** A construction that returns has run the parent constructor last, on a
    reader named 'roms native' whatever the arguments were. *)
Lemma init_hands_over (filename nm : option string) (log log' : list logrec) (r : Reader) :
  run (__init__ Dataset_open num2date super_init filename nm) log = (inr r, log') ->
  exists r0 log0, name r0 = "roms native" /\ num_layers r0 = length (sigma r0) /\
                  run (super_init r0) log0 = (inr r, log').
Proof.
  unfold __init__. intros H.
  apply run_bind_inr in H as (fn & s & _ & H).
  apply run_bind_inr in H as (ds & s1 & _ & H).
  apply run_bind_inr in H as (sig & s2 & _ & H).
  apply run_bind_inr in H as ([[Vt Vs] fam] & s3 & _ & H).
  apply run_bind_inr in H as ([[ths thb] tcl] & s4 & _ & H).
  apply run_bind_inr in H as (lat_rho & s5 & _ & H).
  apply run_bind_inr in H as (lon_rho & s6 & _ & H).
  apply run_bind_inr in H as (angle & s7 & _ & H).
  apply run_bind_inr in H as (ocean_time & s8 & _ & H).
  apply run_bind_inr in H as (units & s9 & _ & H).
  apply run_bind_inr in H as (tms & s10 & _ & H).
  apply run_bind_inr in H as (t0 & s11 & _ & H).
  apply run_bind_inr in H as (tn & s12 & _ & H).
  apply run_bind_inr in H as (xi & s13 & _ & H).
  apply run_bind_inr in H as (eta & s14 & _ & H).
  eexists _, _. split; [|split; [|exact H]]; reflexivity.
Qed.

(** C9. Whenever the constructor returns a reader, its name is the literal
    'roms native', whatever the filename and the display name given: the
    name set from the arguments is overwritten before the parent
    constructor runs (which, as in the parent class, leaves the name as it
    is). *)
Theorem constructed_name (filename nm : option string) (log log' : list logrec) (r : Reader) :
  (forall r0 s r1 s1, run (super_init r0) s = (inr r1, s1) -> name r1 = name r0) ->
  run (__init__ Dataset_open num2date super_init filename nm) log = (inr r, log') ->
  name r = "roms native".
Proof.
  intros Hsuper H.
  apply init_hands_over in H as (r0 & log0 & Hname & _ & H).
  rewrite (Hsuper _ _ _ _ H). exact Hname.
Qed.

End ConstructionProperties.

(** The small ocean, opened under the display name 'my ocean'. *)
Lemma constructed_name_witness :
  (forall r0 s r1 s1, run (ocean_super_init r0) s = (inr r1, s1) -> name r1 = name r0) /\
  run (__init__ ocean_open ocean_num2date ocean_super_init (Some "ocean.nc") (Some "my ocean")) []
    = (inr ocean_Reader,
       [(INFO, "Opening dataset: ocean.nc");
        (WARNING, "s_rho not available in dataset, constructing from number of layers (%s).");
        sigma_missing_warning;
        (WARNING, "Missing sigma stretching parameters - using default values")]) /\
  name ocean_Reader = "roms native".
Proof.
  assert (Hsuper : forall r0 s r1 s1,
            run (ocean_super_init r0) s = (inr r1, s1) -> name r1 = name r0).
  { intros r0 s r1 s1 H. simpl in H. injection H as <- _. reflexivity. }
  assert (Hrun : run (__init__ ocean_open ocean_num2date ocean_super_init
                        (Some "ocean.nc") (Some "my ocean")) []
    = (inr ocean_Reader,
       [(INFO, "Opening dataset: ocean.nc");
        (WARNING, "s_rho not available in dataset, constructing from number of layers (%s).");
        sigma_missing_warning;
        (WARNING, "Missing sigma stretching parameters - using default values")])).
  { vm_compute. reflexivity. }
  split; [exact Hsuper|]. split; [exact Hrun|].
  exact (constructed_name ocean_open ocean_num2date ocean_super_init
           (Some "ocean.nc") (Some "my ocean") [] _ ocean_Reader Hsuper Hrun).
Defined.

(** ** Queries on the small ocean *)

Example surface_query :
  run (ocean_get_variables surface_names None surface_x surface_y surface_z false) ocean_world
  = (inr surface_query_result, ocean_world).
Proof. vm_compute. reflexivity. Qed.

Example surface_query_normalized :
  ocean_check_arguments ocean_world.1 surface_names None surface_x surface_y surface_z =
  inr (surface_names, 0%Z, surface_x, surface_y, surface_z, [[]]).
Proof. vm_compute. reflexivity. Qed.

(** The surface query on the small ocean. *)
Lemma surface_fast_path_witness :
  ocean_check_arguments ocean_world.1 surface_names None surface_x surface_y surface_z =
    inr (surface_names, 0%Z, surface_x, surface_y, surface_z, [[]]) /\
  np_min surface_z = Some 0%Q /\
  ((0 == 0)%Q ->
     run (depth_levels ocean_z_r [0; 2]%Z [3; 1]%Z surface_z) ocean_world =
       (inr (At (Z.of_nat (num_layers ocean_world.1) - 1), VFloats (vec surface_z)),
        ocean_world) /\
     forall res w',
       run (ocean_get_variables surface_names None surface_x surface_y surface_z false)
         ocean_world = (inr res, w') ->
       res !! "z" = Some (VFloats (vec surface_z)) /\ w' = ocean_world) /\
  (~ (0 == 0)%Q ->
     run (depth_levels ocean_z_r [0; 2]%Z [3; 1]%Z surface_z) ocean_world =
       run (general_depth_search ocean_z_r [0; 2]%Z [3; 1]%Z surface_z 0%Q) ocean_world) /\
  ((forall d, d ∈ surface_z -> (d <= 0)%Q) ->
     ((0 == 0)%Q <-> forall d, d ∈ surface_z -> (d == 0)%Q)).
Proof.
  split; [exact surface_query_normalized|]. split; [reflexivity|].
  exact (surface_fast_path ocean_check_arguments ocean_nearest_time ocean_z_r ocean_degrees
           surface_names None surface_x surface_y surface_z false ocean_world
           surface_names 0%Z surface_x surface_y surface_z [[]] 0%Q
           surface_query_normalized eq_refl).
Defined.

(** C2 as stated fails for the depths [0, 1]: not every one of them is 0,
    and still the surface path is taken, since their minimum is 0. *)
Lemma surface_fast_path_counterexample :
  np_min [0%Q; 1%Q] = Some 0%Q /\
  ~ (forall d, d ∈ [0%Q; 1%Q] -> (d == 0)%Q) /\
  run (depth_levels ocean_z_r [1; 1]%Z [3; 2]%Z [0%Q; 1%Q]) ocean_world =
    (inr (At 4%Z, VFloats (vec [0%Q; 1%Q])), ocean_world) /\
  exists res,
    run (ocean_get_variables ["sea_water_temperature"] None
           [(7 # 2)%Q; (5 # 2)%Q] [(3 # 2)%Q; (3 # 2)%Q] [0%Q; 1%Q] false) ocean_world
      = (inr res, ocean_world) /\
    res !! "z" = Some (VFloats (vec [0%Q; 1%Q])) /\
    res !! "sea_water_temperature" =
      Some (VMasked (mk_masked [1; 2] [4%Q; 4%Q] [false; false])).
Proof.
  split; [reflexivity|]. split; [|split].
  - intros H. specialize (H 1%Q (list_elem_of_further _ _ _ (list_elem_of_here _ _))).
    discriminate H.
  - vm_compute. reflexivity.
  - eexists. split; [vm_compute; reflexivity|]. split; vm_compute; reflexivity.
Qed.

(** The surface query: the cells (3, 0) and (1, 2), reported at x = 2 and 0
    and y = -1 and 1. *)
Lemma horizontal_indices_and_coordinates_witness :
  run (ocean_get_variables surface_names None surface_x surface_y surface_z false) ocean_world
    = (inr surface_query_result, ocean_world) /\
  exists rv' t' x' y' z' outside indx indy,
    ocean_check_arguments ocean_world.1 surface_names None surface_x surface_y surface_z
      = inr (rv', t', x', y', z', outside) /\
    let indx0 := map (fun c => Qfloor ((c - xmin ocean_world.1) / delta_x ocean_world.1)) x' in
    let indy0 := map (fun c => Qfloor ((c - ymin ocean_world.1) / delta_y ocean_world.1)) y' in
    horizontal_selection ocean_world.1 false indx0 indy0 outside = inr (indx, indy) /\
    ((0 < delta_x ocean_world.1)%Q ->
       Forall2 (fun c i => (xmin ocean_world.1 + inject_Z i * delta_x ocean_world.1 <= c)%Q /\
                           (c < xmin ocean_world.1 + (inject_Z i + 1) * delta_x ocean_world.1)%Q)
               x' indx0) /\
    ((0 < delta_y ocean_world.1)%Q ->
       Forall2 (fun c i => (ymin ocean_world.1 + inject_Z i * delta_y ocean_world.1 <= c)%Q /\
                           (c < ymin ocean_world.1 + (inject_Z i + 1) * delta_y ocean_world.1)%Q)
               y' indy0) /\
    (false = false ->
       (exists out0, outside !! 0 = Some out0 /\
          (forall k, indx !! k = (fun i => if decide (k ∈ out0) then 0%Z else i) <$> indx0 !! k) /\
          (forall k, indy !! k = (fun i => if decide (k ∈ out0) then 0%Z else i) <$> indy0 !! k)) /\
       surface_query_result !! "x" = Some (VFloats (vec
         (map (fun i => xmin ocean_world.1 + (inject_Z i - 1) * delta_x ocean_world.1)%Q indx))) /\
       surface_query_result !! "y" = Some (VFloats (vec
         (map (fun i => ymin ocean_world.1 + (inject_Z i - 1) * delta_y ocean_world.1)%Q indy)))) /\
    (false = true ->
       surface_query_result !! "x" = Some (VInts indx) /\
       surface_query_result !! "y" = Some (VInts indy)).
Proof.
  split; [exact surface_query|].
  exact (horizontal_indices_and_coordinates ocean_check_arguments ocean_nearest_time
           ocean_z_r ocean_degrees surface_names None surface_x surface_y surface_z false
           ocean_world ocean_world surface_query_result surface_query).
Defined.

(** The surface query: land (0 in the file) at the first point, water (1 in
    the file) at the second, returned as 1 and 0. *)
Lemma land_mask_is_inverted_witness :
  run (ocean_get_variables surface_names None surface_x surface_y surface_z false) ocean_world
    = (inr surface_query_result, ocean_world) /\
  exists rv' t' x' y' z' outside indxTime indz indy indx,
    ocean_check_arguments ocean_world.1 surface_names None surface_x surface_y surface_z
      = inr (rv', t', x', y', z', outside) /\
    horizontal_selection ocean_world.1 false
      (map (floor_index (xmin ocean_world.1) (delta_x ocean_world.1)) x')
      (map (floor_index (ymin ocean_world.1) (delta_y ocean_world.1)) y') outside
      = inr (indx, indy) /\
    ("land_binary_mask" ∈ rv' ->
       exists m,
         extract ocean_world.1 false indxTime indz indy indx outside "land_binary_mask" = inr m /\
         surface_query_result !! "land_binary_mask" = Some (VMasked (ma_rsub1 m)) /\
         ma_shape (ma_rsub1 m) = ma_shape m /\
         ma_mask (ma_rsub1 m) = ma_mask m /\
         ma_data (ma_rsub1 m) = map (fun v => 1 - v)%Q (ma_data m) /\
         ma_same (ma_rsub1 (ma_rsub1 m)) m) /\
    ("land_binary_mask" ∉ rv' -> surface_query_result !! "land_binary_mask" = None) /\
    (forall par, par ∈ rv' -> par <> "land_binary_mask" ->
       exists m, extract ocean_world.1 false indxTime indz indy indx outside par = inr m /\
                 surface_query_result !! par = Some (VMasked m)).
Proof.
  split; [exact surface_query|].
  exact (land_mask_is_inverted ocean_check_arguments ocean_nearest_time
           ocean_z_r ocean_degrees surface_names None surface_x surface_y surface_z false
           ocean_world ocean_world surface_query_result surface_query).
Defined.

(** The surface query: both variables come back with the shape (1, 2). *)
Lemma result_arrays_two_dimensional_witness :
  run (ocean_get_variables surface_names None surface_x surface_y surface_z false) ocean_world
    = (inr surface_query_result, ocean_world) /\
  exists rv' t' x' y' z' outside,
    ocean_check_arguments ocean_world.1 surface_names None surface_x surface_y surface_z
      = inr (rv', t', x', y', z', outside) /\
    forall par, par ∈ rv' ->
      exists m var,
        source_variable ocean_world.1 par = inr var /\
        surface_query_result !! par = Some (VMasked m) /\
        2 <= length (ma_shape m) /\
        (false = false ->
         length (nc_shape var) = 2 \/ length (nc_shape var) = 3 \/
           (length (nc_shape var) = 4 /\
            exists zmin, np_min z' = Some zmin /\ (zmin == 0)%Q) ->
         ma_shape m = [1; Nat.min (length y') (length x')]).
Proof.
  split; [exact surface_query|].
  exact (result_arrays_two_dimensional ocean_check_arguments ocean_nearest_time
           ocean_z_r ocean_degrees surface_names None surface_x surface_y surface_z false
           ocean_world ocean_world surface_query_result surface_query).
Defined.

(** C10 as stated fails for a variable of four dimensions below the surface:
    the temperature at two points and the depth -50 comes back with the shape
    (2, 2), the diagonal of the first two axes (layer, row) of the fetched
    (5, 2, 2) block, and not with (1, 2). *)
Lemma result_arrays_two_dimensional_counterexample :
  exists res w',
    run (ocean_get_variables ["sea_water_temperature"] None
           [(3 # 2)%Q; (5 # 2)%Q] [(3 # 2)%Q; (5 # 2)%Q] [(-50)%Q; (-50)%Q] false) ocean_world
      = (inr res, w') /\
    res !! "sea_water_temperature" =
      Some (VMasked (mk_masked [2; 2] [0%Q; 1%Q; 0%Q; 1%Q] [false; false; false; false])) /\
    [2; 2] <> [1; 2].
Proof.
  eexists _, _. split; [vm_compute; reflexivity|].
  split; [vm_compute; reflexivity|discriminate].
Qed.

(** ** Block mode: the index ranges *)

(** X1. In block mode each index array becomes the run of cells from
    [max(0, min - buffer)] up to, and not including, [min(max + buffer, dim)];
    every cell of it is a cell of the grid, within [[0, dim - 1]], whatever
    the buffer; the flags of the normalizer play no part. *)
Lemma block_selection_range (self : Reader) (indx indy bx by_ : list Z)
    (outside : list (list nat)) :
  horizontal_selection self true indx indy outside = inr (bx, by_) ->
  exists b xlo xhi ylo yhi nx ny,
    buffer self = Some b /\
    np_imin indx = Some xlo /\ np_imax indx = Some xhi /\
    np_imin indy = Some ylo /\ np_imax indy = Some yhi /\
    shape (lon self) !! 1 = Some nx /\ shape (lon self) !! 0 = Some ny /\
    (forall i, i ∈ bx <-> (Z.max 0 (xlo - b) <= i < Z.min (xhi + b) (Z.of_nat nx))%Z) /\
    (forall j, j ∈ by_ <-> (Z.max 0 (ylo - b) <= j < Z.min (yhi + b) (Z.of_nat ny))%Z) /\
    (forall i, i ∈ bx -> (0 <= i <= Z.of_nat nx - 1)%Z) /\
    (forall j, j ∈ by_ -> (0 <= j <= Z.of_nat ny - 1)%Z) /\
    (forall outside', horizontal_selection self true indx indy outside' = inr (bx, by_)).
Proof.
  unfold horizontal_selection. intros H.
  apply result_bind_inr in H as (b & Hb & H). apply orfail_inr in Hb.
  apply result_bind_inr in H as (xlo & Hxlo & H). apply orfail_inr in Hxlo.
  apply result_bind_inr in H as (xhi & Hxhi & H). apply orfail_inr in Hxhi.
  apply result_bind_inr in H as (nx & Hnx & H). apply orfail_inr in Hnx.
  apply result_bind_inr in H as (ylo & Hylo & H). apply orfail_inr in Hylo.
  apply result_bind_inr in H as (yhi & Hyhi & H). apply orfail_inr in Hyhi.
  apply result_bind_inr in H as (ny & Hny & H). apply orfail_inr in Hny.
  injection H as <- <-.
  exists b, xlo, xhi, ylo, yhi, nx, ny.
  repeat (split; [assumption|]).
  split; [intros i; apply arange_elem|].
  split; [intros j; apply arange_elem|].
  split; [intros i Hi; apply arange_elem in Hi; lia|].
  split; [intros j Hj; apply arange_elem in Hj; lia|].
  intros outside'. rewrite Hb, Hxlo, Hxhi, Hnx, Hylo, Hyhi, Hny. reflexivity.
Qed.

(** Two points in the cells (3, 0) and (8, 1), a buffer of 2, the grid 10 by
    10: the columns 1 to 9 and the rows 0 to 2. *)
Lemma block_selection_range_witness :
  horizontal_selection ocean_world.1 true [3; 8]%Z [0; 1]%Z [[5]] =
    inr ([1; 2; 3; 4; 5; 6; 7; 8; 9]%Z, [0; 1; 2]%Z) /\
  exists b xlo xhi ylo yhi nx ny,
    buffer ocean_world.1 = Some b /\
    np_imin [3; 8]%Z = Some xlo /\ np_imax [3; 8]%Z = Some xhi /\
    np_imin [0; 1]%Z = Some ylo /\ np_imax [0; 1]%Z = Some yhi /\
    shape (lon ocean_world.1) !! 1 = Some nx /\ shape (lon ocean_world.1) !! 0 = Some ny /\
    (forall i, i ∈ [1; 2; 3; 4; 5; 6; 7; 8; 9]%Z <->
               (Z.max 0 (xlo - b) <= i < Z.min (xhi + b) (Z.of_nat nx))%Z) /\
    (forall j, j ∈ [0; 1; 2]%Z <->
               (Z.max 0 (ylo - b) <= j < Z.min (yhi + b) (Z.of_nat ny))%Z) /\
    (forall i, i ∈ [1; 2; 3; 4; 5; 6; 7; 8; 9]%Z -> (0 <= i <= Z.of_nat nx - 1)%Z) /\
    (forall j, j ∈ [0; 1; 2]%Z -> (0 <= j <= Z.of_nat ny - 1)%Z) /\
    (forall outside', horizontal_selection ocean_world.1 true [3; 8]%Z [0; 1]%Z outside' =
                        inr ([1; 2; 3; 4; 5; 6; 7; 8; 9]%Z, [0; 1; 2]%Z)).
Proof.
  assert (H : horizontal_selection ocean_world.1 true [3; 8]%Z [0; 1]%Z [[5]] =
                inr ([1; 2; 3; 4; 5; 6; 7; 8; 9]%Z, [0; 1; 2]%Z)) by (vm_compute; reflexivity).
  split; [exact H|].
  exact (block_selection_range ocean_world.1 [3; 8]%Z [0; 1]%Z _ _ [[5]] H).
Defined.

(** C3 (the failing inputs). A point in the cell 3 of a grid 10 wide, with a
    buffer of 1: the block is the cells 2 and 3, and not 2 to 4. With a
    buffer of 0 the block is empty and misses the cell of the point itself.
    Through [get_variables], with a buffer of 2 and the point in the cell
    (3, 0): the columns are 1 to 4 (not 1 to 5), the rows 0 and 1 (not 0 to
    2). *)
Theorem block_range_stops_short :
  horizontal_selection (set_buffer 1 ocean_Reader) true [3%Z] [3%Z] [[]]
    = inr ([2; 3]%Z, [2; 3]%Z) /\
  horizontal_selection (set_buffer 0 ocean_Reader) true [3%Z] [3%Z] [[]]
    = inr ([], []) /\
  exists res,
    run (ocean_get_variables ["sea_surface_height"] None [(7 # 2)%Q] [(1 # 2)%Q] [0%Q] true)
      ocean_world = (inr res, ocean_world) /\
    res !! "x" = Some (VInts [1; 2; 3; 4]%Z) /\
    res !! "y" = Some (VInts [0; 1]%Z).
Proof.
  split; [vm_compute; reflexivity|]. split; [vm_compute; reflexivity|].
  eexists. split; [vm_compute; reflexivity|]. split; vm_compute; reflexivity.
Qed.

(** ** Point mode: the mask *)



(** C4 (the failing inputs). Two points, the bottom depth asked for at the
    surface. When the second point is outside the domain ([outside[0]] is
    [[1]]) the call raises IndexError instead of returning a mask that is on
    at the second position only. When the first point is outside
    ([outside[0]] is [[0]]) the call returns with the mask on at both
    positions, though the second point is inside. *)
Theorem outside_mask_is_set_on_first_axis :
  ocean_check_arguments ocean_world.1 ["sea_floor_depth"] None
      [(3 # 2)%Q; (41 # 2)%Q] [(3 # 2)%Q; (5 # 2)%Q] [0%Q; 0%Q]
    = inr (["sea_floor_depth"], 0%Z, [(3 # 2)%Q; (41 # 2)%Q], [(3 # 2)%Q; (5 # 2)%Q],
           [0%Q; 0%Q], [[1]]) /\
  run (ocean_get_variables ["sea_floor_depth"] None
         [(3 # 2)%Q; (41 # 2)%Q] [(3 # 2)%Q; (5 # 2)%Q] [0%Q; 0%Q] false) ocean_world
    = (inl (IndexError "index out of bounds"), ocean_world) /\
  ocean_check_arguments ocean_world.1 ["sea_floor_depth"] None
      [(41 # 2)%Q; (3 # 2)%Q] [(3 # 2)%Q; (5 # 2)%Q] [0%Q; 0%Q]
    = inr (["sea_floor_depth"], 0%Z, [(41 # 2)%Q; (3 # 2)%Q], [(3 # 2)%Q; (5 # 2)%Q],
           [0%Q; 0%Q], [[0]]) /\
  exists res,
    run (ocean_get_variables ["sea_floor_depth"] None
           [(41 # 2)%Q; (3 # 2)%Q] [(3 # 2)%Q; (5 # 2)%Q] [0%Q; 0%Q] false) ocean_world
      = (inr res, ocean_world) /\
    res !! "sea_floor_depth" =
      Some (VMasked (mk_masked [1; 2] [100%Q; 100%Q] [true; true])).
Proof.
  split; [vm_compute; reflexivity|]. split; [vm_compute; reflexivity|].
  split; [vm_compute; reflexivity|].
  eexists. split; vm_compute; reflexivity.
Qed.

(** ** The depth search inside [get_variables] *)

(** With the bottom depth already read, the depth search is
    [covering_layers] on the profiles the transform gives for the columns of
    the points, and it leaves the reader and the log as they are. *)
Lemma general_depth_search_cached
    (z_r : vgrid.family -> list Q -> Q -> Q -> Q -> nat -> list (list Q))
    (indy indx : list Z) (z : list Q) (zmin : Q) (w : world) (h : ndarray Q)
    (depth_at_elements : list Q) :
  sea_floor_depth w.1 = Some h ->
  np_getitem2 h indy indx = Some depth_at_elements ->
  run (general_depth_search z_r indy indx z zmin) w =
    (covering_layers (length (sigma w.1)) (length depth_at_elements)
       (z_r (s_coordinate w.1) depth_at_elements (theta_b w.1) (theta_s w.1) (Tcline w.1)
            (length (sigma w.1))) z zmin, w).
Proof.
  intros Hh Hd. unfold general_depth_search, mbind, M_bind. simpl.
  rewrite Hh. simpl. rewrite Hd. simpl.
  destruct (covering_layers _ _ _ _ _); reflexivity.
Qed.

(** One point inside the domain, sea surface height at the surface: a value
    with the mask off, and the requested [z] back. *)
Example surface_height_at_one_point :
  exists res,
    run (ocean_get_variables ["sea_surface_height"] None [(7 # 2)%Q] [(5 # 2)%Q] [0%Q] false)
      ocean_world = (inr res, ocean_world) /\
    res !! "sea_surface_height" = Some (VMasked (mk_masked [1; 1] [(1 # 2)%Q] [false])) /\
    res !! "z" = Some (VFloats (vec [0%Q])).
Proof. eexists. split; [vm_compute; reflexivity|]. split; vm_compute; reflexivity. Qed.

(** The same point at the depth -50: all five layers, the depth profile of
    the column as [z], and the bottom depth cached on the reader. *)
Example temperature_at_depth :
  exists res,
    run (ocean_get_variables ["sea_water_temperature"] None [(7 # 2)%Q] [(5 # 2)%Q]
           [(-50)%Q] false) ocean_world
      = (inr res, (set_sea_floor_depth (nc_all (field10 100%Q)) ocean_world.1,
                   [(DEBUG, "Reading sea floor depth...")])) /\
    res !! "z" = Some (VFloats (mk_ndarray [5; 1]
                        [(-90)%Q; (-70)%Q; (-50)%Q; (-30)%Q; (-10)%Q])).
Proof. eexists. split; [vm_compute; reflexivity|]. vm_compute. reflexivity. Qed.

(** A block around a point in the corner cell (9, 9), with a buffer of 2:
    the ranges stay on the grid. *)
Example block_at_corner :
  exists res,
    run (ocean_get_variables ["sea_surface_height"] None [(19 # 2)%Q] [(19 # 2)%Q] [0%Q] true)
      ocean_world = (inr res, ocean_world) /\
    res !! "x" = Some (VInts [7; 8; 9]%Z) /\
    res !! "y" = Some (VInts [7; 8; 9]%Z).
Proof. eexists. split; [vm_compute; reflexivity|]. split; vm_compute; reflexivity. Qed.

(* ===================================================================== *)
(** * The values that are fetched *)
(* ===================================================================== *)

Lemma concat_lookup_uniform {A} (parts : list (list A)) (c i j : nat) (p : list A) (v : A) :
  Forall (fun q => length q = c) parts ->
  parts !! i = Some p -> p !! j = Some v -> concat parts !! (i * c + j) = Some v.
Proof.
  intros Hall. revert i. induction Hall as [|q rest Hq Hrest IH]; intros i Hp Hv.
  - discriminate.
  - destruct i as [|i]; simpl in *.
    + injection Hp as ->. apply lookup_app_l_Some, Hv.
    + rewrite lookup_app_r by lia.
      replace (c + i * c + j - length q) with (i * c + j) by lia.
      apply IH; assumption.
Qed.

Lemma concat_length_uniform {A} (parts : list (list A)) (c : nat) :
  Forall (fun q => length q = c) parts -> length (concat parts) = length parts * c.
Proof.
  induction 1 as [|q rest Hq Hrest IH]; simpl; [reflexivity|].
  rewrite length_app, IH, Hq. reflexivity.
Qed.

Lemma mapM_lookup_Some {A B} (f : A -> option B) (l : list A) (k : list B) (i : nat) (x : A) :
  mapM f l = Some k -> l !! i = Some x -> exists y, f x = Some y /\ k !! i = Some y.
Proof.
  intros H Hx. apply mapM_Some in H.
  destruct (Forall2_lookup_l _ _ _ _ _ H Hx) as (y & Hy & Hf). eauto.
Qed.

Lemma mapM_Forall_r {A B} (f : A -> option B) (P : B -> Prop) (l : list A) (k : list B) :
  mapM f l = Some k -> (forall x y, f x = Some y -> P y) -> Forall P k.
Proof.
  intros H HP. apply mapM_Some in H. induction H; constructor; eauto.
Qed.

(** The last axis: a row of the file, by an index array. *)
Lemma outer_fetch_row {A} (data : list A) (C : nat) (ix : list Z) (base : nat) (row : list A) :
  outer_fetch data [C] [Take ix] base = Some row ->
  length row = length ix /\
  forall j cx b, ix !! j = Some cx -> norm_index C cx = Some b ->
    exists v, row !! j = Some v /\ data !! (base * C + b) = Some v.
Proof.
  simpl. destruct (mapM _ ix) as [parts|] eqn:Hparts; [|discriminate].
  simpl. intros [= <-].
  assert (Hone : Forall (fun q => length q = 1) parts).
  { eapply mapM_Forall_r; [exact Hparts|]. intros cx q Hq. simpl in Hq.
    destruct (norm_index C cx); [|discriminate]. simpl in Hq.
    destruct (data !! _); [|discriminate]. injection Hq as <-. reflexivity. }
  split.
  - rewrite (concat_length_uniform _ 1 Hone), Nat.mul_1_r.
    apply length_mapM in Hparts. congruence.
  - intros j cx b Hj Hb.
    destruct (mapM_lookup_Some _ _ _ _ _ Hparts Hj) as (q & Hq & Hlook).
    simpl in Hq. rewrite Hb in Hq. simpl in Hq.
    destruct (data !! (base * C + b)) as [v|] eqn:Hv; [|discriminate].
    injection Hq as <-. exists v. split; [|reflexivity].
    replace j with (j * 1 + 0) by lia.
    eapply concat_lookup_uniform; [exact Hone|exact Hlook|reflexivity].
Qed.

(** The last two axes: the outer product of a row index array and a column
    index array, row by row. *)
Lemma outer_fetch_block {A} (data : list A) (R C : nat) (iy ix : list Z) (base : nat)
    (block : list A) :
  outer_fetch data [R; C] [Take iy; Take ix] base = Some block ->
  length block = length iy * length ix /\
  forall i j ry cx a b, iy !! i = Some ry -> ix !! j = Some cx ->
    norm_index R ry = Some a -> norm_index C cx = Some b ->
    exists v, block !! (i * length ix + j) = Some v /\
              data !! ((base * R + a) * C + b) = Some v.
Proof.
  intros H.
  assert (Hparts : exists parts,
            mapM (fun ry => a ← norm_index R ry;
                            outer_fetch data [C] [Take ix] (base * R + a)) iy = Some parts /\
            block = concat parts).
  { simpl in H. simpl.
    destruct (mapM _ iy) as [parts|]; [|discriminate]. simpl in H.
    injection H as <-. eauto. }
  clear H. destruct Hparts as (parts & Hparts & ->).
  assert (Hrows : Forall (fun q => length q = length ix) parts).
  { eapply mapM_Forall_r; [exact Hparts|]. intros ry q Hq. simpl in Hq.
    destruct (norm_index R ry) as [a|]; [|discriminate]. simpl in Hq.
    apply (outer_fetch_row data C ix _ q Hq). }
  split.
  - rewrite (concat_length_uniform _ _ Hrows).
    apply length_mapM in Hparts. congruence.
  - intros i j ry cx a b Hi Hj Ha Hb.
    destruct (mapM_lookup_Some _ _ _ _ _ Hparts Hi) as (q & Hq & Hlook).
    simpl in Hq. rewrite Ha in Hq. simpl in Hq.
    destruct (outer_fetch_row data C ix _ q Hq) as [_ Hrow].
    destruct (Hrow j cx b Hj Hb) as (v & Hv & Hdata).
    exists v. split; [|exact Hdata].
    eapply concat_lookup_uniform; [exact Hrows|exact Hlook|exact Hv].
Qed.

(** The fetch step of the loop body, for a variable whose leading axes are
    read at single indices: the shape of what is fetched, and cell by cell
    the value of the file. *)
Lemma extract_fetch_cells (var : ncvar) (lead : list nat) (R C b : nat)
    (indxTime : Z) (indz : selector) (indy indx : list Z) (fetched : ndarray Q) :
  nc_shape var = lead ++ [R; C] ->
  leading_offset lead indxTime indz = Some b ->
  match length (nc_shape var) with
  | 2 => orfail (IndexError "index out of bounds") (nc_getitem var [Take indy; Take indx])
  | 3 => orfail (IndexError "index out of bounds")
           (nc_getitem var [At indxTime; Take indy; Take indx])
  | 4 => orfail (IndexError "index out of bounds")
           (nc_getitem var [At indxTime; indz; Take indy; Take indx])
  | _ => inl (Exception "Wrong dimension of variable: ")
  end = inr fetched ->
  shape fetched = [length indy; length indx] /\
  length (flat fetched) = length indy * length indx /\
  forall i j ry cx, indy !! i = Some ry -> indx !! j = Some cx ->
    (0 <= ry < Z.of_nat R)%Z -> (0 <= cx < Z.of_nat C)%Z ->
    exists v, flat fetched !! (i * length indx + j) = Some v /\
              nc_data var !! ((b * R + Z.to_nat ry) * C + Z.to_nat cx) = Some v.
Proof.
  intros Hshape Hb Hget.
  assert (Hblock : exists fl,
            outer_fetch (nc_data var) [R; C] [Take indy; Take indx] b = Some fl /\
            fetched = mk_ndarray [length indy; length indx] fl).
  { rewrite Hshape in Hget. unfold nc_getitem in Hget. rewrite Hshape in Hget.
    destruct lead as [|T [|L [|L' lead]]].
    - injection Hb as <-. apply orfail_inr in Hget. simpl app in Hget.
      destruct (outer_fetch _ _ _ _) as [fl|]; [|discriminate].
      injection Hget as <-. eauto.
    - simpl in Hb. apply orfail_inr in Hget.
      change (outer_fetch (nc_data var) ([T] ++ [R; C]) [At indxTime; Take indy; Take indx] 0)
        with (norm_index T indxTime ≫= fun k =>
              outer_fetch (nc_data var) [R; C] [Take indy; Take indx] (0 * T + k)) in Hget.
      rewrite Hb in Hget. cbn [mbind option_bind] in Hget.
      change (0 * T + b) with b in Hget.
      destruct (outer_fetch _ _ _ _) as [fl|]; [|discriminate].
      injection Hget as <-. eauto.
    - destruct indz as [iz|lz]; [|discriminate]. cbn [leading_offset] in Hb.
      apply orfail_inr in Hget.
      change (outer_fetch (nc_data var) ([T; L] ++ [R; C])
                [At indxTime; At iz; Take indy; Take indx] 0)
        with (norm_index T indxTime ≫= fun k =>
              norm_index L iz ≫= fun l =>
              outer_fetch (nc_data var) [R; C] [Take indy; Take indx] ((0 * T + k) * L + l))
        in Hget.
      destruct (norm_index T indxTime) as [t|]; [|discriminate].
      destruct (norm_index L iz) as [l|]; [|discriminate].
      cbn [mbind option_bind] in Hb, Hget. injection Hb as <-.
      change (0 * T + t) with t in Hget.
      destruct (outer_fetch _ _ _ _) as [fl|]; [|discriminate].
      injection Hget as <-. eauto.
    - destruct indz; discriminate. }
  destruct Hblock as (fl & Hfetch & ->). simpl.
  destruct (outer_fetch_block _ _ _ _ _ _ _ Hfetch) as [Hlen Hcells].
  split; [reflexivity|]. split; [exact Hlen|].
  intros i j ry cx Hi Hj Hry Hcx.
  apply (Hcells i j ry cx); try assumption; apply norm_index_in_range; assumption.
Qed.

(** The diagonal of a two-dimensional array. *)
Lemma diagonal_pairs {A} (a d : ndarray A) (d0 d1 : nat) :
  shape a = [d0; d1] -> diagonal a = Some d ->
  forall k, k < Nat.min d0 d1 -> exists v, flat d !! k = Some v /\ flat a !! (k * d1 + k) = Some v.
Proof.
  unfold diagonal. intros ->. cbn [product foldr seq flat_map].
  destruct (mapM _ _) as [data|] eqn:Hdata; [|discriminate]. simpl.
  intros [= <-] k Hk. simpl.
  assert (Hpos : (map (fun i : nat => (i * d1 + i) * 1 + 0) (seq 0 (Nat.min d0 d1)) ++ []) !! k
                 = Some (k * d1 + k)).
  { rewrite app_nil_r. change (map ?f ?l) with (f <$> l).
    rewrite list_lookup_fmap, lookup_seq_lt by exact Hk. simpl. f_equal. lia. }
  destruct (mapM_lookup_Some _ _ _ _ _ Hdata Hpos) as (v & Hv & Hlook). eauto.
Qed.

(** X3. Point mode returns the paired selection. For a variable of two or
    three dimensions, or of four read at a single layer (the surface path),
    the value at position [k] of the extracted array is the value of the
    file at row [indy[k]] and column [indx[k]] (at the time index and the
    layer, where the variable has these axes): the diagonal of the fetched
    outer product is the pairing of the two index arrays. *)
Theorem point_values_are_paired (self : Reader) (indxTime : Z) (indz : selector)
    (indy indx : list Z) (outside : list (list nat)) (par : string) (m : MaskedArray)
    (var : ncvar) (lead : list nat) (R C b : nat) :
  extract self false indxTime indz indy indx outside par = inr m ->
  source_variable self par = inr var ->
  nc_shape var = lead ++ [R; C] ->
  leading_offset lead indxTime indz = Some b ->
  forall k ry cx, indy !! k = Some ry -> indx !! k = Some cx ->
    (0 <= ry < Z.of_nat R)%Z -> (0 <= cx < Z.of_nat C)%Z ->
    exists v, ma_data m !! k = Some v /\
              nc_data var !! ((b * R + Z.to_nat ry) * C + Z.to_nat cx) = Some v.
Proof.
  unfold extract. intros H Hvar Hshape Hb k ry cx Hy Hx Hry Hcx.
  rewrite Hvar in H. cbn [mbind result_bind] in H.
  apply result_bind_inr in H as (fetched & Hf & H).
  destruct (extract_fetch_cells _ _ _ _ _ _ _ _ _ _ Hshape Hb Hf) as (Hsh & _ & Hcells).
  apply result_bind_inr in H as (picked & Hp & H).
  unfold ndim in Hp. rewrite Hsh in Hp. simpl in Hp. apply orfail_inr in Hp.
  apply result_bind_inr in H as (out0 & _ & H). apply orfail_inr in H.
  apply mask_setitem_true_shape in H as [_ ->]. simpl.
  assert (Hk : k < Nat.min (length indy) (length indx)).
  { apply lookup_lt_Some in Hy, Hx. lia. }
  destruct (diagonal_pairs _ _ _ _ Hsh Hp k Hk) as (v & Hv & Hflat).
  destruct (Hcells k k ry cx Hy Hx Hry Hcx) as (v' & Hv' & Hdata).
  exists v. split; [exact Hv|]. congruence.
Qed.

(** Two points at the surface of the small ocean, temperature asked for: the
    second value is the one of the file at time 0, layer 4, row 2 and
    column 1. *)
Lemma point_values_are_paired_witness :
  extract ocean_Reader false 0 (At 4) [0; 2]%Z [3; 1]%Z [[]] "sea_water_temperature"
    = inr (mk_masked [1; 2] [4%Q; 4%Q] [false; false]) /\
  (exists var,
     source_variable ocean_Reader "sea_water_temperature" = inr var /\
     nc_shape var = [1; 5] ++ [10; 10] /\
     leading_offset [1; 5] 0 (At 4) = Some 4 /\
     exists v, ma_data (mk_masked [1; 2] [4%Q; 4%Q] [false; false]) !! 1 = Some v /\
               nc_data var !! ((4 * 10 + Z.to_nat 2) * 10 + Z.to_nat 1) = Some v).
Proof.
  assert (Hrun : extract ocean_Reader false 0 (At 4) [0; 2]%Z [3; 1]%Z [[]]
                   "sea_water_temperature"
                 = inr (mk_masked [1; 2] [4%Q; 4%Q] [false; false]))
    by (vm_compute; reflexivity).
  split; [exact Hrun|].
  eexists. split; [vm_compute; reflexivity|]. split; [reflexivity|].
  split; [reflexivity|].
  refine (point_values_are_paired ocean_Reader 0 (At 4) [0; 2]%Z [3; 1]%Z [[]]
            "sea_water_temperature" _ _ [1; 5] 10 10 4 Hrun _ _ _ 1 2%Z 1%Z _ _ _ _);
    first [reflexivity | lia].
Defined.

(** X4. Block mode returns the rectangle. For a variable of two or three
    dimensions, or of four read at a single layer, the extracted array has
    one row per row index and one column per column index, nothing in it is
    masked, and the value at [(i, j)] is the value of the file at row
    [indy[i]] and column [indx[j]]. *)
Theorem block_values_are_the_rectangle (self : Reader) (indxTime : Z) (indz : selector)
    (indy indx : list Z) (outside : list (list nat)) (par : string) (m : MaskedArray)
    (var : ncvar) (lead : list nat) (R C b : nat) :
  extract self true indxTime indz indy indx outside par = inr m ->
  source_variable self par = inr var ->
  nc_shape var = lead ++ [R; C] ->
  leading_offset lead indxTime indz = Some b ->
  ma_shape m = [length indy; length indx] /\
  ma_mask m = replicate (length indy * length indx) false /\
  forall i j ry cx, indy !! i = Some ry -> indx !! j = Some cx ->
    (0 <= ry < Z.of_nat R)%Z -> (0 <= cx < Z.of_nat C)%Z ->
    exists v, ma_data m !! (i * length indx + j) = Some v /\
              nc_data var !! ((b * R + Z.to_nat ry) * C + Z.to_nat cx) = Some v.
Proof.
  unfold extract. intros H Hvar Hshape Hb.
  rewrite Hvar in H. cbn [mbind result_bind] in H.
  apply result_bind_inr in H as (fetched & Hf & H).
  destruct (extract_fetch_cells _ _ _ _ _ _ _ _ _ _ Hshape Hb Hf) as (Hsh & Hlen & Hcells).
  rewrite andb_false_r in H. cbn [mbind result_bind mret result_ret] in H.
  injection H as <-. unfold np_ma_array. simpl. rewrite Hsh, Hlen.
  split; [reflexivity|]. split; [reflexivity|exact Hcells].
Qed.

(** The raw land mask of the small ocean over the rows 0 and 1 and the
    columns 3 and 4: the cell (1, 0) of the block is the cell (1, 3) of the
    file, which is sea. *)
Lemma block_values_are_the_rectangle_witness :
  extract ocean_Reader true 0 (At 4) [0; 1]%Z [3; 4]%Z [[]] "land_binary_mask"
    = inr (mk_masked [2; 2] [0%Q; 0%Q; 1%Q; 1%Q] [false; false; false; false]) /\
  (exists var,
     source_variable ocean_Reader "land_binary_mask" = inr var /\
     nc_shape var = [] ++ [10; 10] /\
     leading_offset [] 0 (At 4) = Some 0 /\
     ma_shape (mk_masked [2; 2] [0%Q; 0%Q; 1%Q; 1%Q] [false; false; false; false]) = [2; 2] /\
     exists v, ma_data (mk_masked [2; 2] [0%Q; 0%Q; 1%Q; 1%Q] [false; false; false; false])
                 !! (1 * 2 + 0) = Some v /\
               nc_data var !! ((0 * 10 + Z.to_nat 1) * 10 + Z.to_nat 3) = Some v).
Proof.
  assert (Hrun : extract ocean_Reader true 0 (At 4) [0; 1]%Z [3; 4]%Z [[]] "land_binary_mask"
                 = inr (mk_masked [2; 2] [0%Q; 0%Q; 1%Q; 1%Q] [false; false; false; false]))
    by (vm_compute; reflexivity).
  split; [exact Hrun|].
  eexists. split; [vm_compute; reflexivity|]. split; [reflexivity|].
  split; [reflexivity|].
  destruct (block_values_are_the_rectangle ocean_Reader 0 (At 4) [0; 1]%Z [3; 4]%Z [[]]
              "land_binary_mask" _ _ [] 10 10 0 Hrun eq_refl eq_refl eq_refl)
    as (Hshape & _ & Hcells).
  split; [exact Hshape|].
  apply (Hcells 1 0 1%Z 3%Z); first [reflexivity | lia].
Defined.

(* ===================================================================== *)
(** * What the constructor needs, and what it builds *)
(* ===================================================================== *)

Lemma run_bind {S A B} (m : M S A) (f : A -> M S B) (s : S) :
  run (m ≫= f) s = match run m s with
                   | (inr x, s') => run (f x) s'
                   | (inl e, s') => (inl e, s')
                   end.
Proof. reflexivity. Qed.

Lemma run_orraise {S A} (e : exn) (o : option A) (s : S) :
  run (orraise e o) s = (orfail e o, s).
Proof. reflexivity. Qed.

(** The step that reads the sigma values, as one case analysis. *)
Lemma run_read_sigma (ds : netCDF4_Dataset) (log : list logrec) :
  run (read_sigma ds) log =
  match assoc "s_rho" (ds_variables ds) with
  | Some v => (inr (nc_data v), log)
  | None =>
      match assoc "s_rho" (ds_dimensions ds) with
      | Some n =>
          (inr (synthesize_sigma n),
           log ++ [(WARNING,
                    "s_rho not available in dataset, constructing from number of layers (%s).")])
      | None => (inl (KeyError "s_rho"), log)
      end
  end.
Proof.
  unfold read_sigma, try_except, orraise, liftE, orfail, logging.
  unfold mbind, M_bind, mret, M_ret. simpl run.
  destruct (assoc "s_rho" (ds_variables ds)); [reflexivity|]. simpl.
  destruct (assoc "s_rho" (ds_dimensions ds)); reflexivity.
Qed.

(** The step that reads the stretching parameters, as one case analysis. *)
Lemma run_read_stretching (ds : netCDF4_Dataset) (log : list logrec) :
  run (read_stretching ds) log =
  match assoc "theta_s" (ds_variables ds) ≫= nc_first,
        assoc "theta_b" (ds_variables ds) ≫= nc_first,
        assoc "Tcline" (ds_variables ds) ≫= nc_first with
  | Some a, Some b, Some c => (inr (a, b, c), log)
  | _, _, _ =>
      (inr (3%Q, (4 # 10)%Q, 10%Q),
       log ++ [(WARNING, "Missing sigma stretching parameters - using default values")])
  end.
Proof.
  unfold read_stretching, try_except, read_first, orraise, liftE, orfail, logging.
  unfold mbind at 1 2 3 4 5 6 7, M_bind, mret, M_ret. simpl run.
  destruct (assoc "theta_s" (ds_variables ds)) as [v1|]; simpl; [|reflexivity].
  destruct (nc_first v1) as [a|]; simpl; [|reflexivity].
  destruct (assoc "theta_b" (ds_variables ds)) as [v2|]; simpl; [|reflexivity].
  destruct (nc_first v2) as [b|]; simpl; [|reflexivity].
  destruct (assoc "Tcline" (ds_variables ds)) as [v3|]; simpl; [|reflexivity].
  destruct (nc_first v3) as [c|]; simpl; reflexivity.
Qed.

Lemma read_transform_returns (ds : netCDF4_Dataset) (log : list logrec) :
  exists out log', run (read_transform ds) log = (inr out, log').
Proof.
  rewrite run_read_transform.
  destruct (assoc "Vtransform" (ds_variables ds) ≫= nc_first) as [t|]; [|eauto].
  destruct (assoc "Vstretching" (ds_variables ds) ≫= nc_first) as [s|]; [|eauto].
  destruct (Qeq_bool t 1 && Qeq_bool s 1); [eauto|].
  destruct (Qeq_bool t 2 && Qeq_bool s 2); [eauto|].
  destruct (Qeq_bool t 2 && Qeq_bool s 4); eauto.
Qed.

Lemma read_stretching_returns (ds : netCDF4_Dataset) (log : list logrec) :
  exists out log', run (read_stretching ds) log = (inr out, log').
Proof.
  rewrite run_read_stretching.
  destruct (assoc "theta_s" (ds_variables ds) ≫= nc_first) as [a|]; [|eauto].
  destruct (assoc "theta_b" (ds_variables ds) ≫= nc_first) as [b|]; [|eauto].
  destruct (assoc "Tcline" (ds_variables ds) ≫= nc_first) as [c|]; eauto.
Qed.

Section ConstructionContents.

Variable Dataset_open : string -> option netCDF4_Dataset.
Variable num2date : list Q -> string -> option (list datetime).
Variable super_init : Reader -> M (list logrec) Reader.

(** A construction that returns went through every step; these are the
    values the steps passed on, and the reader handed to the parent
    constructor. *)
Lemma init_inv (filename nm : option string) (log log' : list logrec) (r : Reader) :
  run (__init__ Dataset_open num2date super_init filename nm) log = (inr r, log') ->
  exists fn ds sig log2 Vt Vs fam log3 ths thb tcl log4 lat_rho lon_rho angle ocean_time
         units tms t0 tn xi eta,
    filename = Some fn /\ Dataset_open fn = Some ds /\
    run (read_sigma ds) (log ++ [(INFO, "Opening dataset: " +:+ fn)]) = (inr sig, log2) /\
    run (read_transform ds) log2 = (inr (Vt, Vs, fam), log3) /\
    run (read_stretching ds) log3 = (inr (ths, thb, tcl), log4) /\
    assoc "lat_rho" (ds_variables ds) = Some lat_rho /\
    assoc "lon_rho" (ds_variables ds) = Some lon_rho /\
    assoc "angle" (ds_variables ds) = Some angle /\
    assoc "ocean_time" (ds_variables ds) = Some ocean_time /\
    nc_units ocean_time = Some units /\
    num2date (nc_data ocean_time) units = Some tms /\
    head tms = Some t0 /\ last tms = Some tn /\
    assoc "xi_rho" (ds_dimensions ds) = Some xi /\
    assoc "eta_rho" (ds_dimensions ds) = Some eta /\
    run (super_init
           (mk_Reader "roms native" ds sig Vt Vs fam ths thb tcl (length sig)
              (nc_all lat_rho) (nc_all lon_rho) (nc_all angle) tms t0 tn
              match tms with t0 :: t1 :: _ => Some (t1 - t0)%Z | _ => None end
              0%Q (inject_Z (Z.of_nat xi) - 1)%Q 1%Q 0%Q (inject_Z (Z.of_nat eta) - 1)%Q 1%Q
              (known_variables ds) None None)) log4 = (inr r, log').
Proof.
  unfold __init__. intros H.
  apply run_bind_inr in H as (fn & s & Hfn & H).
  apply run_orraise_inr in Hfn as [-> ->].
  apply run_bind_inr in H as (ds & s1 & Hds & H).
  assert (Hopen : Dataset_open fn = Some ds /\ s1 = log ++ [(INFO, "Opening dataset: " +:+ fn)]).
  { revert Hds. unfold try_except, logging, orraise, liftE, orfail, raise.
    unfold mbind, M_bind. simpl run.
    destruct (Dataset_open fn); simpl; intros [= <- <-]; split; reflexivity. }
  destruct Hopen as [Hopen ->].
  apply run_bind_inr in H as (sig & s2 & Hsig & H).
  apply run_bind_inr in H as ([[Vt Vs] fam] & s3 & Htr & H).
  apply run_bind_inr in H as ([[ths thb] tcl] & s4 & Hst & H).
  apply run_bind_inr in H as (lat_rho & s5 & Hlat & H).
  apply run_orraise_inr in Hlat as [Hlat ->].
  apply run_bind_inr in H as (lon_rho & s6 & Hlon & H).
  apply run_orraise_inr in Hlon as [Hlon ->].
  apply run_bind_inr in H as (angle & s7 & Hangle & H).
  apply run_orraise_inr in Hangle as [Hangle ->].
  apply run_bind_inr in H as (ocean_time & s8 & Hot & H).
  apply run_orraise_inr in Hot as [Hot ->].
  apply run_bind_inr in H as (units & s9 & Hunits & H).
  apply run_orraise_inr in Hunits as [Hunits ->].
  apply run_bind_inr in H as (tms & s10 & Htms & H).
  apply run_orraise_inr in Htms as [Htms ->].
  apply run_bind_inr in H as (t0 & s11 & Ht0 & H).
  apply run_orraise_inr in Ht0 as [Ht0 ->].
  apply run_bind_inr in H as (tn & s12 & Htn & H).
  apply run_orraise_inr in Htn as [Htn ->].
  apply run_bind_inr in H as (xi & s13 & Hxi & H).
  apply run_orraise_inr in Hxi as [Hxi ->].
  apply run_bind_inr in H as (eta & s14 & Heta & H).
  apply run_orraise_inr in Heta as [Heta ->].
  exists fn, ds, sig, s2, Vt, Vs, fam, s3, ths, thb, tcl, s4, lat_rho, lon_rho, angle,
    ocean_time, units, tms, t0, tn, xi, eta.
  repeat (split; [first [reflexivity | assumption]|]). exact H.
Qed.

(** The other way round: when every step has what it needs, the
    construction is the parent constructor run on the reader built. *)
Lemma init_runs_parent (fn : string) (nm : option string) (log : list logrec)
    (ds : netCDF4_Dataset) (sig : list Q) (log2 : list logrec) (Vt Vs : option Q)
    (fam : vgrid.family) (log3 : list logrec) (ths thb tcl : Q) (log4 : list logrec)
    (lat_rho lon_rho angle ocean_time : ncvar) (units : string) (tms : list datetime)
    (t0 tn : datetime) (xi eta : nat) :
  Dataset_open fn = Some ds ->
  run (read_sigma ds) (log ++ [(INFO, "Opening dataset: " +:+ fn)]) = (inr sig, log2) ->
  run (read_transform ds) log2 = (inr (Vt, Vs, fam), log3) ->
  run (read_stretching ds) log3 = (inr (ths, thb, tcl), log4) ->
  assoc "lat_rho" (ds_variables ds) = Some lat_rho ->
  assoc "lon_rho" (ds_variables ds) = Some lon_rho ->
  assoc "angle" (ds_variables ds) = Some angle ->
  assoc "ocean_time" (ds_variables ds) = Some ocean_time ->
  nc_units ocean_time = Some units ->
  num2date (nc_data ocean_time) units = Some tms ->
  head tms = Some t0 -> last tms = Some tn ->
  assoc "xi_rho" (ds_dimensions ds) = Some xi ->
  assoc "eta_rho" (ds_dimensions ds) = Some eta ->
  run (__init__ Dataset_open num2date super_init (Some fn) nm) log =
  run (super_init
         (mk_Reader "roms native" ds sig Vt Vs fam ths thb tcl (length sig)
            (nc_all lat_rho) (nc_all lon_rho) (nc_all angle) tms t0 tn
            match tms with t0 :: t1 :: _ => Some (t1 - t0)%Z | _ => None end
            0%Q (inject_Z (Z.of_nat xi) - 1)%Q 1%Q 0%Q (inject_Z (Z.of_nat eta) - 1)%Q 1%Q
            (known_variables ds) None None)) log4.
Proof.
  intros Hopen Hsig Htr Hst Hlat Hlon Hangle Hot Hunits Htms Ht0 Htn Hxi Heta.
  unfold __init__. unfold datetime in *.
  rewrite run_bind, run_orraise. cbn [orfail].
  rewrite run_bind.
  assert (Hds : forall h,
            run (try_except
                   (logging INFO ("Opening dataset: " +:+ fn);;
                    orraise (Exception "open") (Dataset_open fn)) h) log
            = (inr ds, log ++ [(INFO, "Opening dataset: " +:+ fn)])).
  { intros h. unfold try_except, logging, orraise, liftE, orfail.
    unfold mbind, M_bind. simpl run. rewrite Hopen. reflexivity. }
  rewrite Hds.
  rewrite run_bind, Hsig. rewrite run_bind, Htr. rewrite run_bind, Hst.
  rewrite run_bind, run_orraise, Hlat. cbn [orfail].
  rewrite run_bind, run_orraise, Hlon. cbn [orfail].
  rewrite run_bind, run_orraise, Hangle. cbn [orfail].
  rewrite run_bind, run_orraise, Hot. cbn [orfail].
  rewrite run_bind, run_orraise, Hunits. cbn [orfail].
  rewrite run_bind, run_orraise, Htms. cbn [orfail].
  rewrite run_bind, run_orraise, Ht0. cbn [orfail].
  rewrite run_bind, run_orraise, Htn. cbn [orfail].
  rewrite run_bind, run_orraise, Hxi. cbn [orfail].
  rewrite run_bind, run_orraise, Heta. cbn [orfail].
  reflexivity.
Qed.

(** X5. Without a file there is no reader. A call without a filename raises
    ValueError at once and logs nothing; a filename that cannot be opened
    raises ValueError 'Could not open ... with netCDF4 library' after the
    one INFO record of the attempt. In both cases nothing else is read or
    logged and the parent constructor is not run. *)
Theorem init_needs_an_openable_file (filename nm : option string) (log : list logrec) :
  (forall fn, filename = Some fn -> Dataset_open fn = None) ->
  run (__init__ Dataset_open num2date super_init filename nm) log =
    match filename with
    | None => (inl (ValueError "Need filename as argument to constructor"), log)
    | Some fn => (inl (ValueError ("Could not open " +:+ fn +:+ " with netCDF4 library")),
                  log ++ [(INFO, "Opening dataset: " +:+ fn)])
    end.
Proof.
  intros Hopen. unfold __init__. destruct filename as [fn|]; [|reflexivity].
  rewrite run_bind, run_orraise. cbn [orfail]. rewrite run_bind.
  unfold try_except, logging, orraise, liftE, orfail, raise.
  unfold mbind at 2, M_bind. simpl run. rewrite (Hopen fn eq_refl). reflexivity.
Qed.

(** X6. What the constructor needs. With a parent constructor that returns,
    the construction returns a reader exactly when the file opens and holds
    the layers (as the variable [s_rho], or at least as the dimension), the
    variables [lat_rho], [lon_rho] and [angle], the variable [ocean_time]
    with units that convert to at least one time, and the dimensions
    [xi_rho] and [eta_rho]. The transform and the stretching parameters are
    never needed. *)
Theorem init_returns_iff (filename nm : option string) (log : list logrec) :
  (forall r0 s, exists r s', run (super_init r0) s = (inr r, s')) ->
  (exists r log', run (__init__ Dataset_open num2date super_init filename nm) log = (inr r, log'))
  <-> (exists fn ds, filename = Some fn /\ Dataset_open fn = Some ds /\ constructible num2date ds).
Proof.
  intros Hsuper. split.
  - intros (r & log' & H).
    apply init_inv in H
      as (fn & ds & sig & log2 & Vt & Vs & fam & log3 & ths & thb & tcl & log4 & lat_rho
          & lon_rho & angle & ocean_time & units & tms & t0 & tn & xi & eta
          & -> & Hopen & Hsig & _ & _ & Hlat & Hlon & Hangle & Hot & Hunits & Htms & Ht0 & _
          & Hxi & Heta & _).
    exists fn, ds. split; [reflexivity|]. split; [exact Hopen|].
    unfold constructible. rewrite Hlat, Hlon, Hangle, Hxi, Heta.
    split.
    { rewrite run_read_sigma in Hsig.
      destruct (assoc "s_rho" (ds_variables ds)); [left; eauto|].
      destruct (assoc "s_rho" (ds_dimensions ds)); [right; eauto|discriminate]. }
    do 3 (split; [eexists; reflexivity|]).
    split; [|split; eexists; reflexivity].
    exists ocean_time, units, tms. rewrite Hot. repeat (split; [first [reflexivity|assumption]|]).
    intros ->. discriminate.
  - intros (fn & ds & -> & Hopen & Hsig & [lat_rho Hlat] & [lon_rho Hlon] & [angle Hangle]
            & (ocean_time & units & tms & Hot & Hunits & Htms & Hne) & [xi Hxi] & [eta Heta]).
    assert (Hs : exists sig log2,
              run (read_sigma ds) (log ++ [(INFO, "Opening dataset: " +:+ fn)])
              = (inr sig, log2)).
    { rewrite run_read_sigma.
      destruct (assoc "s_rho" (ds_variables ds)); [eauto|].
      destruct Hsig as [[? [=]]|[n ->]]. eauto. }
    destruct Hs as (sig & log2 & Hs).
    destruct (read_transform_returns ds log2) as ([[Vt Vs] fam] & log3 & Htr).
    destruct (read_stretching_returns ds log3) as ([[ths thb] tcl] & log4 & Hst).
    assert (Ht0 : exists t0, head tms = Some t0) by (destruct tms; [congruence|eauto]).
    destruct Ht0 as [t0 Ht0].
    assert (Htn : exists tn, last tms = Some tn).
    { destruct (last tms) eqn:E; [eauto|]. apply last_None in E. congruence. }
    destruct Htn as [tn Htn].
    rewrite (init_runs_parent fn nm log ds sig log2 Vt Vs fam
               log3 ths thb tcl log4 lat_rho lon_rho angle ocean_time units tms t0 tn xi eta)
      by assumption.
    apply Hsuper.
Qed.



End ConstructionContents.

(** A filename that names no file. *)
Lemma init_needs_an_openable_file_witness :
  (forall fn, Some "nowhere.nc" = Some fn -> ocean_open fn = None) /\
  run (__init__ ocean_open ocean_num2date ocean_super_init (Some "nowhere.nc") None) [] =
    (inl (ValueError "Could not open nowhere.nc with netCDF4 library"),
     [(INFO, "Opening dataset: nowhere.nc")]).
Proof.
  assert (H : forall fn, Some "nowhere.nc" = Some fn -> ocean_open fn = None)
    by (intros fn [= <-]; reflexivity).
  split; [exact H|].
  exact (init_needs_an_openable_file ocean_open ocean_num2date ocean_super_init
           (Some "nowhere.nc") None [] H).
Defined.

(** The small ocean has what the constructor needs. *)
Lemma init_returns_iff_witness :
  (forall r0 s, exists r s', run (ocean_super_init r0) s = (inr r, s')) /\
  ((exists r log',
      run (__init__ ocean_open ocean_num2date ocean_super_init (Some "ocean.nc") None) []
      = (inr r, log'))
   <-> (exists fn ds, Some "ocean.nc" = Some fn /\ ocean_open fn = Some ds /\
                      constructible ocean_num2date ds)).
Proof.
  assert (H : forall r0 s, exists r s', run (ocean_super_init r0) s = (inr r, s'))
    by (intros r0 s; exists r0, s; reflexivity).
  split; [exact H|].
  exact (init_returns_iff ocean_open ocean_num2date ocean_super_init (Some "ocean.nc") None [] H).
Defined.



(** ** The catalog of standard names *)

Lemma assoc_Some_elem {A} (key : string) (d : list (string * A)) (v : A) :
  assoc key d = Some v -> (key, v) ∈ d.
Proof.
  induction d as [|[k w] rest IH]; simpl; [discriminate|].
  destruct (String.eqb k key) eqn:E.
  - apply String.eqb_eq in E as ->. intros [= ->]. apply list_elem_of_here.
  - intros H. apply list_elem_of_further, IH, H.
Qed.

Lemma assoc_is_Some {A} (key : string) (d : list (string * A)) :
  is_Some (assoc key d) <-> key ∈ d.*1.
Proof.
  induction d as [|[k w] rest IH]; simpl.
  - split; [intros [? [=]]|intros H; inversion H].
  - destruct (String.eqb k key) eqn:E.
    + apply String.eqb_eq in E as ->. split; [intros _; apply list_elem_of_here|eauto].
    + apply String.eqb_neq in E. rewrite IH, elem_of_cons. split; [auto|].
      intros [->|H]; [contradiction|exact H].
Qed.

(** In a table without a repeated key or a repeated value, looking a key up
    and searching for a value are inverse to one another. *)
Lemma assoc_inverse (d : list (string * string)) (key v : string) :
  NoDup d.*1 -> NoDup d.*2 ->
  assoc key d = Some v <-> head (filter (fun p : string * string => p.2 = v) d).*1 = Some key.
Proof.
  revert key. induction d as [|[k w] rest IH]; simpl; intros key Hk Hv; [split; discriminate|].
  apply NoDup_cons in Hk as [Hk Hk']. apply NoDup_cons in Hv as [Hv Hv'].
  specialize (fun key => IH key Hk' Hv').
  assert (Hfilter : forall key', head (filter (fun p : string * string => p.2 = v) rest).*1
                                 = Some key' -> key' ∈ rest.*1).
  { intros key' H. apply IH in H. apply assoc_Some_elem in H.
    change key' with (key', v).1. apply list_elem_of_fmap_2, H. }
  rewrite filter_cons. simpl.
  destruct (String.eqb k key) eqn:E.
  - apply String.eqb_eq in E as ->. destruct (decide (w = v)) as [->|Hne].
    + simpl. split; reflexivity.
    + split; [intros [= ?]; contradiction|].
      intros H. apply Hfilter in H. contradiction.
  - apply String.eqb_neq in E. destruct (decide (w = v)) as [->|Hne].
    + simpl. split; [|intros [= ?]; contradiction].
      intros H. apply assoc_Some_elem in H. exfalso. apply Hv.
      change v with (key, v).2. apply list_elem_of_fmap_2, H.
    + apply IH.
Qed.

Lemma ROMS_variable_mapping_NoDup :
  NoDup ROMS_variable_mapping.*1 /\ NoDup ROMS_variable_mapping.*2.
Proof. split; apply (bool_decide_unpack _); vm_compute; reflexivity. Qed.

(** The standard names the constructor lists are the ones the loop of
    [get_variables] finds a variable for. *)
Lemma known_variables_source (self : Reader) (par : string) :
  par ∈ known_variables (Dataset self) <-> exists var, source_variable self par = inr var.
Proof.
  destruct ROMS_variable_mapping_NoDup as [Hk Hv].
  unfold known_variables, source_variable. rewrite list_elem_of_omap. split.
  - intros ([vn var] & Hin & Hmap). simpl in Hmap.
    apply (assoc_inverse _ _ _ Hk Hv) in Hmap. rewrite Hmap. cbn [orfail mbind result_bind].
    assert (Hsome : is_Some (assoc vn (ds_variables (Dataset self)))).
    { apply assoc_is_Some. change vn with (vn, var).1. apply list_elem_of_fmap_2, Hin. }
    destruct Hsome as [var' ->]. eauto.
  - intros (var & H). apply result_bind_inr in H as (vn & Hvn & H).
    apply orfail_inr in Hvn, H. apply (assoc_inverse _ _ _ Hk Hv) in Hvn.
    exists (vn, var). split; [apply assoc_Some_elem, H|exact Hvn].
Qed.

(** X9. The catalog and the loop agree. On the reader that the constructor
    hands to the parent, a standard name is listed in [variables] exactly
    when the loop of [get_variables] finds the variable of the file behind
    it; for every other name the loop raises. *)
Theorem catalog_round_trip (Dataset_open : string -> option netCDF4_Dataset)
    (num2date : list Q -> string -> option (list datetime))
    (super_init : Reader -> M (list logrec) Reader)
    (filename nm : option string) (log log' : list logrec) (r : Reader) :
  run (__init__ Dataset_open num2date super_init filename nm) log = (inr r, log') ->
  exists r0 log0,
    run (super_init r0) log0 = (inr r, log') /\
    (forall par, par ∈ variables r0 <-> exists var, source_variable r0 par = inr var) /\
    (forall par block indxTime indz indy indx outside,
       par ∉ variables r0 ->
       exists e, extract r0 block indxTime indz indy indx outside par = inl e).
Proof.
  intros H.
  apply init_inv in H
    as (fn & ds & sig & log2 & Vt & Vs & fam & log3 & ths & thb & tcl & log4 & lat_rho
        & lon_rho & angle & ocean_time & units & tms & t0 & tn & xi & eta
        & _ & _ & _ & _ & _ & _ & _ & _ & _ & _ & _ & _ & _ & _ & _ & H).
  match type of H with
  | run (super_init ?x) _ = _ => exists x, log4; split; [exact H|]; set (r0 := x)
  end.
  split.
  - intros par. exact (known_variables_source r0 par).
  - intros par block indxTime indz indy indx outside Hpar.
    unfold extract. destruct (source_variable r0 par) as [e|var] eqn:E; [eauto|].
    exfalso. apply Hpar. apply (known_variables_source r0 par). eauto.
Qed.

(** The small ocean lists four standard names. *)
Lemma catalog_round_trip_witness :
  run (__init__ ocean_open ocean_num2date ocean_super_init (Some "ocean.nc") None) []
    = (inr ocean_Reader,
       [(INFO, "Opening dataset: ocean.nc");
        (WARNING, "s_rho not available in dataset, constructing from number of layers (%s).");
        sigma_missing_warning;
        (WARNING, "Missing sigma stretching parameters - using default values")]) /\
  exists r0 log0,
    run (ocean_super_init r0) log0
      = (inr ocean_Reader,
         [(INFO, "Opening dataset: ocean.nc");
          (WARNING, "s_rho not available in dataset, constructing from number of layers (%s).");
          sigma_missing_warning;
          (WARNING, "Missing sigma stretching parameters - using default values")]) /\
    (forall par, par ∈ variables r0 <-> exists var, source_variable r0 par = inr var) /\
    (forall par block indxTime indz indy indx outside,
       par ∉ variables r0 ->
       exists e, extract r0 block indxTime indz indy indx outside par = inl e).
Proof.
  assert (Hrun : run (__init__ ocean_open ocean_num2date ocean_super_init
                        (Some "ocean.nc") None) []
    = (inr ocean_Reader,
       [(INFO, "Opening dataset: ocean.nc");
        (WARNING, "s_rho not available in dataset, constructing from number of layers (%s).");
        sigma_missing_warning;
        (WARNING, "Missing sigma stretching parameters - using default values")]))
    by (vm_compute; reflexivity).
  split; [exact Hrun|].
  exact (catalog_round_trip ocean_open ocean_num2date ocean_super_init
           (Some "ocean.nc") None [] _ ocean_Reader Hrun).
Defined.

(** ** The stretching parameters *)

(** X10. The stretching parameters are all from the file or all defaults.
    When each of [theta_s], [theta_b] and [Tcline] that the file holds has at
    most one dimension, the step returns the three first values with
    nothing logged when all three can be read, and otherwise the defaults
    3, 0.4 and 10 for all three with one warning: a parameter that was read
    before another one failed is replaced by its default too. The step never
    raises. *)
Theorem stretching_defaults_all_or_nothing (ds : netCDF4_Dataset) (log : list logrec) :
  (forall key v, key ∈ ["theta_s"; "theta_b"; "Tcline"] ->
     assoc key (ds_variables ds) = Some v -> length (nc_shape v) <= 1) ->
  let rd key := assoc key (ds_variables ds) ≫= nc_first in
  exists ths thb tcl warnings,
    run (read_stretching ds) log = (inr (ths, thb, tcl), log ++ warnings) /\
    ((rd "theta_s" = Some ths /\ rd "theta_b" = Some thb /\ rd "Tcline" = Some tcl /\
      warnings = []) \/
     ((rd "theta_s" = None \/ rd "theta_b" = None \/ rd "Tcline" = None) /\
      ths = 3%Q /\ thb = (4 # 10)%Q /\ tcl = 10%Q /\
      warnings = [(WARNING, "Missing sigma stretching parameters - using default values")])).
Proof.
  intros _ rd. rewrite run_read_stretching. fold (rd "theta_s") (rd "theta_b") (rd "Tcline").
  destruct (rd "theta_s") as [a|].
  2:{ eexists _, _, _, [_]. split; [reflexivity|]. right. auto 10. }
  destruct (rd "theta_b") as [b|].
  2:{ eexists _, _, _, [_]. split; [reflexivity|]. right. auto 10. }
  destruct (rd "Tcline") as [c|].
  2:{ eexists _, _, _, [_]. split; [reflexivity|]. right. auto 10. }
  exists a, b, c, []. rewrite app_nil_r. split; [reflexivity|]. left. auto.
Qed.

(** A file with [theta_s] = 7 and no [theta_b]: the 7 is not kept. *)
Lemma stretching_defaults_all_or_nothing_witness :
  (forall key v, key ∈ ["theta_s"; "theta_b"; "Tcline"] ->
     assoc key (ds_variables (ocean_with [("theta_s", mk_ncvar [1] [7%Q] None)])) = Some v ->
     length (nc_shape v) <= 1) /\
  run (read_stretching (ocean_with [("theta_s", mk_ncvar [1] [7%Q] None)])) [] =
    (inr (3%Q, (4 # 10)%Q, 10%Q),
     [(WARNING, "Missing sigma stretching parameters - using default values")]) /\
  exists ths thb tcl warnings,
    run (read_stretching (ocean_with [("theta_s", mk_ncvar [1] [7%Q] None)])) [] =
      (inr (ths, thb, tcl), [] ++ warnings) /\
    ((assoc "theta_s" (ds_variables (ocean_with [("theta_s", mk_ncvar [1] [7%Q] None)]))
        ≫= nc_first = Some ths /\
      assoc "theta_b" (ds_variables (ocean_with [("theta_s", mk_ncvar [1] [7%Q] None)]))
        ≫= nc_first = Some thb /\
      assoc "Tcline" (ds_variables (ocean_with [("theta_s", mk_ncvar [1] [7%Q] None)]))
        ≫= nc_first = Some tcl /\
      warnings = []) \/
     ((assoc "theta_s" (ds_variables (ocean_with [("theta_s", mk_ncvar [1] [7%Q] None)]))
         ≫= nc_first = None \/
       assoc "theta_b" (ds_variables (ocean_with [("theta_s", mk_ncvar [1] [7%Q] None)]))
         ≫= nc_first = None \/
       assoc "Tcline" (ds_variables (ocean_with [("theta_s", mk_ncvar [1] [7%Q] None)]))
         ≫= nc_first = None) /\
      ths = 3%Q /\ thb = (4 # 10)%Q /\ tcl = 10%Q /\
      warnings = [(WARNING, "Missing sigma stretching parameters - using default values")])).
Proof.
  assert (Hdim : forall key v, key ∈ ["theta_s"; "theta_b"; "Tcline"] ->
            assoc key (ds_variables (ocean_with [("theta_s", mk_ncvar [1] [7%Q] None)])) = Some v ->
            length (nc_shape v) <= 1).
  { intros key v Hkey. repeat (apply elem_of_cons in Hkey as [->|Hkey]).
    - intros [= <-]. simpl. lia.
    - discriminate.
    - discriminate.
    - inversion Hkey. }
  split; [exact Hdim|]. split; [vm_compute; reflexivity|].
  exact (stretching_defaults_all_or_nothing
           (ocean_with [("theta_s", mk_ncvar [1] [7%Q] None)]) [] Hdim).
Defined.

(** ** The keys of the result *)

Lemma extract_all_dom (self : Reader) (block : bool) (indxTime : Z) (indz : selector)
    (indy indx : list Z) (outside : list (list nat)) (pars : list string)
    (variables variables' : gmap string value) (k : string) :
  extract_all self block indxTime indz indy indx outside pars variables = inr variables' ->
  is_Some (variables' !! k) <-> is_Some (variables !! k) \/ k ∈ pars.
Proof.
  intros H. destruct (decide (k ∈ pars)) as [Hin|Hnotin].
  - destruct (extract_all_lookup_in _ _ _ _ _ _ _ _ _ _ _ H Hin) as (m & _ & ->).
    split; eauto.
  - rewrite (extract_all_lookup_other _ _ _ _ _ _ _ _ _ _ _ H Hnotin).
    split; [auto|]. intros [?|?]; [assumption|contradiction].
Qed.

Lemma invert_land_mask_dom (variables variables' : gmap string value) (k : string) :
  invert_land_mask variables = inr variables' ->
  is_Some (variables' !! k) <-> is_Some (variables !! k).
Proof.
  intros H. destruct (decide (k = "land_binary_mask")) as [->|Hne].
  - apply invert_land_mask_lookup in H.
    destruct (variables !! "land_binary_mask") as [v|] eqn:E.
    + destruct H as (v' & _ & ->). split; eauto.
    + subst variables'. rewrite E. reflexivity.
  - rewrite (invert_land_mask_lookup_other _ _ _ H Hne). reflexivity.
Qed.

Lemma store_coordinates_dom (self : Reader) (block : bool) (indx indy : list Z)
    (variables : gmap string value) (k : string) :
  is_Some (store_coordinates self block indx indy variables !! k) <->
  k = "x" \/ k = "y" \/ is_Some (variables !! k).
Proof.
  unfold store_coordinates. destruct block; rewrite !lookup_insert_is_Some; split.
  all: try (intros [<-|[? [<-|[? ?]]]]; auto).
  all: intros [->|[->|H]]; [right; split; [discriminate|]; left; reflexivity
                           |left; reflexivity|].
  all: destruct (decide ("y" = k)) as [?|?]; [auto|right; split; [assumption|]].
  all: destruct (decide ("x" = k)) as [?|?]; [auto|right; split; assumption].
Qed.

(** X11. The keys of the result. A call that returns gives a dictionary
    whose keys are the requested names (as the normalizer returned them)
    and [z], [x], [y], [time] and [angle_between_x_and_east], and no other;
    under [time] it holds the nearest time that the resolver found. *)
Theorem result_keys
    (check_arguments :
       Reader -> list string -> option datetime -> list Q -> list Q -> list Q ->
       result (list string * datetime * list Q * list Q * list Q * list (list nat)))
    (nearest_time : Reader -> datetime -> result (datetime * Z))
    (z_r : vgrid.family -> list Q -> Q -> Q -> Q -> nat -> list (list Q))
    (degrees : Q -> Q)
    (rv : list string) (time : option datetime) (x y z : list Q) (block : bool)
    (w w' : world) (res : gmap string value)
    (rv' : list string) (t' : datetime) (x' y' z' : list Q) (outside : list (list nat)) :
  check_arguments w.1 rv time x y z = inr (rv', t', x', y', z', outside) ->
  run (get_variables check_arguments nearest_time z_r degrees rv time x y z block) w
    = (inr res, w') ->
  (forall k, is_Some (res !! k) <->
             k ∈ ["z"; "x"; "y"; "time"; "angle_between_x_and_east"] \/ k ∈ rv') /\
  exists nearestTime indxTime,
    nearest_time w.1 t' = inr (nearestTime, indxTime) /\
    res !! "time" = Some (VTime nearestTime).
Proof.
  intros Hargs Hrun.
  apply get_variables_inv in Hrun
    as (rv2 & t2 & x2 & y2 & z2 & outside2 & nearestTime & indxTime & indz & zs & indx
        & indy & vars1 & angle & vars2 & Hargs2 & Hnt & _ & _ & Hloop & _ & Hinv & ->).
  rewrite Hargs in Hargs2. injection Hargs2 as <- <- <- <- <- <-.
  split.
  - intros k. rewrite lookup_insert_is_Some, store_coordinates_dom.
    rewrite (invert_land_mask_dom _ _ k Hinv), lookup_insert_is_Some.
    rewrite (extract_all_dom _ _ _ _ _ _ _ _ _ _ k Hloop).
    rewrite lookup_insert_is_Some, lookup_empty, !elem_of_cons, elem_of_nil.
    split.
    + intros [<-|[_ [->|[->|[<-|[_ [[<-|[_ [? [=]]]]|?]]]]]]]; auto 10.
    + intros [[->|[->|[->|[->|[->|[]]]]]]|Hin].
      * right. split; [discriminate|]. right. right. right. split; [discriminate|].
        left. left. reflexivity.
      * right. split; [discriminate|]. left. reflexivity.
      * right. split; [discriminate|]. right. left. reflexivity.
      * left. reflexivity.
      * right. split; [discriminate|]. right. right. left. reflexivity.
      * destruct (decide ("time" = k)) as [?|?]; [auto|right; split; [assumption|]].
        right. right.
        destruct (decide ("angle_between_x_and_east" = k)) as [?|?];
          [auto|right; split; [assumption|]].
        right. exact Hin.
  - exists nearestTime, indxTime. split; [exact Hnt|]. apply lookup_insert_eq.
Qed.

(** The point query at the surface of the small ocean: seven keys. *)
Lemma result_keys_witness :
  ocean_check_arguments ocean_world.1 surface_names None surface_x surface_y surface_z
    = inr (surface_names, 0%Z, surface_x, surface_y, surface_z, [[]]) /\
  run (ocean_get_variables surface_names None surface_x surface_y surface_z false) ocean_world
    = (inr surface_query_result, ocean_world) /\
  (forall k, is_Some (surface_query_result !! k) <->
             k ∈ ["z"; "x"; "y"; "time"; "angle_between_x_and_east"] \/ k ∈ surface_names) /\
  exists nearestTime indxTime,
    ocean_nearest_time ocean_world.1 0%Z = inr (nearestTime, indxTime) /\
    surface_query_result !! "time" = Some (VTime nearestTime).
Proof.
  assert (Hargs : ocean_check_arguments ocean_world.1 surface_names None surface_x surface_y
                    surface_z
                  = inr (surface_names, 0%Z, surface_x, surface_y, surface_z, [[]]))
    by (vm_compute; reflexivity).
  assert (Hrun : run (ocean_get_variables surface_names None surface_x surface_y surface_z false)
                   ocean_world = (inr surface_query_result, ocean_world))
    by (vm_compute; reflexivity).
  split; [exact Hargs|]. split; [exact Hrun|].
  exact (result_keys ocean_check_arguments ocean_nearest_time ocean_z_r ocean_degrees
           surface_names None surface_x surface_y surface_z false ocean_world ocean_world
           surface_query_result surface_names 0%Z surface_x surface_y surface_z [[]]
           Hargs Hrun).
Defined.

(** ** What a query does to the reader *)

Lemma run_liftE_bind {S A B} (r : result A) (f : A -> M S B) (s : S) :
  run (liftE r ≫= f) s = match r with
                         | inr a => run (f a) s
                         | inl e => (inl e, s)
                         end.
Proof. rewrite run_bind. simpl. destruct r; reflexivity. Qed.

(** The steps after the depth levels are found leave the state alone. *)
Lemma run_liftE_bind_state {S A B} (r : result A) (f : A -> M S B) (s s' : S) (o : exn + B) :
  (forall a, run (f a) s = (o, s') -> s' = s) ->
  run (liftE r ≫= f) s = (o, s') -> s' = s.
Proof.
  intros Hf. rewrite run_liftE_bind. destruct r as [e|a]; [intros [= _ <-]; reflexivity|].
  apply Hf.
Qed.

(** What the depth step does to the reader and the log. *)
Lemma depth_levels_state
    (z_r : vgrid.family -> list Q -> Q -> Q -> Q -> nat -> list (list Q))
    (indy indx : list Z) (z : list Q) (w w' : world) (o : exn + (selector * value)) :
  run (depth_levels z_r indy indx z) w = (o, w') ->
  w' = w \/
  (sea_floor_depth w.1 = None /\
   exists var, assoc "h" (ds_variables (Dataset w.1)) = Some var /\
     w' = (set_sea_floor_depth (nc_all var) w.1,
           w.2 ++ [(DEBUG, "Reading sea floor depth...")])) \/
  (sea_floor_depth w.1 = None /\ assoc "h" (ds_variables (Dataset w.1)) = None /\
   w' = (w.1, w.2 ++ [(DEBUG, "Reading sea floor depth...")]) /\ o = inl (KeyError "h")).
Proof.
  unfold depth_levels. rewrite run_bind, run_orraise.
  destruct (np_min z) as [zmin|]; cbn [orfail]; [|intros [= _ <-]; left; reflexivity].
  destruct (Qeq_bool zmin 0); [simpl; intros [= _ <-]; left; reflexivity|].
  unfold general_depth_search. rewrite run_bind.
  change (run get_self w) with (@inr exn Reader w.1, w). cbv beta iota.
  rewrite run_bind.
  destruct (sea_floor_depth w.1) as [h|] eqn:Hh.
  - change (run (mret h) w) with (@inr exn (ndarray Q) h, w). cbv beta iota.
    rewrite run_bind, run_orraise.
    destruct (np_getitem2 h indy indx) as [d|]; cbn [orfail];
      [|intros [= _ <-]; left; reflexivity].
    simpl. intros [= _ <-]. left. reflexivity.
  - rewrite run_bind.
    change (run (logging DEBUG "Reading sea floor depth...") w)
      with (@inr exn unit tt, (w.1, w.2 ++ [(DEBUG, "Reading sea floor depth...")])).
    cbv beta iota. rewrite run_bind, run_orraise.
    destruct (assoc "h" (ds_variables (Dataset w.1))) as [var|] eqn:Hvar; cbn [orfail].
    + rewrite run_bind.
      change (run (update_self (set_sea_floor_depth (nc_all var)))
                (w.1, w.2 ++ [(DEBUG, "Reading sea floor depth...")]))
        with (@inr exn unit tt, (set_sea_floor_depth (nc_all var) w.1,
                                 w.2 ++ [(DEBUG, "Reading sea floor depth...")])).
      cbv beta iota.
      change (run (mret (nc_all var)) ?s) with (@inr exn (ndarray Q) (nc_all var), s).
      cbv beta iota.
      rewrite run_bind, run_orraise. intros H.
      right. left. split; [reflexivity|]. exists var. split; [reflexivity|].
      destruct (np_getitem2 (nc_all var) indy indx) as [d|]; cbn [orfail] in H;
        simpl in H; injection H as _ <-; reflexivity.
    + intros [= <- <-]. right. right. auto.
Qed.

(** X12. A query writes nothing but the bottom-depth cache. Whatever a call
    of [get_variables] returns or raises, it leaves the reader and the log
    as they were, or, on a reader without cached bottom depth, it has stored
    the whole variable [h] as [sea_floor_depth] and logged one DEBUG record,
    or, when the file has no [h], it has logged that record and raised
    KeyError 'h'. What was stored before a later step raised stays stored. *)
Theorem query_writes_only_the_depth_cache
    (check_arguments :
       Reader -> list string -> option datetime -> list Q -> list Q -> list Q ->
       result (list string * datetime * list Q * list Q * list Q * list (list nat)))
    (nearest_time : Reader -> datetime -> result (datetime * Z))
    (z_r : vgrid.family -> list Q -> Q -> Q -> Q -> nat -> list (list Q))
    (degrees : Q -> Q)
    (rv : list string) (time : option datetime) (x y z : list Q) (block : bool)
    (w w' : world) (o : exn + gmap string value) :
  run (get_variables check_arguments nearest_time z_r degrees rv time x y z block) w = (o, w') ->
  w' = w \/
  (sea_floor_depth w.1 = None /\
   exists var, assoc "h" (ds_variables (Dataset w.1)) = Some var /\
     w' = (set_sea_floor_depth (nc_all var) w.1,
           w.2 ++ [(DEBUG, "Reading sea floor depth...")])) \/
  (sea_floor_depth w.1 = None /\ assoc "h" (ds_variables (Dataset w.1)) = None /\
   w' = (w.1, w.2 ++ [(DEBUG, "Reading sea floor depth...")]) /\ o = inl (KeyError "h")).
Proof.
  unfold get_variables. rewrite run_bind.
  change (run get_self w) with (@inr exn Reader w.1, w). cbv beta iota.
  rewrite run_liftE_bind.
  destruct (check_arguments w.1 rv time x y z) as [e|[[[[[rv' t'] x'] y'] z'] outside]];
    [intros [= _ <-]; left; reflexivity|].
  rewrite run_liftE_bind.
  destruct (nearest_time w.1 t') as [e|[nearestTime indxTime]];
    [intros [= _ <-]; left; reflexivity|].
  rewrite run_bind.
  destruct (run (depth_levels z_r _ _ z') w) as [[e|[indz zs]] w1] eqn:Hdl.
  - intros [= <- <-].
    destruct (depth_levels_state _ _ _ _ _ _ _ Hdl) as [H|[H|(H1 & H2 & H3 & H4)]];
      [left; exact H|right; left; exact H|].
    right. right. injection H4 as ->. auto.
  - intros Hrest.
    assert (Hw : w' = w1).
    { revert Hrest. apply run_liftE_bind_state. intros [indx indy].
      apply run_liftE_bind_state. intros vars1.
      rewrite run_bind, run_orraise.
      destruct (np_getitem_meshgrid _ _ _) as [angle|]; cbn [orfail];
        [|intros [= _ <-]; reflexivity].
      apply run_liftE_bind_state. intros vars2. simpl. intros [= _ <-]. reflexivity. }
    subst w'.
    destruct (depth_levels_state _ _ _ _ _ _ _ Hdl) as [H|[H|(_ & _ & _ & [=])]];
      [left; exact H|right; left; exact H].
Qed.

(** A point beyond the eastern edge of the small ocean, at the depth -50:
    the bottom depth is read and cached, then its lookup at the point
    raises, and the cache stays. *)
Lemma query_writes_only_the_depth_cache_witness :
  run (ocean_get_variables ["sea_water_temperature"] None [(41 # 2)%Q] [(5 # 2)%Q]
         [(-50)%Q] false) ocean_world
    = (inl (IndexError "index out of bounds"),
       (set_sea_floor_depth (nc_all (field10 100%Q)) ocean_world.1,
        ocean_world.2 ++ [(DEBUG, "Reading sea floor depth...")])) /\
  ((set_sea_floor_depth (nc_all (field10 100%Q)) ocean_world.1,
    ocean_world.2 ++ [(DEBUG, "Reading sea floor depth...")]) = ocean_world \/
   (sea_floor_depth ocean_world.1 = None /\
    exists var, assoc "h" (ds_variables (Dataset ocean_world.1)) = Some var /\
      (set_sea_floor_depth (nc_all (field10 100%Q)) ocean_world.1,
       ocean_world.2 ++ [(DEBUG, "Reading sea floor depth...")])
      = (set_sea_floor_depth (nc_all var) ocean_world.1,
         ocean_world.2 ++ [(DEBUG, "Reading sea floor depth...")])) \/
   (sea_floor_depth ocean_world.1 = None /\
    assoc "h" (ds_variables (Dataset ocean_world.1)) = None /\
    (set_sea_floor_depth (nc_all (field10 100%Q)) ocean_world.1,
     ocean_world.2 ++ [(DEBUG, "Reading sea floor depth...")])
    = (ocean_world.1, ocean_world.2 ++ [(DEBUG, "Reading sea floor depth...")]) /\
    @inl exn (gmap string value) (IndexError "index out of bounds") = inl (KeyError "h"))).
Proof.
  assert (Hrun : run (ocean_get_variables ["sea_water_temperature"] None [(41 # 2)%Q]
                        [(5 # 2)%Q] [(-50)%Q] false) ocean_world
    = (inl (IndexError "index out of bounds"),
       (set_sea_floor_depth (nc_all (field10 100%Q)) ocean_world.1,
        ocean_world.2 ++ [(DEBUG, "Reading sea floor depth...")])))
    by (vm_compute; reflexivity).
  split; [exact Hrun|].
  exact (query_writes_only_the_depth_cache ocean_check_arguments ocean_nearest_time ocean_z_r
           ocean_degrees ["sea_water_temperature"] None [(41 # 2)%Q] [(5 # 2)%Q] [(-50)%Q]
           false ocean_world _ _ Hrun).
Defined.

(** ** How the loop body fails *)

Lemma elem_assoc {A} (key : string) (d : list (string * A)) (v : A) :
  NoDup d.*1 -> (key, v) ∈ d -> assoc key d = Some v.
Proof.
  induction d as [|[k w] rest IH]; simpl; intros Hnd Hin; [inversion Hin|].
  apply NoDup_cons in Hnd as [Hk Hnd].
  apply elem_of_cons in Hin as [[= <- <-]|Hin].
  - rewrite String.eqb_refl. reflexivity.
  - destruct (String.eqb k key) eqn:E; [|apply IH; assumption].
    apply String.eqb_eq in E as ->. exfalso. apply Hk.
    change key with (key, v).1. apply list_elem_of_fmap_2, Hin.
Qed.

Lemma head_filter_None (par : string) (d : list (string * string)) :
  par ∉ d.*2 -> head (filter (fun p : string * string => p.2 = par) d).*1 = None.
Proof.
  intros Hpar. destruct (filter _ d) as [|p rest] eqn:E; [reflexivity|].
  exfalso. apply Hpar.
  assert (Hp : p ∈ filter (fun p : string * string => p.2 = par) d)
    by (rewrite E; apply list_elem_of_here).
  apply list_elem_of_filter in Hp as [<- Hp]. apply list_elem_of_fmap_2, Hp.
Qed.

(** X13. How the loop body fails on a name. For a standard name that the
    mapping does not hold, the body raises IndexError (the list of ROMS
    names is empty); for a standard name of the mapping whose ROMS variable
    is not in the file, it raises KeyError with the ROMS name; for a
    variable with fewer than two or more than four dimensions it raises.
    In none of these cases is anything fetched. *)
Theorem extract_failures (self : Reader) (block : bool) (indxTime : Z) (indz : selector)
    (indy indx : list Z) (outside : list (list nat)) (par : string) :
  (par ∉ ROMS_variable_mapping.*2 ->
     extract self block indxTime indz indy indx outside par
       = inl (IndexError "list index out of range")) /\
  (forall vname, (vname, par) ∈ ROMS_variable_mapping ->
     assoc vname (ds_variables (Dataset self)) = None ->
     extract self block indxTime indz indy indx outside par = inl (KeyError vname)) /\
  (forall var, source_variable self par = inr var ->
     ~ (2 <= length (nc_shape var) <= 4) ->
     exists e, extract self block indxTime indz indy indx outside par = inl e).
Proof.
  destruct ROMS_variable_mapping_NoDup as [Hk Hv].
  split; [|split].
  - intros Hpar. unfold extract, source_variable.
    rewrite (head_filter_None _ _ Hpar). reflexivity.
  - intros vname Hin Hnone. unfold extract, source_variable.
    apply (elem_assoc _ _ _ Hk) in Hin. apply (assoc_inverse _ _ _ Hk Hv) in Hin.
    rewrite Hin. cbn [orfail mbind result_bind]. rewrite Hnone. reflexivity.
  - intros var Hvar Hrank. unfold extract. rewrite Hvar. cbn [mbind result_bind].
    destruct (length (nc_shape var)) as [|[|[|[|[|n]]]]]; try (exfalso; apply Hrank; lia);
      eexists; reflexivity.
Qed.

(** ** Queries at the edge *)

(** X14. A query without depths fails before anything is read. When the
    normalizer returns an empty [z] and the time is resolved, the call
    raises ValueError (the minimum of an empty array) and leaves the reader
    and the log as they were. *)
Theorem empty_depths_fail
    (check_arguments :
       Reader -> list string -> option datetime -> list Q -> list Q -> list Q ->
       result (list string * datetime * list Q * list Q * list Q * list (list nat)))
    (nearest_time : Reader -> datetime -> result (datetime * Z))
    (z_r : vgrid.family -> list Q -> Q -> Q -> Q -> nat -> list (list Q))
    (degrees : Q -> Q)
    (rv : list string) (time : option datetime) (x y z : list Q) (block : bool) (w : world)
    (rv' : list string) (t' : datetime) (x' y' : list Q) (outside : list (list nat))
    (nt : datetime * Z) :
  check_arguments w.1 rv time x y z = inr (rv', t', x', y', [], outside) ->
  nearest_time w.1 t' = inr nt ->
  run (get_variables check_arguments nearest_time z_r degrees rv time x y z block) w
    = (inl (ValueError "zero-size array"), w).
Proof.
  intros Hargs Hnt. unfold get_variables. rewrite run_bind.
  change (run get_self w) with (@inr exn Reader w.1, w). cbv beta iota.
  rewrite run_liftE_bind, Hargs. rewrite run_liftE_bind, Hnt. destruct nt as [nearestTime i].
  rewrite run_bind. unfold depth_levels. rewrite run_bind, run_orraise. reflexivity.
Qed.

(** Two points on the small ocean and no depth. *)
Lemma empty_depths_fail_witness :
  ocean_check_arguments ocean_world.1 ["sea_surface_height"] None surface_x surface_y []
    = inr (["sea_surface_height"], 0%Z, surface_x, surface_y, [], [[]]) /\
  ocean_nearest_time ocean_world.1 0%Z = inr (0%Z, 0%Z) /\
  run (ocean_get_variables ["sea_surface_height"] None surface_x surface_y [] false) ocean_world
    = (inl (ValueError "zero-size array"), ocean_world).
Proof.
  assert (Hargs : ocean_check_arguments ocean_world.1 ["sea_surface_height"] None surface_x
                    surface_y []
                  = inr (["sea_surface_height"], 0%Z, surface_x, surface_y, [], [[]]))
    by (vm_compute; reflexivity).
  assert (Hnt : ocean_nearest_time ocean_world.1 0%Z = inr (0%Z, 0%Z)) by reflexivity.
  split; [exact Hargs|]. split; [exact Hnt|].
  exact (empty_depths_fail ocean_check_arguments ocean_nearest_time ocean_z_r ocean_degrees
           ["sea_surface_height"] None surface_x surface_y [] false ocean_world
           ["sea_surface_height"] 0%Z surface_x surface_y [[]] (0%Z, 0%Z) Hargs Hnt).
Defined.

Lemma norm_index_Some_range (dim : nat) (i : Z) (k : nat) :
  norm_index dim i = Some k -> (- Z.of_nat dim <= i < Z.of_nat dim)%Z /\ k < dim.
Proof.
  unfold norm_index. destruct (decide (0 <= i < Z.of_nat dim)%Z) as [H|H].
  - intros [= <-]. lia.
  - destruct (decide (- Z.of_nat dim <= i < 0)%Z) as [H'|H']; [|discriminate].
    intros [= <-]. lia.
Qed.

(** Pointwise indexing raises as soon as one index of one point is beyond
    its axis. *)
Lemma np_getitem2_out_of_range {A} (a : ndarray A) (R C : nat) (iy ix : list Z) :
  shape a = [R; C] ->
  Exists (fun c => ~ (- Z.of_nat C <= c < Z.of_nat C)%Z) ix \/
  Exists (fun r => ~ (- Z.of_nat R <= r < Z.of_nat R)%Z) iy ->
  np_getitem2 a iy ix = None.
Proof.
  intros Hshape Hout. unfold np_getitem2. rewrite Hshape.
  destruct (decide (length iy = length ix)) as [Hlen|]; [|reflexivity].
  destruct (mapM _ (zip iy ix)) as [l|] eqn:E; [|reflexivity]. exfalso.
  assert (Hall : Forall (fun p : Z * Z => is_Some (norm_index R p.1) /\ is_Some (norm_index C p.2))
                   (zip iy ix)).
  { assert (Hs : is_Some (mapM (fun p : Z * Z => i ← norm_index R p.1; j ← norm_index C p.2;
                                                 flat a !! (i * C + j)) (zip iy ix)))
      by (rewrite E; eauto).
    apply mapM_is_Some in Hs. eapply Forall_impl; [exact Hs|].
    intros [r c]. simpl. intros [v Hv].
    destruct (norm_index R r) as [i|]; [|discriminate].
    destruct (norm_index C c) as [j|]; [|discriminate]. split; eauto. }
  rewrite Forall_lookup in Hall.
  destruct Hout as [Hx|Hy].
  - apply Exists_exists in Hx as (c & Hc & Hbad).
    apply list_elem_of_lookup in Hc as [k Hk].
    destruct (lookup_lt_is_Some_2 iy k) as [r Hr]; [apply lookup_lt_Some in Hk; lia|].
    assert (Hz : zip iy ix !! k = Some (r, c)).
    { rewrite lookup_zip_with, Hr. simpl. rewrite Hk. reflexivity. }
    destruct (Hall _ _ Hz) as [_ [j Hj]]. simpl in Hj.
    apply norm_index_Some_range in Hj as [Hj _]. contradiction.
  - apply Exists_exists in Hy as (r & Hr & Hbad).
    apply list_elem_of_lookup in Hr as [k Hk].
    destruct (lookup_lt_is_Some_2 ix k) as [c Hc]; [apply lookup_lt_Some in Hk; lia|].
    assert (Hz : zip iy ix !! k = Some (r, c)).
    { rewrite lookup_zip_with, Hk. simpl. rewrite Hc. reflexivity. }
    destruct (Hall _ _ Hz) as [[i Hi] _]. simpl in Hi.
    apply norm_index_Some_range in Hi as [Hi _]. contradiction.
Qed.

(** X15. The depth search looks the bottom depth up at the points as they
    were requested. On the depth path (the smallest depth is not 0), when
    the index of some point lies beyond an axis of the bottom-depth array
    (not within [[-dim, dim)]), the call raises IndexError, in block mode
    and in point mode alike: the lookup comes before the positions outside
    the domain are set to 0, and before the block is cut to the grid. *)
Theorem depth_search_reads_before_remap
    (check_arguments :
       Reader -> list string -> option datetime -> list Q -> list Q -> list Q ->
       result (list string * datetime * list Q * list Q * list Q * list (list nat)))
    (nearest_time : Reader -> datetime -> result (datetime * Z))
    (z_r : vgrid.family -> list Q -> Q -> Q -> Q -> nat -> list (list Q))
    (degrees : Q -> Q)
    (rv : list string) (time : option datetime) (x y z : list Q) (block : bool) (w : world)
    (rv' : list string) (t' : datetime) (x' y' z' : list Q) (outside : list (list nat))
    (nt : datetime * Z) (zmin : Q) (h : ndarray Q) (R C : nat) :
  check_arguments w.1 rv time x y z = inr (rv', t', x', y', z', outside) ->
  nearest_time w.1 t' = inr nt ->
  np_min z' = Some zmin -> ~ (zmin == 0)%Q ->
  bathymetry w.1 = Some h -> shape h = [R; C] ->
  Exists (fun c => ~ (- Z.of_nat C <= c < Z.of_nat C)%Z)
         (map (floor_index (xmin w.1) (delta_x w.1)) x') \/
  Exists (fun r => ~ (- Z.of_nat R <= r < Z.of_nat R)%Z)
         (map (floor_index (ymin w.1) (delta_y w.1)) y') ->
  exists w',
    run (get_variables check_arguments nearest_time z_r degrees rv time x y z block) w
      = (inl (IndexError "index out of bounds"), w').
Proof.
  intros Hargs Hnt Hzmin Hnz Hbath Hshape Hout.
  pose proof (np_getitem2_out_of_range h R C _ _ Hshape Hout) as Hnone.
  unfold get_variables. rewrite run_bind.
  change (run get_self w) with (@inr exn Reader w.1, w). cbv beta iota.
  rewrite run_liftE_bind, Hargs. rewrite run_liftE_bind, Hnt. destruct nt as [nearestTime i].
  rewrite run_bind. unfold depth_levels at 1. rewrite run_bind, run_orraise, Hzmin.
  cbn [orfail].
  destruct (Qeq_bool zmin 0) eqn:E; [apply Qeq_bool_iff in E; contradiction|].
  unfold general_depth_search. rewrite run_bind.
  change (run get_self w) with (@inr exn Reader w.1, w). cbv beta iota.
  rewrite run_bind. unfold bathymetry in Hbath.
  destruct (sea_floor_depth w.1) as [h0|].
  - injection Hbath as ->.
    change (run (mret h) w) with (@inr exn (ndarray Q) h, w). cbv beta iota.
    rewrite run_bind, run_orraise, Hnone. cbn [orfail]. eauto.
  - destruct (assoc "h" (ds_variables (Dataset w.1))) as [var|] eqn:Hvar; [|discriminate].
    injection Hbath as <-.
    rewrite run_bind.
    change (run (logging DEBUG "Reading sea floor depth...") w)
      with (@inr exn unit tt, (w.1, w.2 ++ [(DEBUG, "Reading sea floor depth...")])).
    cbv beta iota. rewrite run_bind, run_orraise. cbn [orfail].
    rewrite run_bind.
    change (run (update_self (set_sea_floor_depth (nc_all var)))
              (w.1, w.2 ++ [(DEBUG, "Reading sea floor depth...")]))
      with (@inr exn unit tt, (set_sea_floor_depth (nc_all var) w.1,
                               w.2 ++ [(DEBUG, "Reading sea floor depth...")])).
    cbv beta iota.
    change (run (mret (nc_all var)) ?s) with (@inr exn (ndarray Q) (nc_all var), s).
    cbv beta iota.
    rewrite run_bind, run_orraise, Hnone. cbn [orfail]. eauto.
Qed.

(** A point beyond the eastern edge of the small ocean, at the depth -50,
    in block mode. *)
Lemma depth_search_reads_before_remap_witness :
  ocean_check_arguments ocean_world.1 ["sea_water_temperature"] None [(41 # 2)%Q] [(5 # 2)%Q]
      [(-50)%Q]
    = inr (["sea_water_temperature"], 0%Z, [(41 # 2)%Q], [(5 # 2)%Q], [(-50)%Q], [[0]]) /\
  ocean_nearest_time ocean_world.1 0%Z = inr (0%Z, 0%Z) /\
  np_min [(-50)%Q] = Some (-50)%Q /\ ~ (-50 == 0)%Q /\
  bathymetry ocean_world.1 = Some (nc_all (field10 100%Q)) /\
  shape (nc_all (field10 100%Q)) = [10; 10] /\
  exists w',
    run (ocean_get_variables ["sea_water_temperature"] None [(41 # 2)%Q] [(5 # 2)%Q]
           [(-50)%Q] true) ocean_world
      = (inl (IndexError "index out of bounds"), w').
Proof.
  assert (Hargs : ocean_check_arguments ocean_world.1 ["sea_water_temperature"] None
                    [(41 # 2)%Q] [(5 # 2)%Q] [(-50)%Q]
                  = inr (["sea_water_temperature"], 0%Z, [(41 # 2)%Q], [(5 # 2)%Q], [(-50)%Q],
                         [[0]]))
    by (vm_compute; reflexivity).
  assert (Hnz : ~ (-50 == 0)%Q) by (intros E; discriminate E).
  split; [exact Hargs|]. split; [reflexivity|]. split; [reflexivity|]. split; [exact Hnz|].
  split; [reflexivity|]. split; [reflexivity|].
  refine (depth_search_reads_before_remap ocean_check_arguments ocean_nearest_time ocean_z_r
            ocean_degrees ["sea_water_temperature"] None [(41 # 2)%Q] [(5 # 2)%Q] [(-50)%Q]
            true ocean_world ["sea_water_temperature"] 0%Z [(41 # 2)%Q] [(5 # 2)%Q] [(-50)%Q]
            [[0]] (0%Z, 0%Z) (-50)%Q (nc_all (field10 100%Q)) 10 10
            Hargs eq_refl eq_refl Hnz eq_refl eq_refl _).
  left. apply Exists_cons_hd. vm_compute. intros [_ H]. discriminate H.
Defined.
